(** * pgtool / pg_tool: a shallow embedding of the database session layer

    The repository holds two command-line front ends for PostgreSQL:

    - the package [pgtool] ([config.py], [db.py], [render.py], [cli.py]),
      built on psycopg2, with layered configuration;
    - the single-file tool [pg_tool/cli.py], built on psycopg 3, with the
      CSV import and the interactive shell.

    Both are embedded below as functions in a small state-and-exception
    monad.  Python values are the inductive [pyval]; exceptions are the
    inductive [exn]; every mutable thing the code touches (the connection,
    the committed database, the file system, the two output streams) is a
    field of the state that the monad threads.  The database driver, the
    TOML and CSV readers, argparse and the Python builtins are external to
    the repository: they are the fields of the class [Platform]. *)

From Stdlib Require Import ZArith NArith String Ascii List Bool Lia DecimalString SpecFloat.
From stdpp Require Import base option list gmap strings.
Import ListNotations.

Set Default Proof Using "Type".

(** ** Python values *)

(** The objects that flow through configuration mappings, query parameters
    and result rows: what [tomllib.load] yields (strings, integers, floats,
    booleans, dates and times, lists, tables) and [None].  A [str] is held
    as its UTF-8 encoding, a [float] as the IEEE 754 value it is, a [date],
    [time] or [datetime] by its ISO text. *)
#[warnings="-register-all"]
Inductive pyval : Type :=
| PNone
| PBool (b : bool)
| PInt (z : Z)
| PFloat (f : spec_float)
| PStr (s : string)
| PDate (iso : string)
| PList (l : list pyval)
| PDict (d : list (string * pyval)).

Definition str_empty (s : string) : bool :=
  match s with EmptyString => true | String _ _ => false end.

(** Python truth value: what [if v], [not v] and [v or w] look at. *)
Definition truthy (v : pyval) : bool :=
  match v with
  | PNone => false
  | PBool b => b
  | PInt z => negb (z =? 0)%Z
  | PFloat f => match f with S754_zero _ => false | _ => true end
  | PStr s => negb (str_empty s)
  | PDate _ => true
  | PList l => match l with [] => false | _ => true end
  | PDict d => match d with [] => false | _ => true end
  end.

(** [a or b] *)
Definition py_or (a b : pyval) : pyval := if truthy a then a else b.

Definition is_none (v : pyval) : bool :=
  match v with PNone => true | _ => false end.

(** [d[k] = v] on a dict kept as an association list in insertion order: an
    existing key keeps its place and takes the new value. *)
Fixpoint dict_set {A : Type} (k : string) (v : A) (d : list (string * A))
  : list (string * A) :=
  match d with
  | [] => [(k, v)]
  | (k', v') :: rest =>
      if String.eqb k k' then (k, v) :: rest else (k', v') :: dict_set k v rest
  end.

Fixpoint dict_get {A : Type} (k : string) (d : list (string * A)) : option A :=
  match d with
  | [] => None
  | (k', v) :: rest => if String.eqb k k' then Some v else dict_get k rest
  end.

(** [dict(zip(keys, values))] *)
Definition dict_of_items {A : Type} (items : list (string * A)) : list (string * A) :=
  fold_left (fun d kv => dict_set (fst kv) (snd kv) d) items [].

Definition dict_keys {A : Type} (d : list (string * A)) : list string := map fst d.

(** ** Exceptions and outcomes *)

Inductive exn : Type :=
| ValueError (msg : string)
| TypeError (msg : string)
| IndexError (msg : string)
| KeyError (key : string)
| OverflowError (msg : string)
| StopIteration
| OSError (msg : string)          (* FileNotFoundError, IsADirectoryError, ... *)
| DriverError (msg : string)      (* psycopg2.Error and psycopg.Error *)
| SystemExit (code : Z).          (* raised by argparse; not an [Exception] *)

(** [except Exception] catches everything but [SystemExit]. *)
Definition is_Exception (e : exn) : bool :=
  match e with SystemExit _ => false | _ => true end.

(** [except psycopg.Error] *)
Definition is_psycopg_Error (e : exn) : bool :=
  match e with DriverError _ => true | _ => false end.

(** [str(exc)] *)
Definition exn_str (e : exn) : string :=
  match e with
  | ValueError m | TypeError m | IndexError m | OverflowError m | OSError m
  | DriverError m => m
  | KeyError k => k
  | StopIteration => ""
  | SystemExit _ => ""
  end.

Inductive outcome (A : Type) : Type :=
| Ret (a : A)
| Raise (e : exn).
Arguments Ret {A} a.
Arguments Raise {A} e.

(** A computation over a state [S]: the state survives a raised exception,
    as the effects of a Python call do. *)
Definition M (S A : Type) : Type := S -> outcome A * S.

Definition ret {S A : Type} (a : A) : M S A := fun s => (Ret a, s).

Definition raise {S A : Type} (e : exn) : M S A := fun s => (Raise e, s).

Definition bind {S A B : Type} (m : M S A) (k : A -> M S B) : M S B :=
  fun s =>
    match m s with
    | (Ret a, s') => k a s'
    | (Raise e, s') => (Raise e, s')
    end.

Declare Scope py_scope.
Delimit Scope py_scope with py.
Notation "x <- c1 ;; c2" := (bind c1 (fun x => c2))
  (at level 100, c1 at next level, right associativity) : py_scope.
Notation "c1 ;; c2" := (bind c1 (fun _ => c2))
  (at level 100, right associativity) : py_scope.
Open Scope py_scope.

(** [try: body  except <sel>: handler] *)
Definition try_except {S A : Type} (sel : exn -> bool) (body : M S A)
  (handler : exn -> M S A) : M S A :=
  fun s =>
    match body s with
    | (Ret a, s') => (Ret a, s')
    | (Raise e, s') => if sel e then handler e s' else (Raise e, s')
    end.

(** [try: body  finally: cleanup]; an exception of the cleanup replaces the
    body's. *)
Definition try_finally {S A : Type} (body : M S A) (cleanup : M S unit) : M S A :=
  fun s =>
    match body s with
    | (r, s') =>
        match cleanup s' with
        | (Ret _, s'') => (r, s'')
        | (Raise e, s'') => (Raise e, s'')
        end
    end.

(** [for x in xs: body x], stopping at the first exception. *)
Fixpoint for_each {S A : Type} (xs : list A) (body : A -> M S unit) : M S unit :=
  match xs with
  | [] => ret tt
  | x :: rest => body x ;; for_each rest body
  end.

(** ** Files *)

(** A path is the list of its components below the root. *)
Definition path : Type := list string.

Inductive node : Type :=
| Dir
| File (content : string).

Definition parent (p : path) : path := removelast p.

(** The non-empty prefixes of [p], shortest first: [p]'s ancestors and [p]. *)
Definition prefixes (p : path) : list path :=
  map (fun n => firstn n p) (seq 1 (length p)).

Definition is_file (fs : gmap path node) (p : path) : bool :=
  match fs !! p with Some (File _) => true | _ => false end.

(** The root always exists. *)
Definition is_dir (fs : gmap path node) (p : path) : bool :=
  match p with
  | [] => true
  | _ => match fs !! p with Some Dir => true | _ => false end
  end.

(** [p.mkdir(parents=True, exist_ok=True)]: an [OSError] when [p] or one of
    its ancestors is a file, and then nothing is created; otherwise every
    missing directory on the way is created. *)
Definition mkdir_parents (fs : gmap path node) (p : path) : outcome (gmap path node) :=
  if existsb (is_file fs) (prefixes p)
  then Raise (OSError "File exists or not a directory")
  else Ret (fold_left (fun acc q => <[q := Dir]> acc) (prefixes p) fs).

(** [p.open(mode w)] followed by writing [content] and closing. *)
Definition write_file (fs : gmap path node) (p : path) (content : string)
  : outcome (gmap path node) :=
  match p with
  | [] => Raise (OSError "Is a directory")
  | _ =>
      if is_dir fs p then Raise (OSError "Is a directory")
      else if is_dir fs (parent p) then Ret (<[p := File content]> fs)
      else Raise (OSError "No such file or directory")
  end.

(** [p.open(mode r)] followed by reading everything. *)
Definition read_file (fs : gmap path node) (p : path) : outcome string :=
  match fs !! p with
  | Some (File c) => Ret c
  | Some Dir => Raise (OSError "Is a directory")
  | None => match p with
            | [] => Raise (OSError "Is a directory")
            | _ => Raise (OSError "No such file or directory")
            end
  end.

(** ** SQL statements

    A statement is either SQL text or one of the statements that
    [pg_tool/cli.py] composes from identifiers with [psycopg.sql]. *)
Inductive statement : Type :=
| Sql (text : string)
| SelectAllFrom (schema name : string)
| TruncateTable (schema name : string)
| InsertInto (schema name : string) (columns : list string) (placeholders : nat).

(** ** The platform: everything outside the repository *)

Class Platform : Type := {
  (** the contents of the database server *)
  DB : Type;
  (** what the server does with a statement: an error message, or the new
      contents, the column names of the result (if it has one) and its rows *)
  server_exec : statement -> option (list pyval) -> DB ->
                string + (DB * option (list string) * list (list pyval));
  (** [connect] with keyword arguments: [Some msg] when the connection is refused *)
  connect_error : gmap string pyval -> option string;
  (** the builtin [str] on a value that is not a string *)
  repr : pyval -> string;
  (** the builtin [int] on a string other than a short string of ASCII
      digits: signs, white space, underscores, digits of other scripts and
      the limit on the length of the string are the interpreter's *)
  int_of_str : string -> option Z;
  (** [tomllib.load] *)
  tomllib_load : string -> outcome pyval;
  (** [ast.literal_eval]; [None] for [ValueError] and [SyntaxError] *)
  literal_eval : string -> option pyval;
  (** the records [csv.reader] yields for a text *)
  csv_reader : string -> list (list string);
  (** the line [csv.writer.writerow] writes for a row *)
  csv_row : list pyval -> string;
  (** [pathlib.Path(s)], [Path.expanduser], [str(path)], [Path.cwd()],
      [Path.home()] *)
  Path_ : string -> path;
  expanduser : path -> path;
  path_str : path -> string;
  cwd : path;
  home : path;
  (** [os.environ.items()] *)
  environ : list (string * string);
  (** what the operator types at [getpass.getpass] *)
  getpass : string
}.

(** [str(v)] *)
Definition py_str `{Platform} (v : pyval) : string :=
  match v with PStr s => s | _ => repr v end.

(** ** The world a process runs in *)

Record world `{Platform} : Type := mk_world {
  durable : DB;                    (* the committed contents of the database *)
  files : gmap path node;
  stdout : list string;            (* what was written, oldest first: one
                                      entry for each print and each prompt *)
  stderr : list string
}.
Arguments mk_world {_} _ _ _ _.

Definition set_durable `{Platform} (d : DB) (w : world) : world :=
  mk_world d (files w) (stdout w) (stderr w).
Definition set_files `{Platform} (fs : gmap path node) (w : world) : world :=
  mk_world (durable w) fs (stdout w) (stderr w).

(** [print(line)] and [print(line, file=sys.stderr)], with the object state
    [O] of the caller left alone. *)
Definition print `{Platform} {O : Type} (line : string) : M (O * world) unit :=
  fun s => (Ret tt, (fst s, mk_world (durable (snd s)) (files (snd s))
                                    (stdout (snd s) ++ [line]) (stderr (snd s)))).
Definition eprint `{Platform} {O : Type} (line : string) : M (O * world) unit :=
  fun s => (Ret tt, (fst s, mk_world (durable (snd s)) (files (snd s))
                                    (stdout (snd s)) (stderr (snd s) ++ [line]))).

(** The prompt that [input(prompt)] writes before it reads. *)
Definition write_prompt `{Platform} {O : Type} (prompt : string) : M (O * world) unit :=
  print prompt.

(** Lifting the file operations. *)
Definition read_text `{Platform} {O : Type} (p : path) : M (O * world) string :=
  fun s => (read_file (files (snd s)) p, s).

Definition fs_update `{Platform} {O : Type}
  (op : gmap path node -> outcome (gmap path node)) : M (O * world) unit :=
  fun s =>
    match op (files (snd s)) with
    | Ret fs' => (Ret tt, (fst s, set_files fs' (snd s)))
    | Raise e => (Raise e, s)
    end.

(** ** The database driver

    psycopg2 and psycopg 3 are used through [connect], [cursor], [execute],
    [executemany], [fetchall], [commit] and [close].  A connection that is
    not in autocommit mode opens a transaction at its first statement and
    works on a private copy of the database until [commit]; a statement that
    fails leaves the transaction aborted; [close] discards what was not
    committed.  The statements of the model leave the transaction to the
    driver: a text that holds a [COMMIT] or a [ROLLBACK] of its own is not
    among them. *)

Inductive tx_status `{Platform} : Type :=
| Idle
| InTrans (work : DB)
| InError.
Arguments Idle {_}.
Arguments InTrans {_} work.
Arguments InError {_}.

Record conn `{Platform} : Type := mk_conn {
  closed : bool;
  autocommit : bool;
  tx : tx_status
}.
Arguments mk_conn {_} _ _ _.

Record cursor : Type := mk_cursor {
  description : option (list string);
  rows : list (list pyval)
}.

Definition fresh_conn `{Platform} : conn := mk_conn false false Idle.

Definition set_autocommit `{Platform} (b : bool) (c : conn) : conn :=
  mk_conn (closed c) b (tx c).
Definition set_tx `{Platform} (t : tx_status) (c : conn) : conn :=
  mk_conn (closed c) (autocommit c) t.

(** The driver refuses a composed insert whose parameters do not fill its
    placeholders, before the statement is sent. *)
Definition placeholders_match (stmt : statement) (params : option (list pyval)) : bool :=
  match stmt, params with
  | InsertInto _ _ _ n, Some ps => Nat.eqb (length ps) n
  | _, _ => true
  end.

(** What the driver raises on a connection that was closed. *)
Definition connection_closed : exn := DriverError "the connection is closed".

(** [connection.cursor()] *)
Definition drv_cursor `{Platform} (c : conn) : outcome unit :=
  if closed c then Raise connection_closed else Ret tt.

(** The database as the connection sees it: its own copy inside a
    transaction, the committed contents otherwise. *)
Definition conn_view `{Platform} (c : conn) (d : DB) : DB :=
  match tx c with
  | InTrans w => w
  | _ => d
  end.

(** The transaction that the driver opens, outside autocommit mode, before
    it looks at the first statement of an idle connection. *)
Definition begin_transaction `{Platform} (c : conn) (d : DB) : conn :=
  if autocommit c then c
  else match tx c with
       | Idle => set_tx (InTrans d) c
       | _ => c
       end.

(** [cursor.execute(stmt, params)]: the driver opens the transaction, fills
    the placeholders and sends the statement; the server refuses every
    statement in an aborted transaction. *)
Definition drv_execute `{Platform} (stmt : statement) (params : option (list pyval))
  (c : conn) (d : DB) : outcome cursor * conn * DB :=
  if closed c then (Raise connection_closed, c, d)
  else if negb (placeholders_match stmt params)
  then (Raise (DriverError "the query has different numbers of placeholders and parameters"),
        begin_transaction c d, d)
  else
    match tx c with
    | InError =>
        (Raise (DriverError "current transaction is aborted"), c, d)
    | _ =>
          match server_exec stmt params (conn_view c d) with
          | inl msg =>
              (Raise (DriverError msg),
               if autocommit c then c else set_tx InError c, d)
          | inr (view', desc, rws) =>
              if autocommit c
              then (Ret (mk_cursor desc rws), c, view')
              else (Ret (mk_cursor desc rws), set_tx (InTrans view') c, d)
          end
    end.

(** [connection.commit()]: ends the transaction; an aborted one is rolled
    back. *)
Definition drv_commit `{Platform} (c : conn) (d : DB) : outcome unit * conn * DB :=
  if closed c then (Raise connection_closed, c, d)
  else
    match tx c with
    | Idle => (Ret tt, c, d)
    | InTrans w => (Ret tt, set_tx Idle c, w)
    | InError => (Ret tt, set_tx Idle c, d)
    end.

(** [connection.close()]: what was not committed is lost. *)
Definition drv_close `{Platform} (c : conn) : conn := mk_conn true (autocommit c) Idle.

(** [cursor.fetchall()] *)
Definition fetchall {S : Type} (cur : cursor) : M S (list (list pyval)) :=
  match description cur with
  | None => raise (DriverError "the last operation did not produce a result")
  | Some _ => ret (rows cur)
  end.

(** ** String helpers: [str.startswith], slicing, [str.lower], [int] *)

Definition startswith (s pre : string) : bool := String.prefix pre s.

(** [s[n:]] *)
Fixpoint str_drop (n : nat) (s : string) : string :=
  match n, s with
  | O, _ => s
  | S n', String _ rest => str_drop n' rest
  | S _, EmptyString => EmptyString
  end.

Definition lower_char (c : ascii) : ascii :=
  let n := nat_of_ascii c in
  if (Nat.leb 65 n && Nat.leb n 90)%bool then ascii_of_nat (n + 32) else c.

Fixpoint lower (s : string) : string :=
  match s with
  | EmptyString => EmptyString
  | String c rest => String (lower_char c) (lower rest)
  end.

Definition is_digit_char (c : ascii) : bool :=
  let n := nat_of_ascii c in (Nat.leb 48 n && Nat.leb n 57)%bool.

Fixpoint all_digits (s : string) : bool :=
  match s with
  | EmptyString => true
  | String c rest => (is_digit_char c && all_digits rest)%bool
  end.

(** A non-empty string of the ASCII digits [0] to [9]. *)
Definition decimal_digits (s : string) : bool :=
  (negb (str_empty s) && all_digits s)%bool.

(** The value of a string of decimal digits. *)
Fixpoint decimal_from (acc : Z) (s : string) : Z :=
  match s with
  | EmptyString => acc
  | String c rest => decimal_from (10 * acc + Z.of_nat (nat_of_ascii c - 48))%Z rest
  end.

(** [int(f)] on a float: the value cut off towards zero; no integer for a
    NaN and for an infinity. *)
Definition int_of_float (f : spec_float) : outcome Z :=
  match f with
  | S754_zero _ => Ret 0%Z
  | S754_infinity _ => Raise (OverflowError "cannot convert float infinity to integer")
  | S754_nan => Raise (ValueError "cannot convert float NaN to integer")
  | S754_finite negative m e =>
      let magnitude :=
        if (0 <=? e)%Z then Z.shiftl (Z.pos m) e else Z.shiftr (Z.pos m) (- e) in
      Ret (if negative then - magnitude else magnitude)%Z
  end.

(** The longest string of digits that [int] converts whatever the limit on
    integer string conversion is set to ([sys.int_info]'s
    [str_digits_check_threshold]; the limit itself is 4300 digits unless the
    operator changes it). *)
Definition str_digits_check_threshold : nat := 640.

(** The builtin [int]. *)
Definition py_int `{Platform} (v : pyval) : outcome Z :=
  match v with
  | PInt z => Ret z
  | PBool b => Ret (if b then 1 else 0)%Z
  | PFloat f => int_of_float f
  | PStr s =>
      if (decimal_digits s && Nat.leb (String.length s) str_digits_check_threshold)%bool
      then Ret (decimal_from 0 s)
      else match int_of_str s with
           | Some z => Ret z
           | None => Raise (ValueError "invalid literal for int()")
           end
  | _ => Raise (TypeError "int() argument must be a string or a real number")
  end.

Definition lift {S A : Type} (o : outcome A) : M S A := fun s => (o, s).

(** * pgtool/config.py *)

Module pgtool_config.

(** [DatabaseConfig]: a scalar field that is not set holds [None]. *)
Record DatabaseConfig : Type := mk_config {
  host : pyval;
  port : pyval;
  user : pyval;
  password : pyval;
  database : pyval;
  dsn : pyval;
  options : gmap string string
}.

(** [DatabaseConfig()] *)
Definition empty_config : DatabaseConfig :=
  mk_config PNone PNone PNone PNone PNone PNone ∅.

Definition merged_with (self other : DatabaseConfig) : DatabaseConfig :=
  {| host := py_or (host other) (host self);
     port := py_or (port other) (port self);
     user := py_or (user other) (user self);
     password := py_or (password other) (password self);
     database := py_or (database other) (database self);
     dsn := py_or (dsn other) (dsn self);
     (* the dict built from self.options then other.options *)
     options := options other ∪ options self |}.

Definition to_connect_kwargs (self : DatabaseConfig) : gmap string pyval :=
  if truthy (dsn self) then {[ "dsn" := dsn self ]}
  else
    let kwargs : gmap string pyval :=
      list_to_map
        (filter (fun kv => is_none (snd kv) = false)
           [("host", host self); ("port", port self); ("user", user self);
            ("password", password self); ("dbname", database self)]) in
    (* kwargs.update(self.options) *)
    (PStr <$> options self) ∪ kwargs.

(** [mapping.get(key)] *)
Definition mapping_get (key : string) (mapping : list (string * pyval)) : pyval :=
  default PNone (dict_get key mapping).

Definition from_mapping `{Platform} (mapping : list (string * pyval))
  : outcome DatabaseConfig :=
  let opts : list (string * pyval) :=
    match mapping_get "options" mapping with
    | PDict d => d
    | _ => []
    end in
  let port0 := mapping_get "port" mapping in
  (* The three branches on the port: a string of digits, a float or an
     integer, anything else.  Each of them is [int(port)], but for [None] in
     the last one; a string that [isdigit] does not take gets there too. *)
  let port1 : outcome pyval :=
    match port0 with
    | PNone => Ret PNone
    | _ => match py_int port0 with Ret z => Ret (PInt z) | Raise e => Raise e end
    end in
  match port1 with
  | Raise e => Raise e
  | Ret p =>
      Ret {| host := py_or (mapping_get "host" mapping) PNone;
             port := p;
             user := py_or (mapping_get "user" mapping) PNone;
             password := py_or (mapping_get "password" mapping) PNone;
             database := py_or (mapping_get "database" mapping) PNone;
             dsn := py_or (mapping_get "dsn" mapping) PNone;
             options :=
               fold_left (fun acc kv => <[fst kv := py_str (snd kv)]> acc) opts ∅ |}
  end.

(** One turn of the loop of [from_environment] over [os.environ.items()]:
    [acc] is the pair of the dicts [data] and [options]. *)
Definition env_step (prefix : string)
  (acc : list (string * pyval) * list (string * string)) (kv : string * string)
  : list (string * pyval) * list (string * string) :=
  let key := fst kv in
  let value := snd kv in
  if negb (startswith key prefix) then acc
  else
    let raw_key := str_drop (String.length prefix) key in
    if startswith raw_key "OPTION_"
    then (fst acc, dict_set (lower (str_drop 7 raw_key)) value (snd acc))
    else (dict_set (lower raw_key) (PStr value) (fst acc), snd acc).

Definition from_environment `{Platform} (prefix : string) : outcome DatabaseConfig :=
  let acc := fold_left (env_step prefix) environ ([], []) in
  let data :=
    match snd acc with
    | [] => fst acc
    | opts => dict_set "options" (PDict (map (fun kv => (fst kv, PStr (snd kv))) opts)) (fst acc)
    end in
  from_mapping data.

Definition DEFAULT_CONFIG_LOCATIONS `{Platform} : list path :=
  [ cwd ++ ["pgtool.toml"];
    home ++ [".pgtool.toml"];
    home ++ [".config"; "pgtool"; "config.toml"] ].

(** The body of the loop of [load_config] for a candidate that is a file. *)
Definition load_candidate `{Platform} {O : Type} (candidate : path)
  : M (O * world) DatabaseConfig :=
  text <- read_text candidate ;;
  data <- lift (tomllib_load text) ;;
  match data with
  | PDict d =>
      match mapping_get "database" d with
      | PDict db_section => lift (from_mapping db_section)
      | _ => raise (ValueError ("Configuration file " +:+ path_str candidate
                                +:+ " missing [database] section"))
      end
  | _ => raise (ValueError ("Configuration file " +:+ path_str candidate
                            +:+ " missing [database] section"))
  end.

Fixpoint load_first `{Platform} {O : Type} (candidates : list path)
  : M (O * world) DatabaseConfig :=
  match candidates with
  | [] => ret empty_config
  | candidate :: rest =>
      fun s =>
        if is_file (files (snd s)) candidate
        then load_candidate candidate s
        else load_first rest s
  end.

Definition candidate_paths `{Platform} (path_arg : option string) : list path :=
  match path_arg with
  | Some p => if str_empty p then DEFAULT_CONFIG_LOCATIONS else [Path_ p]
  | None => DEFAULT_CONFIG_LOCATIONS
  end.

Definition load_config `{Platform} {O : Type} (path_arg : option string)
  : M (O * world) DatabaseConfig :=
  load_first (candidate_paths path_arg).

Definition merge_configs (configs : list DatabaseConfig) : DatabaseConfig :=
  fold_left merged_with configs empty_config.

End pgtool_config.

(** [needle in s] for a one-character needle *)
Fixpoint contains_char (c : ascii) (s : string) : bool :=
  match s with
  | EmptyString => false
  | String c' rest => (Ascii.eqb c c' || contains_char c rest)%bool
  end.

Definition dot : ascii := ascii_of_nat 46.
Definition nl : string := String (ascii_of_nat 10) EmptyString.

(** Whether [cursor.description] is true: present and not empty. *)
Definition has_columns (cur : cursor) : bool :=
  match description cur with
  | Some (_ :: _) => true
  | _ => false
  end.

Definition column_names (cur : cursor) : list string :=
  default [] (description cur).

(** * pgtool/db.py *)

Module pgtool_db.
Import pgtool_config.

(** The attributes of a [DatabaseConnection]. *)
Record DatabaseConnection `{Platform} : Type := mk_db {
  _config : DatabaseConfig;
  _connection : option conn
}.
Arguments mk_db {_} _ _.

Definition state `{Platform} : Type := (DatabaseConnection * world)%type.

(** [DatabaseConnection(config)] *)
Definition init `{Platform} (config : DatabaseConfig) : DatabaseConnection :=
  mk_db config None.

(** [connect]: opens the connection when there is none.  The connection
    object it returns is [self._connection]; the driver calls that follow
    act on it through [on_connection]. *)
Definition connect `{Platform} : M state unit :=
  fun s =>
    match _connection (fst s) with
    | Some _ => (Ret tt, s)
    | None =>
        match connect_error (to_connect_kwargs (_config (fst s))) with
        | Some msg => (Raise (DriverError msg), s)
        | None => (Ret tt, (mk_db (_config (fst s)) (Some fresh_conn), snd s))
        end
    end.

(** A driver call on the connection that [connect] returned. *)
Definition on_connection `{Platform} {A : Type}
  (op : conn -> DB -> outcome A * conn * DB) : M state A :=
  fun s =>
    match _connection (fst s) with
    | None => (Raise (TypeError "no connection"), s)
    | Some c =>
        match op c (durable (snd s)) with
        | (r, c', d') =>
            (r, (mk_db (_config (fst s)) (Some c'), set_durable d' (snd s)))
        end
    end.

(** [close]: the connection is closed and forgotten; what it had not
    committed is lost with it. *)
Definition close `{Platform} : M state unit :=
  fun s =>
    match _connection (fst s) with
    | Some c => (Ret tt, (mk_db (_config (fst s)) None, snd s))
    | None => (Ret tt, s)
    end.

(** [with self.cursor() as cursor: body] *)
Definition with_cursor `{Platform} {A : Type} (body : M state A) : M state A :=
  connect ;;
  on_connection (fun c d => (drv_cursor c, c, d)) ;;
  try_finally body (ret tt).

Definition run_query `{Platform} (query : string) (params : option (list pyval))
  (fetch : bool) : M state (list string * list (list pyval)) :=
  with_cursor
    (cur <- on_connection (drv_execute (Sql query) params) ;;
     res <- (if (fetch && has_columns cur)%bool
             then (rws <- fetchall cur ;; ret (column_names cur, rws))
             else ret ([], [])) ;;
     (if negb fetch then (connect ;; on_connection drv_commit) else ret tt) ;;
     ret res).

Definition list_tables_query (include_system : bool) : string :=
  let schema_filter :=
    if include_system then EmptyString
    else "AND table_schema NOT IN ('pg_catalog', 'information_schema')" in
  nl +:+ "        SELECT table_schema, table_name" +:+
  nl +:+ "        FROM information_schema.tables" +:+
  nl +:+ "        WHERE table_type = 'BASE TABLE'" +:+
  nl +:+ "        " +:+ schema_filter +:+
  nl +:+ "        ORDER BY table_schema, table_name" +:+
  nl +:+ "        ".

Definition list_tables `{Platform} (include_system : bool)
  : M state (list (list pyval)) :=
  res <- run_query (list_tables_query include_system) None true ;;
  ret (snd res).

Definition describe_table_query : string :=
  nl +:+ "        SELECT column_name, data_type, is_nullable, column_default" +:+
  nl +:+ "        FROM information_schema.columns" +:+
  nl +:+ "        WHERE table_schema = split_part(%s, '.', 1)" +:+
  nl +:+ "          AND table_name = split_part(%s, '.', 2)" +:+
  nl +:+ "        ORDER BY ordinal_position" +:+
  nl +:+ "        ".

Definition describe_table `{Platform} (table : string) : M state (list (list pyval)) :=
  let schema_table := if contains_char dot table then table else "public." +:+ table in
  res <- run_query describe_table_query (Some [PStr schema_table; PStr schema_table]) true ;;
  ret (snd res).

(** What [csv.writer] leaves in the file after [writerow(columns)] and
    [writerows(rows)]. *)
Definition csv_text `{Platform} (columns : list string) (rws : list (list pyval)) : string :=
  fold_left String.append (map csv_row (map PStr columns :: rws)) EmptyString.

Definition export_to_csv `{Platform} (query : string) (destination : path)
  (params : option (list pyval)) : M state path :=
  res <- run_query query params true ;;
  match fst res with
  | [] => raise (ValueError "Query did not return any data to export")
  | _ =>
      fs_update (fun fs => mkdir_parents fs (parent destination)) ;;
      fs_update (fun fs => write_file fs destination (csv_text (fst res) (snd res))) ;;
      ret destination
  end.

Definition execute_script `{Platform} (sql : string) : M state unit :=
  with_cursor (on_connection (drv_execute (Sql sql) None) ;; ret tt) ;;
  connect ;;
  on_connection drv_commit.

(** [cursor.fetchmany(size)] on the rows that were not fetched yet: the
    batch, and the rows left.  A negative size asks for all of them. *)
Definition fetchmany (size : Z) (remaining : list (list pyval))
  : list (list pyval) * list (list pyval) :=
  if (size <? 0)%Z then (remaining, [])
  else (firstn (Z.to_nat size) remaining, skipn (Z.to_nat size) remaining).

(** The [while True] loop of [iter_query]: the rows it yields, in order.
    Every turn but the last takes at least one row, so that [fuel] turns are
    enough as soon as [fuel] is more than the number of rows. *)
Fixpoint yield_batches (fuel : nat) (chunk_size : Z) (remaining : list (list pyval))
  : list (list pyval) :=
  match fuel with
  | O => []
  | S fuel' =>
      match fst (fetchmany chunk_size remaining) with
      | [] => []
      | chunk => chunk ++ yield_batches fuel' chunk_size (snd (fetchmany chunk_size remaining))
      end
  end.

(** [iter_query], read as the rows that the generator yields when it is
    consumed to its end; the driver refuses to fetch from a cursor that has
    no result. *)
Definition iter_query `{Platform} (query : string) (params : option (list pyval))
  (chunk_size : Z) : M state (list (list pyval)) :=
  with_cursor
    (cur <- on_connection (drv_execute (Sql query) params) ;;
     match description cur with
     | None => raise (DriverError "no results to fetch")
     | Some _ => ret (yield_batches (S (length (rows cur))) chunk_size (rows cur))
     end).

(** [with DatabaseConnection(config) as db: body]: [__enter__] connects,
    [__exit__] closes on every way out of the body. *)
Definition with_connection `{Platform} {A : Type} (body : M state A) : M state A :=
  connect ;;
  try_finally body close.

End pgtool_db.

(** ** More string helpers: characters, [len], [str.strip], [str.split],
    [str.ljust], [str.join]

    A string is the UTF-8 encoding of a [str]: a character is one byte that
    is not a continuation byte, with the continuation bytes that follow
    it. *)

Definition is_continuation (c : ascii) : bool :=
  let n := nat_of_ascii c in (Nat.leb 128 n && Nat.leb n 191)%bool.

(** [len(s)]: the number of characters. *)
Fixpoint py_len (s : string) : nat :=
  match s with
  | EmptyString => 0
  | String c rest => if is_continuation c then py_len rest else S (py_len rest)
  end.

(** The characters of a string, each as the string of its bytes. *)
Fixpoint chars (s : string) : list string :=
  match s with
  | EmptyString => []
  | String c rest =>
      match chars rest with
      | String c' more :: others =>
          if is_continuation c' then String c (String c' more) :: others
          else String c EmptyString :: String c' more :: others
      | others => String c EmptyString :: others
      end
  end.

(** The encoding of the character with the code point [code]. *)
Definition utf8 (code : N) : string :=
  let byte (n : N) := ascii_of_N n in
  let continuation (n : N) := byte (128 + n mod 64)%N in
  if (code <? 128)%N then String (byte code) EmptyString
  else if (code <? 2048)%N then
    String (byte (192 + code / 64)%N) (String (continuation code) EmptyString)
  else if (code <? 65536)%N then
    String (byte (224 + code / 4096)%N)
      (String (continuation (code / 64)%N) (String (continuation code) EmptyString))
  else
    String (byte (240 + code / 262144)%N)
      (String (continuation (code / 4096)%N)
         (String (continuation (code / 64)%N) (String (continuation code) EmptyString))).

(** The code points of the characters that [str.isspace], [str.strip] and
    [str.split] take for white space: the ASCII ones, U+0085, U+00A0, U+1680,
    U+2000 to U+200A, U+2028, U+2029, U+202F, U+205F and U+3000. *)
Definition white_space : list N :=
  [9; 10; 11; 12; 13; 28; 29; 30; 31; 32; 133; 160; 5760;
   8192; 8193; 8194; 8195; 8196; 8197; 8198; 8199; 8200; 8201; 8202;
   8232; 8233; 8239; 8287; 12288]%N.

Definition is_space (char : string) : bool :=
  existsb (fun code => String.eqb char (utf8 code)) white_space.

Fixpoint drop_spaces (cs : list string) : list string :=
  match cs with
  | [] => []
  | char :: rest => if is_space char then drop_spaces rest else cs
  end.

Definition of_chars (cs : list string) : string := String.concat EmptyString cs.

Definition lstrip (s : string) : string := of_chars (drop_spaces (chars s)).

Definition rstrip (s : string) : string :=
  of_chars (rev (drop_spaces (rev (chars s)))).

(** [s.strip()] *)
Definition strip (s : string) : string :=
  of_chars (rev (drop_spaces (rev (drop_spaces (chars s))))).

(** [s.split()]: the maximal runs of characters that are not white space.
    [cur] is the run being read. *)
Fixpoint split_ws_from (cur : string) (cs : list string) : list string :=
  match cs with
  | [] => if str_empty cur then [] else [cur]
  | char :: rest =>
      if is_space char
      then (if str_empty cur then split_ws_from EmptyString rest
            else cur :: split_ws_from EmptyString rest)
      else split_ws_from (cur +:+ char) rest
  end.

Definition split_ws (s : string) : list string := split_ws_from EmptyString (chars s).

(** [s.split(c, 1)] when [c] occurs in [s]: what stands before the first [c]
    and what stands after it. *)
Fixpoint split_once (c : ascii) (s : string) : string * string :=
  match s with
  | EmptyString => (EmptyString, EmptyString)
  | String c' rest =>
      if Ascii.eqb c c' then (EmptyString, rest)
      else (String c' (fst (split_once c rest)), snd (split_once c rest))
  end.

Fixpoint repeat_char (c : ascii) (n : nat) : string :=
  match n with
  | O => EmptyString
  | S n' => String c (repeat_char c n')
  end.

(** [s.ljust(width)] *)
Definition ljust (s : string) (width : nat) : string :=
  s +:+ repeat_char (ascii_of_nat 32) (width - py_len s).

Definition join (sep : string) (parts : list string) : string := String.concat sep parts.

(** [with_object o m]: runs [m] on an object [o] created here; the object
    is dropped when [m] is over, the world stays. *)
Definition with_object `{Platform} {O O' A : Type} (o : O') (m : M (O' * world) A)
  : M (O * world) A :=
  fun s =>
    match m (o, snd s) with
    | (r, s') => (r, (fst s, snd s'))
    end.

(** * pgtool/render.py *)

Module pgtool_render.

(** The marker for [None] is the literal of the source, the three
    characters U+00E2, U+02C6 and U+2026. *)
Definition stringify `{Platform} (value : pyval) : string :=
  match value with
  | PNone => "âˆ…"
  | _ => py_str value
  end.

(** The inner loop over [enumerate(row)] that widens the columns;
    [widths[idx]] raises [IndexError] past the last header. *)
Fixpoint widen (widths : list nat) (idx : nat) (row : list string) : outcome (list nat) :=
  match row with
  | [] => Ret widths
  | cell :: rest =>
      match widths !! idx with
      | None => Raise (IndexError "list index out of range")
      | Some w => widen (<[idx := Nat.max w (py_len cell)]> widths) (S idx) rest
      end
  end.

Fixpoint widen_all (widths : list nat) (rws : list (list string)) : outcome (list nat) :=
  match rws with
  | [] => Ret widths
  | row :: rest =>
      match widen widths 0 row with
      | Ret widths' => widen_all widths' rest
      | Raise e => Raise e
      end
  end.

(** [cells]: [idx] is the position of the first cell of [row]. *)
Fixpoint format_cells (widths : list nat) (idx : nat) (row : list string) : list string :=
  match row with
  | [] => []
  | cell :: rest => ljust cell (nth idx widths 0) :: format_cells widths (S idx) rest
  end.

Definition format_row (widths : list nat) (row : list string) : string :=
  join " | " (format_cells widths 0 row).

Definition format_table `{Platform} (headers : list string) (rws : list (list pyval))
  : outcome string :=
  let srows := map (map stringify) rws in
  match headers with
  | [] => Ret "(No rows)"
  | _ =>
      match widen_all (map py_len headers) srows with
      | Raise e => Raise e
      | Ret widths =>
          let header_line := format_row widths headers in
          let separator := join "-+-" (map (repeat_char (ascii_of_nat 45)) widths) in
          let body_lines := map (format_row widths) srows in
          match body_lines with
          | [] => Ret (join nl [header_line; separator; "(No rows)"])
          | _ => Ret (join nl (header_line :: separator :: body_lines))
          end
      end
  end.

End pgtool_render.

(** A string argument that argparse may have left at [None]. *)
Definition opt_str (o : option string) : pyval :=
  match o with Some s => PStr s | None => PNone end.

Definition opt_int (o : option Z) : pyval :=
  match o with Some z => PInt z | None => PNone end.

(** Truth value of an optional string argument. *)
Definition given (o : option string) : bool :=
  match o with Some s => negb (str_empty s) | None => false end.

(** * pgtool/cli.py *)

Module pgtool_cli.
Import pgtool_config pgtool_db pgtool_render.

(** The sub-command of the namespace, with its own arguments; argparse admits
    no other value of [args.command]. *)
Inductive command : Type :=
| CmdQuery (sql file : option string) (no_fetch : bool) (params : list string)
| CmdTables (include_system : bool)
| CmdDescribe (table : string)
| CmdExport (output : string) (sql file : option string) (params : list string)
| CmdScript (script_path : string).

(** The namespace that [build_parser().parse_args] returns. *)
Record Namespace : Type := mk_args {
  arg_config : option string;
  arg_dsn : option string;
  arg_host : option string;
  arg_port : option Z;
  arg_user : option string;
  arg_password : option string;
  arg_database : option string;
  arg_option : list string;
  arg_command : command
}.

(** [parser.parse_args(argv)]: argparse leaves through [SystemExit] on a
    wrong command line. *)
Class Parser : Type := { parse_args : list string -> outcome Namespace }.

Definition equals_sign : ascii := ascii_of_nat 61.

Fixpoint parse_options_from (parsed : list (string * string)) (opts : list string)
  : outcome (list (string * string)) :=
  match opts with
  | [] => Ret parsed
  | option :: rest =>
      if negb (contains_char equals_sign option)
      then Raise (ValueError
                    ("Параметр опции должен быть в формате KEY=VALUE, получено: "
                     +:+ option))
      else
        let kv := split_once equals_sign option in
        parse_options_from (dict_set (strip (fst kv)) (strip (snd kv)) parsed) rest
  end.

Definition parse_options (opts : list string) : outcome (list (string * string)) :=
  parse_options_from [] opts.

Definition parse_params `{Platform} (params : list string) : list pyval :=
  map (fun param => match literal_eval param with
                    | Some v => v
                    | None => PStr param
                    end) params.

Definition read_sql `{Platform} {O : Type} (sql file_path : option string)
  : M (O * world) string :=
  if (given sql && given file_path)%bool
  then raise (ValueError "Нельзя одновременно передать SQL и путь до файла")
  else if given sql then ret (default EmptyString sql)
  else if given file_path then read_text (Path_ (default EmptyString file_path))
  else raise (ValueError "Нужно передать SQL выражение либо путь до файла").

Definition build_config `{Platform} {O : Type} (args : Namespace)
  : M (O * world) DatabaseConfig :=
  file_config <- load_config (arg_config args) ;;
  env_config <- lift (from_environment "PGTOOL_") ;;
  option_mapping <- lift (parse_options (arg_option args)) ;;
  let mapping :=
    [ ("host", opt_str (arg_host args)); ("port", opt_int (arg_port args));
      ("user", opt_str (arg_user args)); ("password", opt_str (arg_password args));
      ("database", opt_str (arg_database args)); ("dsn", opt_str (arg_dsn args));
      ("options", PDict (map (fun kv => (fst kv, PStr (snd kv))) option_mapping)) ] in
  cli_config <- lift (from_mapping mapping) ;;
  ret (merge_configs [file_config; env_config; cli_config]).

Definition handle_query `{Platform} (sql file : option string) (no_fetch : bool)
  (params : list string) : M state unit :=
  text <- read_sql sql file ;;
  res <- run_query text (Some (parse_params params)) (negb no_fetch) ;;
  if no_fetch then print "Запрос выполнен успешно, результаты не возвращены"
  else
    match snd res with
    | [] => print "(Нет строк)"
    | _ => table <- lift (format_table (fst res) (snd res)) ;; print table
    end.

Definition handle_tables `{Platform} (include_system : bool) : M state unit :=
  rws <- list_tables include_system ;;
  match rws with
  | [] => print "(Нет таблиц)"
  | _ => table <- lift (format_table ["schema"; "table"] rws) ;; print table
  end.

Definition handle_describe `{Platform} (table : string) : M state unit :=
  rws <- describe_table table ;;
  match rws with
  | [] => print "Таблица не найдена или не содержит колонок"
  | _ =>
      text <- lift (format_table ["column"; "type"; "nullable"; "default"] rws) ;;
      print text
  end.

Definition handle_export `{Platform} (output : string) (sql file : option string)
  (params : list string) : M state unit :=
  text <- read_sql sql file ;;
  let destination := Path_ output in
  export_to_csv text destination (Some (parse_params params)) ;;
  print ("Результат сохранён в " +:+ path_str destination).

Definition handle_script `{Platform} (script_path : string) : M state unit :=
  sql <- read_text (Path_ script_path) ;;
  execute_script sql ;;
  print "Скрипт выполнен успешно".

Definition dispatch `{Platform} (cmd : command) : M state unit :=
  match cmd with
  | CmdQuery sql file no_fetch params => handle_query sql file no_fetch params
  | CmdTables include_system => handle_tables include_system
  | CmdDescribe table => handle_describe table
  | CmdExport output sql file params => handle_export output sql file params
  | CmdScript script_path => handle_script script_path
  end.

(** The body of the [try] of [main]. *)
Definition main_body `{Platform} `{Parser} (argv : list string) : M (unit * world) unit :=
  args <- lift (parse_args argv) ;;
  config <- build_config args ;;
  with_object (init config) (with_connection (dispatch (arg_command args))).

Definition main `{Platform} `{Parser} (argv : list string) : M (unit * world) Z :=
  try_except is_Exception
    (main_body argv ;; ret 0%Z)
    (fun exc => eprint ("Ошибка: " +:+ exn_str exc) ;; ret 1%Z).

End pgtool_cli.

(** * pg_tool/cli.py *)

Module pg_tool_cli.

Record ConnectionConfig : Type := mk_cc {
  dsn : option string;
  host : option string;
  port : Z;
  dbname : option string;
  user : option string;
  password : option string;
  autocommit_flag : bool           (* the field [autocommit] *)
}.

Inductive command : Type :=
| CmdShell
| CmdTables (schema : option string)
| CmdDescribe (table : string)
| CmdQuery (sql : string)
| CmdExport (table : string) (dest : string)
| CmdImport (table : string) (src : string) (truncate : bool).

(** The namespace of [parse_args]; [arg_command] is [None] when no
    sub-command is given. *)
Record Namespace : Type := mk_args {
  arg_dsn : option string;
  arg_host : option string;
  arg_port : Z;
  arg_dbname : option string;
  arg_user : option string;
  arg_password : option string;
  arg_ask_password : bool;
  arg_autocommit : bool;
  arg_command : option command
}.

Class Parser : Type := { parse_args : list string -> outcome Namespace }.

Definition from_args `{Platform} (args : Namespace) : ConnectionConfig :=
  let pw :=
    match arg_password args with
    | None => if arg_ask_password args then Some getpass else None
    | Some p => Some p
    end in
  mk_cc (arg_dsn args) (arg_host args) (arg_port args) (arg_dbname args)
        (arg_user args) pw (arg_autocommit args).

(** [kwargs[key] = value] when the optional string is true *)
Definition put_if_given (key : string) (o : option string) (kwargs : gmap string pyval)
  : gmap string pyval :=
  if given o then <[key := opt_str o]> kwargs else kwargs.

Definition to_connection_kwargs (self : ConnectionConfig) : gmap string pyval :=
  if given (dsn self) then {[ "conninfo" := opt_str (dsn self) ]}
  else
    let k1 := put_if_given "host" (host self) ∅ in
    let k2 := if (port self =? 0)%Z then k1 else <["port" := PInt (port self)]> k1 in
    let k3 := put_if_given "dbname" (dbname self) k2 in
    let k4 := put_if_given "user" (user self) k3 in
    put_if_given "password" (password self) k4.

Definition _parse_table_name (table : string) : string * string :=
  if contains_char dot table then split_once dot table else ("public", table).

(** The state of a [DatabaseClient] is its attribute [connection]. *)
Definition state `{Platform} : Type := (conn * world)%type.

(** [DatabaseClient(config)] *)
Definition init `{Platform} (config : ConnectionConfig) : outcome conn :=
  match connect_error (to_connection_kwargs config) with
  | Some msg => Raise (DriverError msg)
  | None => Ret (set_autocommit (autocommit_flag config) fresh_conn)
  end.

(** A driver call on [self.connection]. *)
Definition on_connection `{Platform} {A : Type}
  (op : conn -> DB -> outcome A * conn * DB) : M state A :=
  fun s =>
    match op (fst s) (durable (snd s)) with
    | (r, c', d') => (r, (c', set_durable d' (snd s)))
    end.

Definition close `{Platform} : M state unit :=
  fun s => (Ret tt, (drv_close (fst s), snd s)).

(** [self.connection.cursor(...)] *)
Definition new_cursor `{Platform} : M state unit :=
  on_connection (fun c d => (drv_cursor c, c, d)).

(** [execute(statement, *params)] *)
Definition execute `{Platform} (stmt : statement) (params : list pyval) : M state cursor :=
  new_cursor ;;
  on_connection (drv_execute stmt (match params with [] => None | _ => Some params end)).

(** A row as the row factory [dict_row] builds it. *)
Definition dict_row (names : list string) (values : list pyval) : list (string * pyval) :=
  dict_of_items (combine names values).

(** [cursor.fetchall()] on a cursor made with [dict_row] *)
Definition fetchall_dicts `{Platform} (cur : cursor) : M state (list (list (string * pyval))) :=
  rws <- fetchall cur ;;
  ret (map (dict_row (column_names cur)) rws).

(** [row[key]] *)
Definition getitem (key : string) (row : list (string * pyval)) : outcome pyval :=
  match dict_get key row with
  | Some v => Ret v
  | None => Raise (KeyError key)
  end.

(** [[f(x) for x in xs]] where [f] may raise. *)
Fixpoint map_outcome {A B : Type} (f : A -> outcome B) (xs : list A) : outcome (list B) :=
  match xs with
  | [] => Ret []
  | x :: rest =>
      match f x with
      | Raise e => Raise e
      | Ret y => match map_outcome f rest with
                 | Raise e => Raise e
                 | Ret ys => Ret (y :: ys)
                 end
      end
  end.

Definition list_tables `{Platform} (schema : option string) : M state (list pyval) :=
  let schema_clause := if given schema then " AND table_schema = %s" else EmptyString in
  let query :=
    "SELECT table_schema || '.' || table_name AS name " +:+
    "FROM information_schema.tables " +:+
    "WHERE table_type = 'BASE TABLE'" +:+ schema_clause +:+
    " ORDER BY table_schema, table_name" in
  let params := if given schema then [opt_str schema] else [] in
  cur <- execute (Sql query) params ;;
  rws <- fetchall_dicts cur ;;
  lift (map_outcome (getitem "name") rws).

Definition describe_table `{Platform} (table : string)
  : M state (list (list (string * pyval))) :=
  let sn := _parse_table_name table in
  let query :=
    "SELECT column_name, data_type, is_nullable, column_default " +:+
    "FROM information_schema.columns " +:+
    "WHERE table_schema = %s AND table_name = %s " +:+
    "ORDER BY ordinal_position" in
  cur <- execute (Sql query) [PStr (fst sn); PStr (snd sn)] ;;
  fetchall_dicts cur.

Definition run_query `{Platform} (query : string)
  : M state (list string * list (list pyval)) :=
  cur <- execute (Sql query) [] ;;
  match description cur with
  | None => on_connection drv_commit ;; ret ([], [])
  | Some headers =>
      rws <- fetchall_dicts cur ;;
      vals <- lift (map_outcome (fun row => map_outcome (fun col => getitem col row) headers) rws) ;;
      ret (headers, vals)
  end.

(** What [writerow(headers)] and [writerows(rows)] leave in the file: the
    rows are dicts, and [csv.writer] iterates a dict over its keys. *)
Definition csv_text `{Platform} (headers : list string) (rws : list (list (string * pyval)))
  : string :=
  fold_left String.append
    (map csv_row (map PStr headers :: map (fun row => map PStr (dict_keys row)) rws))
    EmptyString.

Definition export_table `{Platform} (table : string) (dest : path) : M state unit :=
  let sn := _parse_table_name table in
  cur <- execute (SelectAllFrom (fst sn) (snd sn)) [] ;;
  let headers := column_names cur in
  rws <- fetchall_dicts cur ;;
  match headers with
  | [] => ret tt
  | _ => fs_update (fun fs => write_file fs dest (csv_text headers rws))
  end.

(** [cursor.executemany(stmt, values)] *)
Definition executemany `{Platform} (stmt : statement) (values : list (list string))
  : M state unit :=
  for_each values
    (fun row => on_connection (drv_execute stmt (Some (map PStr row))) ;; ret tt).

Definition import_csv `{Platform} (table : string) (src : path) (truncate : bool)
  : M state nat :=
  let sn := _parse_table_name table in
  text <- read_text src ;;
  match csv_reader text with
  | [] => raise StopIteration
  | headers :: values =>
      (if truncate
       then (new_cursor ;;
             on_connection (drv_execute (TruncateTable (fst sn) (snd sn)) None) ;;
             ret tt)
       else ret tt) ;;
      let insert_stmt := InsertInto (fst sn) (snd sn) headers (length headers) in
      new_cursor ;;
      executemany insert_stmt values ;;
      on_connection drv_commit ;;
      ret (length values)
  end.

Definition stringify `{Platform} (value : pyval) : string :=
  match value with
  | PNone => EmptyString
  | _ => py_str value
  end.

Definition format_table `{Platform} (headers : list string) (rws : list (list pyval))
  : outcome string :=
  match headers with
  | [] => Ret "(empty result)"
  | _ =>
      let str_rows := map (map stringify) rws in
      match pgtool_render.widen_all (map py_len headers) str_rows with
      | Raise e => Raise e
      | Ret widths =>
          let line := join "-+-" (map (repeat_char (ascii_of_nat 45)) widths) in
          Ret (join nl (pgtool_render.format_row widths headers :: line
                        :: map (pgtool_render.format_row widths) str_rows))
      end
  end.

(** [sep.join(items)] raises [TypeError] on an item that is not a string. *)
Fixpoint strings_of (items : list pyval) : outcome (list string) :=
  match items with
  | [] => Ret []
  | PStr s :: rest =>
      match strings_of rest with
      | Ret ss => Ret (s :: ss)
      | Raise e => Raise e
      end
  | _ :: _ => Raise (TypeError "sequence item: expected str instance")
  end.

Definition print_tables `{Platform} {O : Type} (tables : list pyval) : M (O * world) unit :=
  match tables with
  | [] => print "(no tables found)"
  | _ => names <- lift (strings_of tables) ;; print (join nl names)
  end.

Definition describe_headers : list string :=
  ["column_name"; "data_type"; "is_nullable"; "column_default"].

(** [[[col[h] for h in headers] for col in columns]] *)
Definition describe_rows (columns : list (list (string * pyval))) : outcome (list (list pyval)) :=
  map_outcome (fun col => map_outcome (fun h => getitem h col) describe_headers) columns.

(** ** InteractiveShell *)

Definition prompt : string := "pg> ".

Definition print_help `{Platform} {O : Type} : M (O * world) unit :=
  print ("Available commands:" +:+ nl +:+
         "  tables [schema]   - list tables in the database" +:+ nl +:+
         "  describe <table>  - show table columns" +:+ nl +:+
         "  query <sql>       - execute an arbitrary SQL query" +:+ nl +:+
         "  export <table> <path> - export table to CSV" +:+ nl +:+
         "  import <table> <path> [--truncate] - import CSV into a table" +:+ nl +:+
         "  help              - show this message" +:+ nl +:+
         "  quit/exit         - leave the shell").

(** [item in items] for strings *)
Definition str_in (item : string) (items : list string) : bool :=
  existsb (String.eqb item) items.

(** The body of the [try] of [handle_command], for a command line split into
    its name [cmd] and its arguments [args]. *)
Definition run_command `{Platform} (cmd : string) (args : list string) : M state unit :=
  if String.eqb cmd "tables" then
    tables <- list_tables (head args) ;;
    print_tables tables
  else if String.eqb cmd "describe" then
    match args with
    | [] => print "Usage: describe <schema.table>"
    | table :: _ =>
        columns <- describe_table table ;;
        match columns with
        | [] => print "Table not found or has no columns."
        | _ =>
            rws <- lift (describe_rows columns) ;;
            text <- lift (format_table describe_headers rws) ;;
            print text
        end
    end
  else if String.eqb cmd "query" then
    match args with
    | [] => print "Usage: query <sql>"
    | _ =>
        res <- run_query (join " " args) ;;
        text <- lift (format_table (fst res) (snd res)) ;;
        print text
    end
  else if String.eqb cmd "export" then
    match args with
    | [table; path_text] =>
        let dest := expanduser (Path_ path_text) in
        export_table table dest ;;
        print ("Exported " +:+ table +:+ " to " +:+ path_str dest)
    | _ => print "Usage: export <schema.table> <path>"
    end
  else if String.eqb cmd "import" then
    match args with
    | table :: path_text :: flags =>
        let src := expanduser (Path_ path_text) in
        count <- import_csv table src (str_in "--truncate" flags) ;;
        print ("Imported " +:+ py_str (PInt (Z.of_nat count)) +:+ " rows into " +:+ table)
    | _ => print "Usage: import <schema.table> <path> [--truncate]"
    end
  else print ("Unknown command: " +:+ cmd +:+ ". Type 'help' for instructions.").

Definition handle_command `{Platform} (command : string) : M state unit :=
  match split_ws command with
  | [] => ret tt
  | cmd :: args =>
      try_except is_psycopg_Error
        (run_command cmd args)
        (fun exc => print ("Error: " +:+ exn_str exc))
  end.

(** What [input] meets at a prompt: a line, or an interrupt from the
    keyboard; the end of the list is the end of the input. *)
Inductive input_event : Type :=
| Line (text : string)
| Interrupt.

(** The [while True] loop of [cmdloop] over what the operator enters. *)
Fixpoint serve `{Platform} (inputs : list input_event) : M state unit :=
  write_prompt prompt ;;
  match inputs with
  | [] => print EmptyString
  | Interrupt :: _ => print EmptyString
  | Line text :: rest =>
      let command := strip text in
      if str_empty command then serve rest
      else if str_in command ["quit"; "exit"] then ret tt
      else if String.eqb command "help" then (print_help ;; serve rest)
      else (handle_command command ;; serve rest)
  end.

Definition cmdloop `{Platform} (inputs : list input_event) : M state unit :=
  print "Type 'help' for a list of commands. Type 'quit' to exit." ;;
  serve inputs.

(** ** The entry point *)

(** The body of [with DatabaseClient(config) as client] in [run_cli]: the
    value is the exit status that a [return] inside it gives, or [None] when
    the body runs to its end. *)
Definition run_command_line `{Platform} (cmd : option command) (inputs : list input_event)
  : M state (option Z) :=
  match cmd with
  | None | Some CmdShell => cmdloop inputs ;; ret (Some 0%Z)
  | Some (CmdTables schema) =>
      tables <- list_tables schema ;;
      print_tables tables ;;
      ret None
  | Some (CmdDescribe table) =>
      columns <- describe_table table ;;
      match columns with
      | [] => print "Table not found or has no columns." ;; ret (Some 1%Z)
      | _ =>
          rws <- lift (describe_rows columns) ;;
          text <- lift (format_table describe_headers rws) ;;
          print text ;;
          ret None
      end
  | Some (CmdQuery sql) =>
      res <- run_query sql ;;
      text <- lift (format_table (fst res) (snd res)) ;;
      print text ;;
      ret None
  | Some (CmdExport table dest_text) =>
      let dest := expanduser (Path_ dest_text) in
      export_table table dest ;;
      print ("Exported " +:+ table +:+ " to " +:+ path_str dest) ;;
      ret None
  | Some (CmdImport table src_text truncate) =>
      let src := expanduser (Path_ src_text) in
      count <- import_csv table src truncate ;;
      print ("Imported " +:+ py_str (PInt (Z.of_nat count)) +:+ " rows into " +:+ table) ;;
      ret None
  end.

(** [with DatabaseClient(config) as client: body]: the constructor connects,
    [__exit__] closes the connection on every way out. *)
Definition with_client `{Platform} {O A : Type} (config : ConnectionConfig)
  (body : M state A) : M (O * world) A :=
  match init config with
  | Raise e => raise e
  | Ret c => with_object c (try_finally body close)
  end.

Definition run_cli `{Platform} `{Parser} (argv : list string) (inputs : list input_event)
  : M (unit * world) Z :=
  args <- lift (parse_args argv) ;;
  let config := from_args args in
  try_except is_psycopg_Error
    (status <- with_client config (run_command_line (arg_command args) inputs) ;;
     ret (default 0%Z status))
    (fun exc => eprint ("Database error: " +:+ exn_str exc) ;; ret 2%Z).

End pg_tool_cli.

(** * Vocabulary of the properties *)

(** An outcome that is an exception. *)
Definition fails {A : Type} (o : outcome A) : Prop := exists e, o = Raise e.

(** The value of the last configuration, in the order of the list, that
    sets a field (holds something else than [None] there); [None] when no
    configuration sets it. *)
Definition last_set (vals : list pyval) : pyval :=
  fold_left (fun acc v => if is_none v then acc else v) vals PNone.

(** A field that is unset, or set to a value that Python takes for true: a
    non-empty string, a non-zero port. *)
Definition settled (v : pyval) : bool := (is_none v || truthy v)%bool.

Definition scalar_fields : list (pgtool_config.DatabaseConfig -> pyval) :=
  [pgtool_config.host; pgtool_config.port; pgtool_config.user;
   pgtool_config.password; pgtool_config.database; pgtool_config.dsn].

Definition plain (cfg : pgtool_config.DatabaseConfig) : bool :=
  forallb (fun field => settled (field cfg)) scalar_fields.

(** Key-wise merge of option maps: the first of the maps, latest source
    first, that has the key. *)
Definition first_bound (k : string) (maps : list (gmap string string)) : option string :=
  fold_right (fun m acc => match m !! k with Some v => Some v | None => acc end) None maps.

(** A connection on which a statement can run inside a transaction. *)
Definition in_transaction_mode `{Platform} (c : conn) : Prop :=
  closed c = false /\ autocommit c = false /\ tx c <> InError.

(** What the server makes of one statement sent through the driver, from
    the contents [d]: [None] when the driver or the server refuses it. *)
Definition run_statement `{Platform} (stmt : statement) (params : option (list pyval))
  (d : DB) : option DB :=
  if placeholders_match stmt params
  then match server_exec stmt params d with
       | inr (d', _, _) => Some d'
       | inl _ => None
       end
  else None.

(** The same for a batch: one execution of [stmt] for each row. *)
Fixpoint run_batch `{Platform} (stmt : statement) (values : list (list string)) (d : DB)
  : option DB :=
  match values with
  | [] => Some d
  | row :: rest =>
      match run_statement stmt (Some (map PStr row)) d with
      | Some d' => run_batch stmt rest d'
      | None => None
      end
  end.

(** The statements of [import_csv], in the order it sends them: the
    truncate when asked for, then the batch insert. *)
Definition import_effect `{Platform} (schema name : string) (headers : list string)
  (values : list (list string)) (truncate : bool) (d : DB) : option DB :=
  match (if truncate then run_statement (TruncateTable schema name) None d else Some d) with
  | Some d1 => run_batch (InsertInto schema name headers (length headers)) values d1
  | None => None
  end.

(** The last value of a list that Python takes for true; [None] when there
    is none. *)
Definition last_true (vals : list pyval) : pyval :=
  fold_left (fun acc v => if truthy v then v else acc) vals PNone.

(** The dicts [data] and [options] that the loop of [from_environment]
    builds from the items [env] of the environment. *)
Definition environment_dicts (prefix : string) (env : list (string * string))
  : list (string * pyval) * list (string * string) :=
  fold_left (pgtool_config.env_step prefix) env ([], []).

(** A command line of the shell that its handler answers with a usage
    line or with the hint for an unknown command. *)
Definition answered_without_database (cmd : string) (args : list string) : bool :=
  if String.eqb cmd "tables" then false
  else if String.eqb cmd "describe" then match args with [] => true | _ => false end
  else if String.eqb cmd "query" then match args with [] => true | _ => false end
  else if String.eqb cmd "export" then negb (Nat.eqb (length args) 2)
  else if String.eqb cmd "import" then Nat.ltb (length args) 2
  else true.

(** A computation on an object and the world that leaves the object and
    the committed contents of the database as they were. *)
Definition leaves_database `{Platform} {O A : Type} (m : M (O * world) A) : Prop :=
  forall s r s', m s = (r, s') -> fst s' = fst s /\ durable (snd s') = durable (snd s).

(** A computation that never leaves the set of states [inv]. *)
Definition stays_in {S A : Type} (inv : S -> Prop) (m : M S A) : Prop :=
  forall s r s', inv s -> m s = (r, s') -> inv s'.

(** The states of a [DatabaseConnection] over the committed contents [d]
    whose connection, when there is one, is not in autocommit mode. *)
Definition reading_session `{Platform} (d : DB) (s : pgtool_db.state) : Prop :=
  durable (snd s) = d
  /\ forall c, pgtool_db._connection (fst s) = Some c -> autocommit c = false.

(** The states of a [DatabaseClient] over the committed contents [d] whose
    connection is not in autocommit mode. *)
Definition reading_client `{Platform} (d : DB) (s : pg_tool_cli.state) : Prop :=
  durable (snd s) = d /\ autocommit (fst s) = false.

(** The sub-commands of pgtool that run their statement to fetch: all but
    [query --no-fetch] and [script]. *)
Definition fetches_only (cmd : pgtool_cli.command) : bool :=
  match cmd with
  | pgtool_cli.CmdQuery _ _ no_fetch _ => negb no_fetch
  | pgtool_cli.CmdScript _ => false
  | _ => true
  end.

(** The sub-commands of pg_tool that send a query of their own making and
    read its result: [tables], [describe] and [export]. *)
Definition reads_catalogue (cmd : pg_tool_cli.command) : bool :=
  match cmd with
  | pg_tool_cli.CmdTables _ | pg_tool_cli.CmdDescribe _ | pg_tool_cli.CmdExport _ _ => true
  | _ => false
  end.

(** * A concrete platform

    A small server with named tables, a reader for CSV without quoting, and
    simple stand-ins for the other services: enough to run the model on
    concrete inputs. *)

Module demo.

(** [s.split(c)] *)
Fixpoint split_on (c : ascii) (cur : list ascii) (s : string) : list string :=
  match s with
  | EmptyString => [string_of_list_ascii (rev cur)]
  | String c' rest =>
      if Ascii.eqb c c' then string_of_list_ascii (rev cur) :: split_on c [] rest
      else split_on c (c' :: cur) rest
  end.

Definition comma : ascii := ascii_of_nat 44.
Definition slash : ascii := ascii_of_nat 47.
Definition newline : ascii := ascii_of_nat 10.

(** The lines of a text; a final newline does not open one more line. *)
Definition lines (text : string) : list string :=
  match text with
  | EmptyString => []
  | _ =>
      let parts := split_on newline [] text in
      match last parts with
      | Some EmptyString => removelast parts
      | _ => parts
      end
  end.

(** One record for each line; an empty line is the empty record. *)
Definition read_csv (text : string) : list (list string) :=
  map (fun line => match line with
                   | EmptyString => []
                   | _ => split_on comma [] line
                   end) (lines text).

Definition show (v : pyval) : string :=
  match v with
  | PNone => "None"
  | PBool true => "True"
  | PBool false => "False"
  | PInt z => NilZero.string_of_int (Z.to_int z)
  | PStr s => s
  | PDate iso => iso
  | _ => "<object>"
  end.

Definition write_row (row : list pyval) : string :=
  join "," (map (fun v => match v with PNone => EmptyString | _ => show v end) row)
  +:+ String (ascii_of_nat 13) (String (ascii_of_nat 10) EmptyString).

Definition eval_literal (s : string) : option pyval :=
  if decimal_digits s then Some (PInt (decimal_from 0 s)) else None.

Definition load_toml (text : string) : outcome pyval :=
  if str_empty text then Ret (PDict [])
  else if String.eqb text "[database]" then Ret (PDict [("database", PDict [])])
  else Raise (ValueError "Invalid statement (at line 1, column 1)").

Definition to_path (s : string) : path :=
  filter (fun part => str_empty part = false) (split_on slash [] s).

Definition show_path (p : path) : string := "/" +:+ join "/" p.

(** A table: its columns and its rows. *)
Definition table : Type := (list string * list (list pyval))%type.

(** The server: tables by schema and name. *)
Definition database : Type := list ((string * string) * table).

Fixpoint find_table (schema name : string) (d : database) : option table :=
  match d with
  | [] => None
  | ((s, n), t) :: rest =>
      if (String.eqb schema s && String.eqb name n)%bool then Some t
      else find_table schema name rest
  end.

Fixpoint set_table (schema name : string) (t : table) (d : database) : database :=
  match d with
  | [] => [((schema, name), t)]
  | ((s, n), t') :: rest =>
      if (String.eqb schema s && String.eqb name n)%bool then ((s, n), t) :: rest
      else ((s, n), t') :: set_table schema name t rest
  end.

Fixpoint same_names (a b : list string) : bool :=
  match a, b with
  | [], [] => true
  | x :: a', y :: b' => (String.eqb x y && same_names a' b')%bool
  | _, _ => false
  end.

(** The query of [DatabaseClient.describe_table]. *)
Definition describe_query : string :=
  "SELECT column_name, data_type, is_nullable, column_default " +:+
  "FROM information_schema.columns " +:+
  "WHERE table_schema = %s AND table_name = %s " +:+
  "ORDER BY ordinal_position".

Definition exec (stmt : statement) (params : option (list pyval)) (d : database)
  : string + (database * option (list string) * list (list pyval)) :=
  match stmt with
  | Sql text =>
      if String.eqb text "SELECT 1" then inr (d, Some ["?column?"], [[PInt 1]])
      else if String.eqb text "DELETE FROM t" then
        match find_table "public" "t" d with
        | Some (cols, _) => inr (set_table "public" "t" (cols, []) d, None, [])
        | None => inl "relation does not exist"
        end
      else if String.eqb text describe_query then
        match params with
        | Some [PStr schema; PStr name] =>
            let columns :=
              match find_table schema name d with
              | Some (cols, _) => cols
              | None => []
              end in
            inr (d, Some pg_tool_cli.describe_headers,
                 map (fun col => [PStr col; PStr "text"; PStr "YES"; PNone]) columns)
        | _ => inl "syntax error"
        end
      else inl "syntax error"
  | SelectAllFrom schema name =>
      match find_table schema name d with
      | Some (cols, rws) => inr (d, Some cols, rws)
      | None => inl "relation does not exist"
      end
  | TruncateTable schema name =>
      match find_table schema name d with
      | Some (cols, _) => inr (set_table schema name (cols, []) d, None, [])
      | None => inl "relation does not exist"
      end
  | InsertInto schema name columns _ =>
      match find_table schema name d, params with
      | Some (cols, rws), Some ps =>
          if (same_names columns cols && Nat.eqb (length ps) (length cols))%bool
          then inr (set_table schema name (cols, rws ++ [ps]) d, None, [])
          else inl "column does not exist"
      | _, _ => inl "relation does not exist"
      end
  end.

Definition platform : Platform := {|
  DB := database;
  server_exec := exec;
  connect_error := fun _ => None;
  repr := show;
  int_of_str := fun _ => None;
  tomllib_load := load_toml;
  literal_eval := eval_literal;
  csv_reader := read_csv;
  csv_row := write_row;
  Path_ := to_path;
  expanduser := fun p => p;
  path_str := show_path;
  cwd := ["work"];
  home := ["home"; "operator"];
  environ := [];
  getpass := "secret"
|}.


(** The same platform in another environment. *)
Definition platform_in (env : list (string * string)) : Platform := {|
  DB := database;
  server_exec := exec;
  connect_error := fun _ => None;
  repr := show;
  int_of_str := fun _ => None;
  tomllib_load := load_toml;
  literal_eval := eval_literal;
  csv_reader := read_csv;
  csv_row := write_row;
  Path_ := to_path;
  expanduser := fun p => p;
  path_str := show_path;
  cwd := ["work"];
  home := ["home"; "operator"];
  environ := env;
  getpass := "secret"
|}.

(** One table [public.t] with three columns and one row. *)
Definition one_table : database :=
  [(("public", "t"), (["a"; "b"; "c"], [[PInt 1; PInt 2; PInt 3]]))].

(** The files of the examples: a CSV whose data row is one field short, a
    CSV that is one empty line, a CSV that fits the table, an empty file. *)
Definition some_files : gmap path node :=
  {[ ["short.csv"] := File ("a,b,c" +:+ nl +:+ "1,2" +:+ nl);
     ["blank.csv"] := File nl;
     ["good.csv"] := File ("a,b,c" +:+ nl +:+ "4,5,6" +:+ nl);
     ["empty.csv"] := File EmptyString ]}.

(** The same table without its rows. *)
Definition emptied_table : database :=
  [(("public", "t"), (["a"; "b"; "c"], []))].

(** The same table after the import of [good.csv] with truncate. *)
Definition imported_table : database :=
  [(("public", "t"), (["a"; "b"; "c"], [[PStr "4"; PStr "5"; PStr "6"]]))].

Definition a_world : @world platform := @mk_world platform one_table some_files [] [].

(** A world whose only table, [public.e], has no columns. *)
Definition columnless_world : @world platform :=
  @mk_world platform [(("public", "e"), ([], [[]; []]))] some_files [] [].

(** A world without any file. *)
Definition bare_world : @world platform := @mk_world platform one_table ∅ [] [].

Definition no_args (cmd : pgtool_cli.command) : pgtool_cli.Namespace :=
  pgtool_cli.mk_args None None None None None None None [] cmd.

(** A command line reader for [pgtool]: the sub-commands without options. *)
Definition pgtool_parser : pgtool_cli.Parser := {|
  pgtool_cli.parse_args := fun argv =>
    match argv with
    | ["tables"] => Ret (no_args (pgtool_cli.CmdTables false))
    | ["query"; sql] => Ret (no_args (pgtool_cli.CmdQuery (Some sql) None false []))
    | _ => Raise (SystemExit 2)
    end
|}.

Definition plain_args (cmd : option pg_tool_cli.command) : pg_tool_cli.Namespace :=
  pg_tool_cli.mk_args None (Some "localhost") 5432 (Some "postgres") None None false false cmd.

(** A command line reader for [pg_tool]. *)
Definition pg_tool_parser : pg_tool_cli.Parser := {|
  pg_tool_cli.parse_args := fun argv =>
    match argv with
    | [] => Ret (plain_args None)
    | ["shell"] => Ret (plain_args (Some pg_tool_cli.CmdShell))
    | ["tables"] => Ret (plain_args (Some (pg_tool_cli.CmdTables None)))
    | ["describe"; t] => Ret (plain_args (Some (pg_tool_cli.CmdDescribe t)))
    | ["query"; sql] => Ret (plain_args (Some (pg_tool_cli.CmdQuery sql)))
    | ["export"; t; dest] => Ret (plain_args (Some (pg_tool_cli.CmdExport t dest)))
    | ["import"; t; src] => Ret (plain_args (Some (pg_tool_cli.CmdImport t src false)))
    | ["import"; t; src; "--truncate"] =>
        Ret (plain_args (Some (pg_tool_cli.CmdImport t src true)))
    | _ => Raise (SystemExit 2)
    end
|}.

(** Three partial configurations: the file names a host and a port, the
    environment another host and a user, the command line a database. *)
Definition file_cfg : pgtool_config.DatabaseConfig :=
  pgtool_config.mk_config (PStr "a") (PInt 5432) PNone PNone PNone PNone
    {[ "sslmode" := "require"; "application_name" := "file" ]}.
Definition env_cfg : pgtool_config.DatabaseConfig :=
  pgtool_config.mk_config (PStr "b") PNone (PStr "ops") PNone PNone PNone
    {[ "application_name" := "env" ]}.
Definition cli_cfg : pgtool_config.DatabaseConfig :=
  pgtool_config.mk_config PNone PNone PNone PNone (PStr "sales") PNone ∅.

(** The command line asks for port 0. *)
Definition cli_port_zero : pgtool_config.DatabaseConfig :=
  pgtool_config.mk_config PNone (PInt 0) PNone PNone PNone PNone ∅.

(** A configuration that is a DSN and nothing else. *)
Definition dsn_cfg : pgtool_config.DatabaseConfig :=
  pgtool_config.mk_config PNone PNone PNone PNone PNone
    (PStr "postgresql://db.example/sales") ∅.

(** A world whose only file is an empty configuration file in the home
    directory: a TOML document without a [database] table. *)
Definition configured_world : @world platform :=
  @mk_world platform one_table
    {[ ["home"; "operator"; ".pgtool.toml"] := File EmptyString ]} [] [].

(** An environment without any variable for pgtool. *)
Definition other_variables : list (string * string) :=
  [("HOME", "/home/operator"); ("PGHOST", "db.example"); ("pgtool_host", "a")].

End demo.

(** * Properties of pgtool/config.py *)

Section ConfigProperties.
Context `{P : Platform}.
Import pgtool_config.

Lemma py_or_settled (v acc : pyval) :
  settled v = true -> py_or v acc = if is_none v then acc else v.
Proof.
  unfold settled, py_or. destruct v; simpl; try reflexivity;
    intros Hv; rewrite Hv; reflexivity.
Qed.

Lemma py_or_none (v : pyval) : settled v = true -> py_or v PNone = v.
Proof.
  intros Hv. rewrite py_or_settled by exact Hv. destruct v; reflexivity.
Qed.

Lemma merged_field (x y z : pyval) :
  settled x = true -> settled y = true -> settled z = true ->
  py_or z (py_or y (py_or x PNone)) = last_set [x; y; z].
Proof.
  intros Hx Hy Hz. rewrite (py_or_none x Hx), (py_or_settled y _ Hy), (py_or_settled z _ Hz).
  unfold last_set. simpl. destruct x, y, z; reflexivity.
Qed.

Lemma plain_settled (cfg : DatabaseConfig) (field : DatabaseConfig -> pyval) :
  plain cfg = true -> In field scalar_fields -> settled (field cfg) = true.
Proof.
  unfold plain. rewrite forallb_forall. intros Hall Hin. exact (Hall field Hin).
Qed.

(** C1, as amended.  For three partial configurations whose set fields hold
    values that Python takes for true (non-empty strings, a non-zero port),
    merged in the order file, environment, command line: every scalar field
    of the result is the value from the last configuration in that order
    that sets it, a field that none of them sets stays unset, and the
    options maps merge key by key, a later source overriding single keys. *)
Theorem merge_configs_last_source_wins (file env cli : DatabaseConfig) :
  plain file = true -> plain env = true -> plain cli = true ->
  (forall field, In field scalar_fields ->
     field (merge_configs [file; env; cli]) = last_set [field file; field env; field cli])
  /\ (forall field, In field scalar_fields ->
        field file = PNone -> field env = PNone -> field cli = PNone ->
        field (merge_configs [file; env; cli]) = PNone)
  /\ (forall k, options (merge_configs [file; env; cli]) !! k
                = first_bound k [options cli; options env; options file]).
Proof.
  intros Hf He Hc.
  assert (Hfields : forall field, In field scalar_fields ->
            field (merge_configs [file; env; cli])
            = last_set [field file; field env; field cli]).
  { intros field Hin.
    pose proof (plain_settled file field Hf Hin) as Sf.
    pose proof (plain_settled env field He Hin) as Se.
    pose proof (plain_settled cli field Hc Hin) as Sc.
    unfold scalar_fields in Hin. simpl in Hin.
    destruct Hin as [<- | [<- | [<- | [<- | [<- | [<- | []]]]]]];
      unfold merge_configs; simpl; apply merged_field; assumption. }
  split; [exact Hfields | split].
  - intros field Hin H1 H2 H3. rewrite (Hfields field Hin), H1, H2, H3. reflexivity.
  - intros k. unfold merge_configs, first_bound. simpl.
    rewrite !lookup_union, lookup_empty.
    destruct (options cli !! k), (options env !! k), (options file !! k); reflexivity.
Qed.

Lemma load_first_no_file {O : Type} (candidates : list path) (s : O * world) :
  forallb (fun q => negb (is_file (files (snd s)) q)) candidates = true ->
  load_first candidates s = (Ret empty_config, s).
Proof.
  induction candidates as [| q rest IH]; simpl; intros Hall.
  - reflexivity.
  - apply andb_prop in Hall as [Hq Hrest].
    apply negb_true_iff in Hq. rewrite Hq. exact (IH Hrest).
Qed.

(** C3, as amended.  A missing file is never an error for [load_config]:
    when no file exists at the places it looks at (the explicit path when
    one is given, the default locations otherwise), it succeeds with the
    empty configuration and changes nothing. *)
Theorem load_config_without_file {O : Type} (path_arg : option string) (s : O * world) :
  forallb (fun q => negb (is_file (files (snd s)) q)) (candidate_paths path_arg) = true ->
  load_config path_arg s = (Ret empty_config, s).
Proof.
  intros Hall. unfold load_config. apply load_first_no_file. exact Hall.
Qed.

End ConfigProperties.

(** The scenario of the specification: the file says host [a], the
    environment host [b], the command line no host; the environment wins,
    and the options merge key by key. *)
Lemma merge_configs_last_source_wins_witness :
  (plain demo.file_cfg = true /\ plain demo.env_cfg = true /\ plain demo.cli_cfg = true)
  /\ ((forall field, In field scalar_fields ->
         field (pgtool_config.merge_configs [demo.file_cfg; demo.env_cfg; demo.cli_cfg])
         = last_set [field demo.file_cfg; field demo.env_cfg; field demo.cli_cfg])
      /\ (forall field, In field scalar_fields ->
            field demo.file_cfg = PNone -> field demo.env_cfg = PNone ->
            field demo.cli_cfg = PNone ->
            field (pgtool_config.merge_configs [demo.file_cfg; demo.env_cfg; demo.cli_cfg])
            = PNone)
      /\ (forall k,
            pgtool_config.options
              (pgtool_config.merge_configs [demo.file_cfg; demo.env_cfg; demo.cli_cfg]) !! k
            = first_bound k [pgtool_config.options demo.cli_cfg;
                             pgtool_config.options demo.env_cfg;
                             pgtool_config.options demo.file_cfg])).
Proof.
  split.
  - repeat split; vm_compute; reflexivity.
  - apply merge_configs_last_source_wins; vm_compute; reflexivity.
Defined.

Example merge_configs_scenario :
  pgtool_config.host (pgtool_config.merge_configs [demo.file_cfg; demo.env_cfg; demo.cli_cfg])
  = PStr "b"
  /\ pgtool_config.options
       (pgtool_config.merge_configs [demo.file_cfg; demo.env_cfg; demo.cli_cfg])
       !! "application_name" = Some "env"
  /\ pgtool_config.options
       (pgtool_config.merge_configs [demo.file_cfg; demo.env_cfg; demo.cli_cfg])
       !! "sslmode" = Some "require".
Proof. repeat split; vm_compute; reflexivity. Qed.

(** C1 as stated fails on a field set to a value that Python takes for
    false.  The file sets port 5432 and the command line sets port 0: the
    last source that sets the port is the command line, with 0, and the
    merged port is 5432. *)
Lemma merge_configs_port_zero_counterexample :
  pgtool_config.port demo.cli_port_zero = PInt 0
  /\ last_set [pgtool_config.port demo.file_cfg; pgtool_config.port demo.env_cfg;
               pgtool_config.port demo.cli_port_zero] = PInt 0
  /\ pgtool_config.port
       (pgtool_config.merge_configs [demo.file_cfg; demo.env_cfg; demo.cli_port_zero])
     = PInt 5432.
Proof. repeat split; vm_compute; reflexivity. Qed.

Lemma load_config_without_file_witness :
  forallb (fun q => negb (is_file (files (snd (tt, demo.bare_world))) q))
    (@pgtool_config.candidate_paths demo.platform (Some "missing.toml")) = true
  /\ @pgtool_config.load_config demo.platform unit (Some "missing.toml") (tt, demo.bare_world)
     = (Ret pgtool_config.empty_config, (tt, demo.bare_world)).
Proof.
  split.
  - vm_compute; reflexivity.
  - apply (@load_config_without_file demo.platform). vm_compute; reflexivity.
Defined.

(** C3 as stated fails: with an explicit path at which there is no file,
    [load_config] does not raise; it returns the empty configuration. *)
Lemma load_config_explicit_missing_counterexample :
  is_file (files demo.bare_world) (@Path_ demo.platform "missing.toml") = false
  /\ fst (@pgtool_config.load_config demo.platform unit (Some "missing.toml")
            (tt, demo.bare_world))
     = Ret pgtool_config.empty_config.
Proof. split; vm_compute; reflexivity. Qed.

(** * Properties of the driver *)

Section DriverProperties.
Context `{P : Platform}.

Lemma drv_execute_accepts (stmt : statement) (params : option (list pyval))
  (c : conn) (d d' : DB) (desc : option (list string)) (rws : list (list pyval)) :
  closed c = false -> autocommit c = false -> tx c <> InError ->
  placeholders_match stmt params = true ->
  server_exec stmt params (conn_view c d) = inr (d', desc, rws) ->
  drv_execute stmt params c d = (Ret (mk_cursor desc rws), set_tx (InTrans d') c, d).
Proof.
  intros Hc Ha Ht Hp Hs. unfold drv_execute. rewrite Hc, Hp, Hs, Ha. simpl.
  destruct (tx c); try reflexivity. contradiction.
Qed.

(** The driver raises nothing but its own errors. *)
Lemma drv_execute_raises (stmt : statement) (params : option (list pyval))
  (c c' : conn) (d d' : DB) (e : exn) :
  drv_execute stmt params c d = (Raise e, c', d') -> exists msg, e = DriverError msg.
Proof.
  unfold drv_execute. destruct (closed c); [intros [= <- _ _]; eauto |].
  destruct (negb (placeholders_match stmt params)); [intros [= <- _ _]; eauto |].
  destruct (tx c); try (intros [= <- _ _]; eauto; fail);
    (destruct (server_exec stmt params _) as [msg | [[v desc] rws]];
     [ intros [= <- _ _]; eauto
     | destruct (autocommit c); intros [= ] ]).
Qed.

(** Outside autocommit mode a statement never touches the committed
    contents, whatever its outcome. *)
Lemma drv_execute_keeps_durable (stmt : statement) (params : option (list pyval))
  (c c' : conn) (d d' : DB) (r : outcome cursor) :
  autocommit c = false ->
  drv_execute stmt params c d = (r, c', d') ->
  d' = d /\ autocommit c' = false /\ closed c' = closed c.
Proof.
  intros Ha. unfold drv_execute. destruct (closed c) eqn:Hc.
  - intros [= _ <- <-]. auto.
  - destruct (negb (placeholders_match stmt params)).
    + unfold begin_transaction. rewrite Ha.
      destruct (tx c); intros [= _ <- <-]; auto.
    + destruct (tx c); try (intros [= _ <- <-]; auto; fail);
        (destruct (server_exec stmt params _) as [msg | [[v desc] rws]];
         rewrite Ha; intros [= _ <- <-]; auto).
Qed.

Lemma drv_commit_raises (c c' : conn) (d d' : DB) (e : exn) :
  drv_commit c d = (Raise e, c', d') -> d' = d /\ exists msg, e = DriverError msg.
Proof.
  unfold drv_commit. destruct (closed c).
  - intros [= <- _ <-]. eauto.
  - destruct (tx c); intros [= ].
Qed.

(** After a [commit] that returns no transaction is open. *)
Lemma drv_commit_returns (c c' : conn) (d d' : DB) :
  drv_commit c d = (Ret tt, c', d') -> tx c' = Idle /\ d' = conn_view c d.
Proof.
  unfold drv_commit, conn_view. destruct (closed c); [intros [= ] |].
  destruct (tx c) eqn:Ht; intros [= <- <-]; simpl; auto.
Qed.

End DriverProperties.

(** * Reasoning about computations *)

Section MonadLemmas.
Context {S A B : Type}.

Lemma bind_ret_inv (m : M S A) (k : A -> M S B) (s s' : S) (b : B) :
  bind m k s = (Ret b, s') ->
  exists a s1, m s = (Ret a, s1) /\ k a s1 = (Ret b, s').
Proof.
  unfold bind. destruct (m s) as [[a | e] s1]; [eauto | intros [= ]].
Qed.

Lemma bind_raise_inv (m : M S A) (k : A -> M S B) (s s' : S) (e : exn) :
  bind m k s = (Raise e, s') ->
  m s = (Raise e, s') \/ exists a s1, m s = (Ret a, s1) /\ k a s1 = (Raise e, s').
Proof.
  unfold bind. destruct (m s) as [[a | e0] s1]; [eauto | intros [= -> ->]; auto].
Qed.

Lemma bind_ret_step (m : M S A) (k : A -> M S B) (s s1 : S) (a : A) :
  m s = (Ret a, s1) -> bind m k s = k a s1.
Proof. intros Hm. unfold bind. rewrite Hm. reflexivity. Qed.

Lemma bind_raise_step (m : M S A) (k : A -> M S B) (s s1 : S) (e : exn) :
  m s = (Raise e, s1) -> bind m k s = (Raise e, s1).
Proof. intros Hm. unfold bind. rewrite Hm. reflexivity. Qed.

Lemma try_finally_nothing (body : M S A) (s : S) :
  try_finally body (ret tt) s = body s.
Proof. unfold try_finally, ret. destruct (body s). reflexivity. Qed.

End MonadLemmas.

(** * Properties of pgtool/db.py *)

Section SessionProperties.
Context `{P : Platform}.
Import pgtool_config pgtool_db.

Lemma connect_returns (s s1 : state) :
  connect s = (Ret tt, s1) ->
  snd s1 = snd s /\ _config (fst s1) = _config (fst s)
  /\ exists c, _connection (fst s1) = Some c
               /\ (_connection (fst s) = None -> c = fresh_conn)
               /\ (forall c0, _connection (fst s) = Some c0 -> c = c0).
Proof.
  unfold connect. destruct s as [[cfg [c0 |]] w]; simpl.
  - intros [= <-]. simpl. repeat split. exists c0. repeat split; congruence.
  - destruct (connect_error _); [intros [= ] |]. intros [= <-]. simpl.
    repeat split. exists fresh_conn. repeat split; congruence.
Qed.

Lemma connect_again (cfg : DatabaseConfig) (c : conn) (w : world) :
  connect (mk_db cfg (Some c), w) = (Ret tt, (mk_db cfg (Some c), w)).
Proof. reflexivity. Qed.

(** The whole of [run_query] on a session that holds the connection [c]. *)
Lemma run_query_connected (cfg : DatabaseConfig) (c : conn) (w : world)
  (query : string) (params : option (list pyval)) (fetch : bool) :
  closed c = false ->
  run_query query params fetch (mk_db cfg (Some c), w)
  = match drv_execute (Sql query) params c (durable w) with
    | (Raise e, c1, d1) => (Raise e, (mk_db cfg (Some c1), set_durable d1 w))
    | (Ret cur, c1, d1) =>
        if (fetch && has_columns cur)%bool
        then (Ret (column_names cur, rows cur), (mk_db cfg (Some c1), set_durable d1 w))
        else if fetch
             then (Ret ([], []), (mk_db cfg (Some c1), set_durable d1 w))
             else match drv_commit c1 d1 with
                  | (Ret _, c2, d2) =>
                      (Ret ([], []), (mk_db cfg (Some c2), set_durable d2 w))
                  | (Raise e, c2, d2) =>
                      (Raise e, (mk_db cfg (Some c2), set_durable d2 w))
                  end
    end.
Proof.
  intros Hc. unfold run_query, with_cursor.
  rewrite (bind_ret_step _ _ _ _ _ (connect_again cfg c w)).
  unfold on_connection at 1. unfold bind at 1. simpl. unfold drv_cursor. rewrite Hc.
  destruct w as [d fs so se]. simpl.
  rewrite try_finally_nothing.
  unfold bind at 1. unfold on_connection at 1. simpl.
  destruct (drv_execute (Sql query) params c d) as [[[cur | e] c1] d1]; simpl; [| reflexivity].
  destruct fetch; simpl.
  - destruct (has_columns cur) eqn:Hcols; simpl.
    + unfold has_columns in Hcols. unfold bind, fetchall, ret, column_names.
      destruct (description cur) as [[| x l] |]; try discriminate. reflexivity.
    + reflexivity.
  - unfold bind, ret, connect, on_connection. simpl.
    destruct (drv_commit c1 d1) as [[[[] | e] c2] d2]; reflexivity.
Qed.

Lemma run_query_closed (cfg : DatabaseConfig) (c : conn) (w : world)
  (query : string) (params : option (list pyval)) (fetch : bool) :
  closed c = true ->
  run_query query params fetch (mk_db cfg (Some c), w)
  = (Raise connection_closed, (mk_db cfg (Some c), w)).
Proof.
  intros Hc. unfold run_query, with_cursor.
  rewrite (bind_ret_step _ _ _ _ _ (connect_again cfg c w)).
  unfold on_connection at 1. unfold bind at 1. simpl. unfold drv_cursor. rewrite Hc.
  destruct w. reflexivity.
Qed.

(** [run_query] starts with [connect] and goes on from the state it leaves. *)
Lemma run_query_after_connect (s s1 : state)
  (query : string) (params : option (list pyval)) (fetch : bool) :
  connect s = (Ret tt, s1) ->
  run_query query params fetch s = run_query query params fetch s1.
Proof.
  intros Hs. destruct (connect_returns s s1 Hs) as (Hw & Hcfg & c & Hc & _).
  destruct s1 as [[cfg1 c1] w1]. simpl in Hc. subst c1.
  unfold run_query, with_cursor.
  rewrite (bind_ret_step _ _ _ _ _ Hs).
  rewrite (bind_ret_step _ _ _ _ _ (connect_again cfg1 c w1)). reflexivity.
Qed.

Lemma run_query_connect_fails (s s1 : state) (e : exn)
  (query : string) (params : option (list pyval)) (fetch : bool) :
  connect s = (Raise e, s1) ->
  run_query query params fetch s = (Raise e, s1).
Proof.
  intros Hs. unfold run_query, with_cursor. apply bind_raise_step. exact Hs.
Qed.

Lemma set_durable_same (w : world) : set_durable (durable w) w = w.
Proof. destruct w. reflexivity. Qed.

Lemma set_tx_twice (t t' : tx_status) (c : conn) : set_tx t (set_tx t' c) = set_tx t c.
Proof. reflexivity. Qed.

(** C2.  [run_query] with [fetch=False]: whenever the call returns, it
    returns the no-result value (no columns, no rows) and the connection has
    no transaction open any more; and the call does return, with the effect
    of the statement committed, whenever the driver accepts the statement
    on the connection that [connect] gives.  [DatabaseClient.run_query] has
    no [fetch] argument: it does the same for a statement that has no column
    metadata. *)
Theorem run_query_without_fetch (query : string) (params : option (list pyval))
  (s : state) :
  (forall res s', run_query query params false s = (Ret res, s') ->
     res = ([], []) /\ exists c, _connection (fst s') = Some c /\ tx c = Idle)
  /\ (forall s1 c d' desc rws,
        connect s = (Ret tt, s1) -> _connection (fst s1) = Some c ->
        closed c = false -> autocommit c = false -> tx c <> InError ->
        server_exec (Sql query) params (conn_view c (durable (snd s))) = inr (d', desc, rws) ->
        run_query query params false s
        = (Ret ([], []),
           (mk_db (_config (fst s)) (Some (set_tx Idle c)), set_durable d' (snd s))))
  /\ (forall (c : conn) (w : world) d' rws,
        in_transaction_mode c ->
        server_exec (Sql query) None (conn_view c (durable w)) = inr (d', None, rws) ->
        pg_tool_cli.run_query query (c, w)
        = (Ret ([], []), (set_tx Idle c, set_durable d' w))).
Proof.
  split; [| split].
  3:{ intros c w d' rws (Hcl & Ha & Ht) Hs.
      unfold pg_tool_cli.run_query, pg_tool_cli.execute, pg_tool_cli.new_cursor,
        pg_tool_cli.on_connection, bind, drv_cursor. simpl. rewrite Hcl. simpl.
      rewrite (drv_execute_accepts (Sql query) None c _ _ _ _ Hcl Ha Ht eq_refl Hs).
      simpl. unfold drv_commit. simpl. rewrite Hcl. destruct w. reflexivity. }
  - intros res s' Hrun.
    destruct (connect s) as [[[] | e] s1] eqn:Hconn.
    2:{ rewrite (run_query_connect_fails _ _ _ _ _ _ Hconn) in Hrun. discriminate. }
    rewrite (run_query_after_connect _ _ _ _ _ Hconn) in Hrun.
    destruct (connect_returns s s1 Hconn) as (_ & _ & c & Hc & _).
    destruct s1 as [[cfg1 c1] w1]. simpl in Hc. subst c1.
    destruct (closed c) eqn:Hcl.
    { rewrite run_query_closed in Hrun by exact Hcl. discriminate. }
    rewrite run_query_connected in Hrun by exact Hcl.
    destruct (drv_execute (Sql query) params c (durable w1)) as [[[cur | e] c2] d2];
      [| discriminate].
    simpl in Hrun.
    destruct (drv_commit c2 d2) as [[[[] | e] c3] d3] eqn:Hcommit; [| discriminate].
    injection Hrun as <- <-. split; [reflexivity |].
    exists c3. split; [reflexivity |].
    apply (drv_commit_returns _ _ _ _ Hcommit).
  - intros s1 c d' desc rws Hconn Hc Hcl Ha Ht Hs.
    rewrite (run_query_after_connect _ _ _ _ _ Hconn).
    destruct (connect_returns s s1 Hconn) as (Hw & Hcfg & _).
    destruct s1 as [[cfg1 c1] w1]. simpl in *. subst c1 cfg1 w1.
    rewrite run_query_connected by exact Hcl.
    rewrite (drv_execute_accepts (Sql query) params _ _ _ _ _ Hcl Ha Ht eq_refl Hs). simpl.
    unfold drv_commit. simpl. rewrite Hcl. reflexivity.
Qed.

(** C10.  [run_query] with [fetch=True] on a statement that the driver
    accepts and that has no column metadata returns the empty pair and does
    not commit: the committed contents and the rest of the world are as
    before the call, the effect of the statement stays in the open
    transaction, and the state is the one that [cursor.execute] leaves. *)
Theorem run_query_fetch_without_description (query : string)
  (params : option (list pyval)) (s s1 : state) (c : conn) (d' : DB)
  (desc : option (list string)) (rws : list (list pyval)) :
  connect s = (Ret tt, s1) -> _connection (fst s1) = Some c ->
  closed c = false -> autocommit c = false -> tx c <> InError ->
  server_exec (Sql query) params (conn_view c (durable (snd s))) = inr (d', desc, rws) ->
  has_columns (mk_cursor desc rws) = false ->
  run_query query params true s
  = (Ret ([], []), (mk_db (_config (fst s)) (Some (set_tx (InTrans d') c)), snd s))
  /\ on_connection (drv_execute (Sql query) params) s1
     = (Ret (mk_cursor desc rws),
        (mk_db (_config (fst s)) (Some (set_tx (InTrans d') c)), snd s)).
Proof.
  intros Hconn Hc Hcl Ha Ht Hs Hcols.
  rewrite (run_query_after_connect _ _ _ _ _ Hconn).
  destruct (connect_returns s s1 Hconn) as (Hw & Hcfg & _).
  destruct s1 as [[cfg1 c1] w1]. simpl in *. subst c1 cfg1 w1.
  split.
  - rewrite run_query_connected by exact Hcl.
    rewrite (drv_execute_accepts (Sql query) params _ _ _ _ _ Hcl Ha Ht eq_refl Hs).
    rewrite Hcols. simpl. rewrite set_durable_same. reflexivity.
  - unfold on_connection. simpl.
    rewrite (drv_execute_accepts (Sql query) params _ _ _ _ _ Hcl Ha Ht eq_refl Hs).
    rewrite set_durable_same. reflexivity.
Qed.

End SessionProperties.

Lemma run_query_without_fetch_witness :
  @pgtool_db.run_query demo.platform "DELETE FROM t" None false
    (pgtool_db.init pgtool_config.empty_config, demo.a_world)
  = (Ret ([], []),
     (pgtool_db.mk_db pgtool_config.empty_config (Some (set_tx Idle fresh_conn)),
      @set_durable demo.platform demo.emptied_table demo.a_world)).
Proof.
  apply (proj1 (proj2 (@run_query_without_fetch demo.platform "DELETE FROM t" None
                         (pgtool_db.init pgtool_config.empty_config, demo.a_world)))
           (pgtool_db.mk_db pgtool_config.empty_config (Some fresh_conn), demo.a_world)
           fresh_conn _ None []);
    try reflexivity.
  discriminate.
Defined.

Lemma run_query_fetch_without_description_witness :
  @pgtool_db.run_query demo.platform "DELETE FROM t" None true
    (pgtool_db.mk_db pgtool_config.empty_config (Some fresh_conn), demo.a_world)
  = (Ret ([], []),
     (pgtool_db.mk_db pgtool_config.empty_config
        (Some (@set_tx demo.platform (@InTrans demo.platform demo.emptied_table)
                 fresh_conn)),
      demo.a_world))
  /\ pgtool_db.on_connection (drv_execute (Sql "DELETE FROM t") None)
       (pgtool_db.mk_db pgtool_config.empty_config (Some fresh_conn), demo.a_world)
     = (Ret (mk_cursor None []),
        (pgtool_db.mk_db pgtool_config.empty_config
           (Some (@set_tx demo.platform (@InTrans demo.platform demo.emptied_table)
                    fresh_conn)),
         demo.a_world)).
Proof.
  apply (@run_query_fetch_without_description demo.platform "DELETE FROM t" None
           (pgtool_db.mk_db pgtool_config.empty_config (Some fresh_conn), demo.a_world)
           (pgtool_db.mk_db pgtool_config.empty_config (Some fresh_conn), demo.a_world)
           fresh_conn _ None []);
    try reflexivity.
  discriminate.
Defined.

(** * Closing a session *)

Section CloseProperties.
Context `{P : Platform}.

Lemma client_new_cursor_closed (s : pg_tool_cli.state) :
  closed (fst s) = true ->
  pg_tool_cli.new_cursor s = (Raise connection_closed, s).
Proof.
  intros Hc. unfold pg_tool_cli.new_cursor, pg_tool_cli.on_connection, drv_cursor.
  rewrite Hc. destruct s as [c []]. reflexivity.
Qed.

Lemma client_execute_closed (stmt : statement) (params : list pyval)
  (s : pg_tool_cli.state) :
  closed (fst s) = true ->
  pg_tool_cli.execute stmt params s = (Raise connection_closed, s).
Proof.
  intros Hc. unfold pg_tool_cli.execute. apply bind_raise_step.
  apply client_new_cursor_closed. exact Hc.
Qed.

Lemma import_csv_closed (table : string) (src : path) (truncate : bool)
  (s : pg_tool_cli.state) :
  closed (fst s) = true -> fails (fst (pg_tool_cli.import_csv table src truncate s)).
Proof.
  intros Hc. unfold pg_tool_cli.import_csv, bind at 1, read_text.
  destruct (read_file (files (snd s)) src) as [text | e]; [| exists e; reflexivity].
  destruct (csv_reader text) as [| headers values]; [exists StopIteration; reflexivity |].
  exists connection_closed. destruct truncate.
  - unfold bind at 1. unfold bind at 1.
    rewrite (client_new_cursor_closed s Hc). reflexivity.
  - unfold bind at 1. unfold ret at 1. unfold bind at 1.
    rewrite (client_new_cursor_closed s Hc). reflexivity.
Qed.

(** C4, as amended.  A [DatabaseConnection] reconnects instead of failing:
    [close] leaves the session without a connection, a second [close] does
    nothing, and the next operation ([run_query], a cursor) opens a fresh
    connection through [connect] and runs on it.  On a [DatabaseClient],
    after [close], every operation fails: those that reach the driver with
    the error of the driver for a closed connection. *)
Theorem operate_after_close :
  (forall (s : pgtool_db.state),
     pgtool_db.close s
     = (Ret tt, (pgtool_db.mk_db (pgtool_db._config (fst s)) None, snd s))
     /\ pgtool_db.close (pgtool_db.mk_db (pgtool_db._config (fst s)) None, snd s)
        = (Ret tt, (pgtool_db.mk_db (pgtool_db._config (fst s)) None, snd s))
     /\ (connect_error (pgtool_config.to_connect_kwargs (pgtool_db._config (fst s))) = None ->
         (forall query params fetch,
            pgtool_db.run_query query params fetch
              (pgtool_db.mk_db (pgtool_db._config (fst s)) None, snd s)
            = pgtool_db.run_query query params fetch
                (pgtool_db.mk_db (pgtool_db._config (fst s)) (Some fresh_conn), snd s))
         /\ (forall (A : Type) (body : M pgtool_db.state A),
               pgtool_db.with_cursor body
                 (pgtool_db.mk_db (pgtool_db._config (fst s)) None, snd s)
               = body (pgtool_db.mk_db (pgtool_db._config (fst s)) (Some fresh_conn), snd s))))
  /\ (forall (s : pg_tool_cli.state),
        pg_tool_cli.close s = (Ret tt, (drv_close (fst s), snd s))
        /\ (forall stmt params,
              pg_tool_cli.execute stmt params (drv_close (fst s), snd s)
              = (Raise connection_closed, (drv_close (fst s), snd s)))
        /\ (forall query,
              pg_tool_cli.run_query query (drv_close (fst s), snd s)
              = (Raise connection_closed, (drv_close (fst s), snd s)))
        /\ (forall schema,
              pg_tool_cli.list_tables schema (drv_close (fst s), snd s)
              = (Raise connection_closed, (drv_close (fst s), snd s)))
        /\ (forall table,
              pg_tool_cli.describe_table table (drv_close (fst s), snd s)
              = (Raise connection_closed, (drv_close (fst s), snd s)))
        /\ (forall table dest,
              pg_tool_cli.export_table table dest (drv_close (fst s), snd s)
              = (Raise connection_closed, (drv_close (fst s), snd s)))
        /\ (forall table src truncate,
              fails (fst (pg_tool_cli.import_csv table src truncate
                            (drv_close (fst s), snd s))))).
Proof.
  split.
  - intros [[cfg c] w]. simpl. split; [destruct c; reflexivity |].
    split; [reflexivity |]. intros Hconn.
    assert (Hc : pgtool_db.connect (pgtool_db.mk_db cfg None, w)
                 = (Ret tt, (pgtool_db.mk_db cfg (Some fresh_conn), w))).
    { unfold pgtool_db.connect. simpl. rewrite Hconn. reflexivity. }
    split.
    + intros query params fetch. apply run_query_after_connect. exact Hc.
    + intros A body. unfold pgtool_db.with_cursor.
      rewrite (bind_ret_step _ _ _ _ _ Hc).
      unfold pgtool_db.on_connection at 1. unfold bind at 1. simpl.
      destruct w. simpl. apply try_finally_nothing.
  - intros s.
    assert (Hc : closed (fst (drv_close (fst s), snd s)) = true) by reflexivity.
    split; [reflexivity |].
    repeat split; intros.
    + apply client_execute_closed. exact Hc.
    + unfold pg_tool_cli.run_query. apply bind_raise_step.
      apply client_execute_closed. exact Hc.
    + unfold pg_tool_cli.list_tables. apply bind_raise_step.
      apply client_execute_closed. exact Hc.
    + unfold pg_tool_cli.describe_table. apply bind_raise_step.
      apply client_execute_closed. exact Hc.
    + unfold pg_tool_cli.export_table. apply bind_raise_step.
      apply client_execute_closed. exact Hc.
    + apply import_csv_closed. exact Hc.
Qed.

End CloseProperties.

Lemma operate_after_close_witness :
  @pgtool_db.run_query demo.platform "SELECT 1" None true
    (pgtool_db.mk_db pgtool_config.empty_config None, demo.a_world)
  = @pgtool_db.run_query demo.platform "SELECT 1" None true
      (pgtool_db.mk_db pgtool_config.empty_config (Some fresh_conn), demo.a_world).
Proof.
  apply (proj1 (proj2 (proj2
           (proj1 (@operate_after_close demo.platform)
              (pgtool_db.mk_db pgtool_config.empty_config (Some fresh_conn), demo.a_world)))
           eq_refl)).
Defined.

(** C4 as stated fails on a [DatabaseConnection]: after [close], a query
    does not fail; the session reconnects and the query returns its row. *)
Lemma query_after_close_counterexample :
  fst (bind (@pgtool_db.close demo.platform)
         (fun _ => pgtool_db.run_query "SELECT 1" None true)
         (pgtool_db.mk_db pgtool_config.empty_config (Some fresh_conn), demo.a_world))
  = Ret (["?column?"], [[PInt 1]]).
Proof. vm_compute. reflexivity. Qed.

(** * Properties of the CSV import of pg_tool/cli.py *)

Section ImportProperties.
Context `{P : Platform}.
Import pg_tool_cli.

Lemma new_cursor_keeps_state (s s' : state) (r : outcome unit) :
  new_cursor s = (r, s') -> s' = s.
Proof.
  unfold new_cursor, on_connection. destruct s as [c w]. simpl.
  rewrite set_durable_same. intros [= _ <-]. reflexivity.
Qed.

Lemma new_cursor_open (c : conn) (w : world) :
  closed c = false -> new_cursor (c, w) = (Ret tt, (c, w)).
Proof.
  intros Hc. unfold new_cursor, on_connection, drv_cursor. simpl.
  rewrite Hc, set_durable_same. reflexivity.
Qed.

Lemma execute_keeps_world (stmt : statement) (params : option (list pyval))
  (s s' : state) (r : outcome cursor) :
  autocommit (fst s) = false ->
  on_connection (drv_execute stmt params) s = (r, s') ->
  snd s' = snd s /\ autocommit (fst s') = false.
Proof.
  intros Ha. unfold on_connection.
  destruct (drv_execute stmt params (fst s) (durable (snd s))) as [[r0 c1] d1] eqn:Hx.
  destruct (drv_execute_keeps_durable _ _ _ _ _ _ _ Ha Hx) as (-> & Ha1 & _).
  intros [= _ <-]. simpl. rewrite set_durable_same. auto.
Qed.

Lemma execute_raises_driver_error (stmt : statement) (params : option (list pyval))
  (s s' : state) (e : exn) :
  on_connection (drv_execute stmt params) s = (Raise e, s') ->
  exists msg, e = DriverError msg.
Proof.
  unfold on_connection.
  destruct (drv_execute stmt params (fst s) (durable (snd s))) as [[r0 c1] d1] eqn:Hx.
  intros [= -> _]. exact (drv_execute_raises _ _ _ _ _ _ _ Hx).
Qed.

Lemma executemany_keeps_world (stmt : statement) (values : list (list string))
  (s s' : state) (r : outcome unit) :
  autocommit (fst s) = false ->
  executemany stmt values s = (r, s') ->
  snd s' = snd s /\ autocommit (fst s') = false.
Proof.
  unfold executemany. revert s. induction values as [| row rest IH]; intros s Ha; simpl.
  - intros [= _ <-]. auto.
  - unfold bind at 1. unfold bind at 1.
    destruct (on_connection (drv_execute stmt (Some (map PStr row))) s)
      as [[cur | e] s1] eqn:Hx;
      destruct (execute_keeps_world _ _ _ _ _ Ha Hx) as [Hw Ha1].
    + unfold ret at 1. intros Hrest. destruct (IH s1 Ha1 Hrest) as [Hw' Ha']. split; congruence.
    + intros [= _ <-]. auto.
Qed.

Lemma executemany_raises_driver_error (stmt : statement) (values : list (list string))
  (s s' : state) (e : exn) :
  executemany stmt values s = (Raise e, s') -> exists msg, e = DriverError msg.
Proof.
  unfold executemany. revert s. induction values as [| row rest IH]; intros s; simpl.
  - intros [= ].
  - unfold bind at 1. unfold bind at 1.
    destruct (on_connection (drv_execute stmt (Some (map PStr row))) s)
      as [[cur | e0] s1] eqn:Hx.
    + unfold ret at 1. apply IH.
    + intros [= <- _]. exact (execute_raises_driver_error _ _ _ _ _ Hx).
Qed.

(** A row that does not fill the placeholders stops the batch. *)
Lemma executemany_mismatch (schema name : string) (columns : list string) (n : nat)
  (values : list (list string)) (s : state) :
  Exists (fun row => length row <> n) values ->
  exists msg s', executemany (InsertInto schema name columns n) values s
                 = (Raise (DriverError msg), s').
Proof.
  intros Hex. revert s. induction Hex as [row rest Hrow | row rest _ IH]; intros s;
    unfold executemany; simpl; unfold bind at 1; unfold bind at 1.
  - destruct (on_connection (drv_execute (InsertInto schema name columns n)
                               (Some (map PStr row))) s) as [[cur | e] s1] eqn:Hx.
    + exfalso. revert Hx. unfold on_connection, drv_execute.
      destruct (closed (fst s)); [discriminate |].
      assert (Hp : placeholders_match (InsertInto schema name columns n)
                     (Some (map PStr row)) = false).
      { simpl. rewrite length_map. apply Nat.eqb_neq. exact Hrow. }
      rewrite Hp. simpl. destruct (tx (fst s)); discriminate.
    + destruct (execute_raises_driver_error _ _ _ _ _ Hx) as [msg ->]. eauto.
  - destruct (on_connection (drv_execute (InsertInto schema name columns n)
                               (Some (map PStr row))) s) as [[cur | e] s1] eqn:Hx.
    + unfold ret at 1. apply IH.
    + destruct (execute_raises_driver_error _ _ _ _ _ Hx) as [msg ->]. eauto.
Qed.

Lemma commit_keeps_world_on_failure (s s' : state) (e : exn) :
  on_connection drv_commit s = (Raise e, s') ->
  snd s' = snd s /\ exists msg, e = DriverError msg.
Proof.
  unfold on_connection.
  destruct (drv_commit (fst s) (durable (snd s))) as [[r0 c1] d1] eqn:Hx.
  intros [= -> <-]. destruct (drv_commit_raises _ _ _ _ _ Hx) as [-> Hmsg].
  simpl. rewrite set_durable_same. auto.
Qed.

(** [import_csv] once the file is read and has a header. *)
Lemma import_csv_read (table : string) (src : path) (truncate : bool) (s : state)
  (text : string) (headers : list string) (values : list (list string)) :
  read_file (files (snd s)) src = Ret text ->
  csv_reader text = headers :: values ->
  import_csv table src truncate s
  = bind (if truncate
          then bind new_cursor (fun _ =>
               bind (on_connection
                       (drv_execute (TruncateTable (fst (_parse_table_name table))
                                       (snd (_parse_table_name table))) None))
                    (fun _ => ret tt))
          else ret tt)
      (fun _ =>
       bind new_cursor (fun _ =>
       bind (executemany (InsertInto (fst (_parse_table_name table))
                            (snd (_parse_table_name table)) headers (length headers))
               values) (fun _ =>
       bind (on_connection drv_commit) (fun _ => ret (length values))))) s.
Proof.
  intros Hread Hcsv. unfold import_csv. unfold bind at 1. unfold read_text.
  rewrite Hread, Hcsv. reflexivity.
Qed.

(** The truncate of [import_csv], when asked for, keeps the world as it is
    outside autocommit mode. *)
Lemma truncate_step_keeps_world (schema name : string) (truncate : bool)
  (s s' : state) (r : outcome unit) :
  autocommit (fst s) = false ->
  (if truncate
   then bind new_cursor (fun _ =>
        bind (on_connection (drv_execute (TruncateTable schema name) None))
             (fun _ => ret tt))
   else ret tt) s = (r, s') ->
  snd s' = snd s /\ autocommit (fst s') = false
  /\ (forall e, r = Raise e -> exists msg, e = DriverError msg).
Proof.
  intros Ha. destruct truncate.
  - unfold bind at 1. destruct (new_cursor s) as [[[] | e] s1] eqn:Hcur;
      pose proof (new_cursor_keeps_state _ _ _ Hcur) as ->.
    + unfold bind at 1.
      destruct (on_connection (drv_execute (TruncateTable schema name) None) s)
        as [[cur | e] s1] eqn:Hx;
        destruct (execute_keeps_world _ _ _ _ _ Ha Hx) as [Hw Ha1].
      * intros [= <- <-]. repeat split; auto. discriminate.
      * intros [= <- <-]. repeat split; auto. intros e0 [= <-].
        exact (execute_raises_driver_error _ _ _ _ _ Hx).
    + intros [= <- <-]. repeat split; auto. intros e0 [= <-].
      revert Hcur. unfold new_cursor, on_connection, drv_cursor.
      destruct (closed (fst s)); [| discriminate]. intros [= <-]. eexists. reflexivity.
  - intros [= <- <-]. repeat split; auto. discriminate.
Qed.

(** C5, as amended.  On a connection that is not in autocommit mode:
    [import_csv] fails with [StopIteration], before any statement is sent,
    when the file has no header line; it fails with the error of the driver
    when a data row has not as many fields as the header; and whenever it
    fails, nothing is committed: the world is as before.  It checks nothing
    itself and raises no error of its own: a header that is an empty line,
    with no data rows, is imported as zero rows. *)
Theorem import_csv_failures (table : string) (src : path) (truncate : bool) (s : state) :
  autocommit (fst s) = false ->
  (forall text, read_file (files (snd s)) src = Ret text -> csv_reader text = [] ->
     import_csv table src truncate s = (Raise StopIteration, s))
  /\ (forall text headers values,
        read_file (files (snd s)) src = Ret text -> csv_reader text = headers :: values ->
        Exists (fun row => length row <> length headers) values ->
        exists msg s', import_csv table src truncate s = (Raise (DriverError msg), s'))
  /\ (forall e s', import_csv table src truncate s = (Raise e, s') -> snd s' = snd s)
  /\ (forall text, read_file (files (snd s)) src = Ret text -> csv_reader text = [[]] ->
        truncate = false -> closed (fst s) = false ->
        fst (import_csv table src truncate s) = Ret 0).
Proof.
  intros Ha. split; [| split; [| split]].
  - intros text Hread Hcsv. unfold import_csv. unfold bind, read_text.
    rewrite Hread, Hcsv. reflexivity.
  - intros text headers values Hread Hcsv Hex.
    rewrite (import_csv_read _ _ _ _ _ _ _ Hread Hcsv).
    unfold bind at 1.
    match goal with |- context [(if truncate then ?m else ret tt) s] =>
      destruct ((if truncate then m else ret tt) s) as [[[] | e] s1] eqn:Htr end.
    + unfold bind at 1. destruct (new_cursor s1) as [[[] | e] s2] eqn:Hcur.
      * unfold bind at 1.
        destruct (executemany_mismatch (fst (_parse_table_name table))
                    (snd (_parse_table_name table)) headers (length headers) values s2 Hex)
          as (msg & s3 & ->).
        eauto.
      * revert Hcur. unfold new_cursor, on_connection, drv_cursor.
        destruct (closed (fst s1)); [| discriminate]. intros [= <- <-]. eauto.
    + destruct (truncate_step_keeps_world _ _ _ _ _ _ Ha Htr) as (_ & _ & Hdrv).
      destruct (Hdrv e eq_refl) as [msg ->]. eauto.
  - intros e s' Hfail. unfold import_csv in Hfail.
    unfold bind at 1 in Hfail. unfold read_text in Hfail.
    destruct (read_file (files (snd s)) src) as [text | e0]; [| congruence].
    destruct (csv_reader text) as [| headers values].
    { unfold raise in Hfail. congruence. }
    apply bind_raise_inv in Hfail as [Htr | (u & s1 & Htr & Hfail)].
    { exact (proj1 (truncate_step_keeps_world _ _ _ _ _ _ Ha Htr)). }
    destruct (truncate_step_keeps_world _ _ _ _ _ _ Ha Htr) as (Hw1 & Ha1 & _).
    apply bind_raise_inv in Hfail as [Hcur | (u2 & s2 & Hcur & Hfail)].
    { rewrite (new_cursor_keeps_state _ _ _ Hcur). exact Hw1. }
    pose proof (new_cursor_keeps_state _ _ _ Hcur) as ->.
    apply bind_raise_inv in Hfail as [Hmany | (u3 & s3 & Hmany & Hfail)].
    { destruct (executemany_keeps_world _ _ _ _ _ Ha1 Hmany) as [Hw2 _]. congruence. }
    destruct (executemany_keeps_world _ _ _ _ _ Ha1 Hmany) as [Hw2 _].
    apply bind_raise_inv in Hfail as [Hcommit | (u4 & s4 & _ & Hfail)].
    { destruct (commit_keeps_world_on_failure _ _ _ Hcommit) as [Hw3 _]. congruence. }
    discriminate.
  - intros text Hread Hcsv -> Hcl.
    rewrite (import_csv_read _ _ _ _ _ _ _ Hread Hcsv).
    destruct s as [c w]. simpl in Hcl.
    unfold bind at 1. unfold ret at 1. unfold bind at 1.
    rewrite (new_cursor_open c w Hcl).
    unfold bind at 1. unfold executemany. simpl. unfold ret at 1.
    unfold bind, on_connection, drv_commit. simpl. rewrite Hcl.
    destruct (tx c); reflexivity.
Qed.

Lemma in_transaction_mode_after (c : conn) (d : DB) :
  in_transaction_mode c -> in_transaction_mode (set_tx (InTrans d) c).
Proof.
  intros (Hc & Ha & _). repeat split; simpl; auto; discriminate.
Qed.

(** One statement inside the transaction: accepted, it changes the copy of
    the connection; refused, it raises; the world stays as it is. *)
Lemma execute_in_transaction (stmt : statement) (params : option (list pyval))
  (c : conn) (w : world) :
  in_transaction_mode c ->
  match run_statement stmt params (conn_view c (durable w)) with
  | Some d' =>
      exists cur, on_connection (drv_execute stmt params) (c, w)
                  = (Ret cur, (set_tx (InTrans d') c, w))
  | None =>
      exists msg c', on_connection (drv_execute stmt params) (c, w)
                     = (Raise (DriverError msg), (c', w))
  end.
Proof.
  intros (Hc & Ha & Ht). unfold run_statement, on_connection, drv_execute. simpl.
  rewrite Hc, Ha.
  destruct (placeholders_match stmt params); simpl.
  - destruct (server_exec stmt params (conn_view c (durable w))) as [msg | [[d' desc] rws]];
      destruct (tx c); try contradiction; rewrite set_durable_same; eauto.
  - destruct (tx c); try contradiction; rewrite set_durable_same; eauto.
Qed.

Lemma executemany_cons (stmt : statement) (row : list string)
  (rest : list (list string)) (s : state) :
  executemany stmt (row :: rest) s
  = match on_connection (drv_execute stmt (Some (map PStr row))) s with
    | (Ret _, s1) => executemany stmt rest s1
    | (Raise e, s1) => (Raise e, s1)
    end.
Proof.
  unfold executemany. simpl. unfold bind.
  destruct (on_connection (drv_execute stmt (Some (map PStr row))) s) as [[cur | e] s1];
    reflexivity.
Qed.

Lemma batch_in_transaction (stmt : statement) (values : list (list string)) (w : world) :
  forall c, in_transaction_mode c ->
  match run_batch stmt values (conn_view c (durable w)) with
  | Some d' =>
      exists c', executemany stmt values (c, w) = (Ret tt, (c', w))
                 /\ in_transaction_mode c' /\ conn_view c' (durable w) = d'
                 /\ set_tx Idle c' = set_tx Idle c
  | None =>
      exists msg c', executemany stmt values (c, w) = (Raise (DriverError msg), (c', w))
  end.
Proof.
  induction values as [| row rest IH]; intros c Hmode; simpl.
  - exists c. repeat split; try apply Hmode.
  - pose proof (execute_in_transaction stmt (Some (map PStr row)) c w Hmode) as Hx.
    rewrite executemany_cons.
    destruct (run_statement stmt (Some (map PStr row)) (conn_view c (durable w)))
      as [d1 |].
    + destruct Hx as [cur Hx]. rewrite Hx.
      specialize (IH (set_tx (InTrans d1) c) (in_transaction_mode_after c d1 Hmode)).
      change (conn_view (set_tx (InTrans d1) c) (durable w)) with d1 in IH.
      destruct (run_batch stmt rest d1) as [d' |].
      * destruct IH as (c' & Hrun & Hm & Hv & Hidle). exists c'. repeat split; auto;
          apply Hm.
      * exact IH.
    + destruct Hx as (msg & c' & Hx). rewrite Hx. eauto.
Qed.

Lemma commit_in_transaction (c : conn) (w : world) :
  in_transaction_mode c ->
  on_connection drv_commit (c, w)
  = (Ret tt, (set_tx Idle c, set_durable (conn_view c (durable w)) w)).
Proof.
  intros (Hc & Ha & Ht). unfold on_connection, drv_commit, conn_view. simpl. rewrite Hc.
  destruct c as [cl ac t]. simpl in *. destruct t; try contradiction; reflexivity.
Qed.

(** C6, as amended.  On a connection that is not in autocommit mode the
    truncate of [import_csv] is a statement of its own, sent before the batch
    insert, but inside the same transaction, and the one [commit] comes after
    the insert.  When the server accepts every statement, the truncate and
    all the inserted rows are committed together; when the truncate or an
    insert is refused, [import_csv] fails with the error of the driver and
    nothing is committed, neither a row nor the truncate: the world is as
    before. *)
Theorem import_csv_all_or_nothing (table : string) (src : path) (truncate : bool)
  (c : conn) (w : world) (text : string) (headers : list string)
  (values : list (list string)) :
  in_transaction_mode c ->
  read_file (files w) src = Ret text ->
  csv_reader text = headers :: values ->
  match import_effect (fst (_parse_table_name table)) (snd (_parse_table_name table))
          headers values truncate (conn_view c (durable w)) with
  | Some d' =>
      import_csv table src truncate (c, w)
      = (Ret (length values), (set_tx Idle c, set_durable d' w))
  | None =>
      exists msg c', import_csv table src truncate (c, w) = (Raise (DriverError msg), (c', w))
  end.
Proof.
  intros Hmode Hread Hcsv.
  rewrite (import_csv_read table src truncate (c, w) text headers values Hread Hcsv).
  unfold import_effect.
  set (schema := fst (_parse_table_name table)).
  set (name := snd (_parse_table_name table)).
  set (insert := InsertInto schema name headers (length headers)).
  assert (Hrest : forall c1, in_transaction_mode c1 -> set_tx Idle c1 = set_tx Idle c ->
            match run_batch insert values (conn_view c1 (durable w)) with
            | Some d' =>
                bind new_cursor (fun _ =>
                bind (executemany insert values) (fun _ =>
                bind (on_connection drv_commit) (fun _ => ret (length values)))) (c1, w)
                = (Ret (length values), (set_tx Idle c, set_durable d' w))
            | None =>
                exists msg c',
                  bind new_cursor (fun _ =>
                  bind (executemany insert values) (fun _ =>
                  bind (on_connection drv_commit) (fun _ => ret (length values)))) (c1, w)
                  = (Raise (DriverError msg), (c', w))
            end).
  { intros c1 Hm1 Hidle.
    pose proof (batch_in_transaction insert values w c1 Hm1) as Hb.
    destruct (run_batch insert values (conn_view c1 (durable w))) as [d' |].
    - destruct Hb as (c2 & Hrun & Hm2 & Hv & Hidle2).
      unfold bind at 1. rewrite (new_cursor_open c1 w (proj1 Hm1)).
      unfold bind at 1. rewrite Hrun. unfold bind at 1.
      rewrite (commit_in_transaction c2 w Hm2). unfold ret.
      rewrite Hv, Hidle2, Hidle. reflexivity.
    - destruct Hb as (msg & c2 & Hrun). exists msg, c2.
      unfold bind at 1. rewrite (new_cursor_open c1 w (proj1 Hm1)).
      unfold bind at 1. rewrite Hrun. reflexivity. }
  destruct truncate.
  - pose proof (execute_in_transaction (TruncateTable schema name) None c w Hmode) as Hx.
    destruct (run_statement (TruncateTable schema name) None (conn_view c (durable w)))
      as [d1 |].
    + destruct Hx as [cur Hx].
      specialize (Hrest (set_tx (InTrans d1) c) (in_transaction_mode_after c d1 Hmode) eq_refl).
      change (conn_view (set_tx (InTrans d1) c) (durable w)) with d1 in Hrest.
      assert (Htr : bind new_cursor (fun _ =>
                    bind (on_connection (drv_execute (TruncateTable schema name) None))
                         (fun _ => ret tt)) (c, w)
                    = (Ret tt, (set_tx (InTrans d1) c, w))).
      { unfold bind at 1. rewrite (new_cursor_open c w (proj1 Hmode)).
        unfold bind at 1. rewrite Hx. reflexivity. }
      destruct (run_batch insert values d1) as [d' |].
      * rewrite (bind_ret_step _ _ _ _ _ Htr). exact Hrest.
      * destruct Hrest as (msg & c' & Hrest). exists msg, c'.
        rewrite (bind_ret_step _ _ _ _ _ Htr). exact Hrest.
    + destruct Hx as (msg & c' & Hx). exists msg, c'.
      unfold bind at 1. unfold bind at 1. rewrite (new_cursor_open c w (proj1 Hmode)).
      unfold bind at 1. rewrite Hx. reflexivity.
  - specialize (Hrest c Hmode eq_refl).
    assert (Hno : @ret state unit tt (c, w) = (Ret tt, (c, w))) by reflexivity.
    destruct (run_batch insert values (conn_view c (durable w))) as [d' |].
    + rewrite (bind_ret_step _ _ _ _ _ Hno). exact Hrest.
    + destruct Hrest as (msg & c' & Hrest). exists msg, c'.
      rewrite (bind_ret_step _ _ _ _ _ Hno). exact Hrest.
Qed.

End ImportProperties.

Lemma import_csv_failures_witness :
  exists msg s',
    @pg_tool_cli.import_csv demo.platform "t" ["short.csv"] false (fresh_conn, demo.a_world)
    = (Raise (DriverError msg), s').
Proof.
  apply (proj1 (proj2 (@import_csv_failures demo.platform "t" ["short.csv"] false
                         (fresh_conn, demo.a_world) eq_refl))
           ("a,b,c" +:+ nl +:+ "1,2" +:+ nl) ["a"; "b"; "c"] [["1"; "2"]]).
  - vm_compute. reflexivity.
  - vm_compute. reflexivity.
  - apply Exists_cons_hd. simpl. intros Hlen. discriminate Hlen.
Defined.

(** The scenario of the specification: three header columns, a data row of
    two fields; the import fails, with the error of the driver, and the
    table keeps exactly the rows it had. *)
Example import_csv_short_row :
  fst (@pg_tool_cli.import_csv demo.platform "t" ["short.csv"] false
         (fresh_conn, demo.a_world))
  = Raise (DriverError "the query has different numbers of placeholders and parameters")
  /\ snd (snd (@pg_tool_cli.import_csv demo.platform "t" ["short.csv"] false
                 (fresh_conn, demo.a_world)))
     = demo.a_world.
Proof. split; vm_compute; reflexivity. Qed.

(** C5 as stated fails on a header that is empty: the file is one empty
    line, its header is the empty record, and [import_csv] raises nothing;
    it returns 0. *)
Lemma import_csv_empty_header_counterexample :
  read_file (files demo.a_world) ["blank.csv"] = Ret nl
  /\ @csv_reader demo.platform nl = [[]]
  /\ fst (@pg_tool_cli.import_csv demo.platform "t" ["blank.csv"] false
            (fresh_conn, demo.a_world))
     = Ret 0.
Proof. repeat split; vm_compute; reflexivity. Qed.

Lemma import_csv_all_or_nothing_witness :
  @pg_tool_cli.import_csv demo.platform "t" ["good.csv"] true (fresh_conn, demo.a_world)
  = (Ret 1, (set_tx Idle fresh_conn,
             @set_durable demo.platform demo.imported_table demo.a_world)).
Proof.
  exact (@import_csv_all_or_nothing demo.platform "t" ["good.csv"] true
           fresh_conn demo.a_world
           ("a,b,c" +:+ nl +:+ "4,5,6" +:+ nl) ["a"; "b"; "c"] [["4"; "5"; "6"]]
           (conj eq_refl (conj eq_refl (fun H => eq_ind Idle
              (fun t => match t with Idle => True | _ => False end) I InError H)))
           eq_refl eq_refl).
Defined.

(** C6 as stated fails.  The import is run with truncate on a file whose
    data row is one field short; the truncate is accepted, the insert is
    refused.  [import_csv] leaves the committed table with the row it had,
    and so does the whole command, which ends with exit status 2: the
    truncate did not take effect on its own. *)
Lemma truncate_not_kept_counterexample :
  fst (@pg_tool_cli.import_csv demo.platform "t" ["short.csv"] true
         (fresh_conn, demo.a_world))
  = Raise (DriverError "the query has different numbers of placeholders and parameters")
  /\ tx (fst (snd (@pg_tool_cli.import_csv demo.platform "t" ["short.csv"] true
                     (fresh_conn, demo.a_world))))
     = @InTrans demo.platform demo.emptied_table
  /\ durable (snd (snd (@pg_tool_cli.import_csv demo.platform "t" ["short.csv"] true
                          (fresh_conn, demo.a_world))))
     = demo.one_table
  /\ fst (@pg_tool_cli.run_cli demo.platform demo.pg_tool_parser
            ["import"; "t"; "short.csv"; "--truncate"] [] (tt, demo.a_world))
     = Ret 2%Z
  /\ durable (snd (snd (@pg_tool_cli.run_cli demo.platform demo.pg_tool_parser
                          ["import"; "t"; "short.csv"; "--truncate"] []
                          (tt, demo.a_world))))
     = demo.one_table.
Proof. repeat split; vm_compute; reflexivity. Qed.

(** * Properties of the file system model *)

Section FileLemmas.

Lemma make_dirs_lookup (dirs : list path) (fs : gmap path node) (q : path) :
  fold_left (fun acc d => <[d := Dir]> acc) dirs fs !! q
  = if decide (q ∈ dirs) then Some Dir else fs !! q.
Proof.
  revert fs. induction dirs as [| d rest IH]; intros fs; simpl.
  - destruct (decide (q ∈ [])) as [Hin | _]; [| reflexivity].
    apply elem_of_nil in Hin. contradiction.
  - rewrite IH. destruct (decide (q ∈ rest)) as [Hin | Hnin].
    + destruct (decide (q ∈ d :: rest)) as [_ | Hn]; [reflexivity |].
      exfalso. apply Hn. apply elem_of_cons. auto.
    + destruct (decide (d = q)) as [-> | Hne].
      * rewrite lookup_insert_eq.
        destruct (decide (q ∈ q :: rest)) as [_ | Hn]; [reflexivity |].
        exfalso. apply Hn. apply elem_of_cons. auto.
      * rewrite lookup_insert_ne by exact Hne.
        destruct (decide (q ∈ d :: rest)) as [Hin | _]; [| reflexivity].
        apply elem_of_cons in Hin as [-> | Hin]; contradiction.
Qed.

Lemma make_dirs_lookup_in (dirs : list path) (fs : gmap path node) (q : path) :
  In q dirs -> fold_left (fun acc d => <[d := Dir]> acc) dirs fs !! q = Some Dir.
Proof.
  intros Hin. rewrite make_dirs_lookup.
  destruct (decide (q ∈ dirs)) as [_ | Hn]; [reflexivity |].
  exfalso. apply Hn. apply list_elem_of_In. exact Hin.
Qed.

Lemma make_dirs_lookup_out (dirs : list path) (fs : gmap path node) (q : path) :
  ~ In q dirs -> fold_left (fun acc d => <[d := Dir]> acc) dirs fs !! q = fs !! q.
Proof.
  intros Hnin. rewrite make_dirs_lookup.
  destruct (decide (q ∈ dirs)) as [Hin | _]; [| reflexivity].
  exfalso. apply Hnin. apply list_elem_of_In. exact Hin.
Qed.

Lemma prefix_is_shorter (p q : path) : In q (prefixes p) -> length q <= length p.
Proof.
  unfold prefixes. rewrite in_map_iff. intros (n & <- & _).
  rewrite length_firstn. lia.
Qed.

Lemma path_in_its_prefixes (p : path) : p <> [] -> In p (prefixes p).
Proof.
  intros Hne. unfold prefixes. apply in_map_iff. exists (length p). split.
  - apply firstn_all.
  - apply in_seq. destruct p; [contradiction | simpl; lia].
Qed.

Lemma parent_is_shorter (p : path) : p <> [] -> length (parent p) < length p.
Proof.
  intros Hne. unfold parent.
  destruct (exists_last Hne) as (front & x & ->).
  rewrite removelast_last, length_app. simpl. lia.
Qed.

Lemma not_among_parent_prefixes (p : path) : p <> [] -> ~ In p (prefixes (parent p)).
Proof.
  intros Hne Hin. apply prefix_is_shorter in Hin.
  pose proof (parent_is_shorter p Hne). lia.
Qed.

(** What [mkdir(parents=True, exist_ok=True)] on the parent and the opening
    of the destination for writing leave, when no file is in the way. *)
Lemma write_under_new_parents (fs : gmap path node) (dest : path) (content : string) :
  dest <> [] ->
  existsb (is_file fs) (prefixes (parent dest)) = false ->
  is_dir fs dest = false ->
  exists fs1 fs2,
    mkdir_parents fs (parent dest) = Ret fs1
    /\ write_file fs1 dest content = Ret fs2
    /\ fs2 !! dest = Some (File content)
    /\ (forall q, In q (prefixes (parent dest)) -> fs2 !! q = Some Dir)
    /\ (forall q, q <> dest -> ~ In q (prefixes (parent dest)) -> fs2 !! q = fs !! q).
Proof.
  intros Hne Hfiles Hdir.
  set (fs1 := fold_left (fun acc d => <[d := Dir]> acc) (prefixes (parent dest)) fs).
  exists fs1, (<[dest := File content]> fs1).
  assert (Hdest1 : fs1 !! dest = fs !! dest).
  { unfold fs1. apply make_dirs_lookup_out. exact (not_among_parent_prefixes dest Hne). }
  split; [unfold mkdir_parents; rewrite Hfiles; reflexivity |].
  split.
  - unfold write_file. destruct dest as [| x rest]; [contradiction |].
    assert (Hd1 : is_dir fs1 (x :: rest) = false).
    { unfold is_dir in *. rewrite Hdest1. exact Hdir. }
    rewrite Hd1.
    assert (Hp : is_dir fs1 (parent (x :: rest)) = true).
    { destruct (parent (x :: rest)) as [| y more] eqn:Hpar; [reflexivity |].
      unfold is_dir. unfold fs1. rewrite make_dirs_lookup_in; [reflexivity |].
      apply path_in_its_prefixes. discriminate. }
    rewrite Hp. reflexivity.
  - split; [apply lookup_insert_eq |]. split.
    + intros q Hin. rewrite lookup_insert_ne.
      * unfold fs1. apply make_dirs_lookup_in. exact Hin.
      * intros ->. exact (not_among_parent_prefixes q Hne Hin).
    + intros q Hq Hnin. rewrite lookup_insert_ne by congruence.
      unfold fs1. apply make_dirs_lookup_out. exact Hnin.
Qed.

End FileLemmas.

(** * Properties of the CSV export *)

Section ExportProperties.
Context `{P : Platform}.

Lemma export_to_csv_after_query (query : string) (dest : path)
  (params : option (list pyval)) (s s1 : pgtool_db.state)
  (cols : list string) (rws : list (list pyval)) :
  pgtool_db.run_query query params true s = (Ret (cols, rws), s1) ->
  pgtool_db.export_to_csv query dest params s
  = match cols with
    | [] => (Raise (ValueError "Query did not return any data to export"), s1)
    | _ =>
        bind (fs_update (fun fs => mkdir_parents fs (parent dest))) (fun _ =>
        bind (fs_update (fun fs => write_file fs dest (pgtool_db.csv_text cols rws)))
             (fun _ => ret dest)) s1
    end.
Proof.
  intros Hrun. unfold pgtool_db.export_to_csv.
  rewrite (bind_ret_step _ _ _ _ _ Hrun). simpl. destruct cols; reflexivity.
Qed.

(** C7, as amended.  [DatabaseConnection.export_to_csv]: when the statement
    has no column metadata, which is when [run_query] returns no columns,
    the export fails with the [ValueError] that stands for the
    specification's NoDataError, and writes nothing; otherwise it creates
    the missing directories above the destination and writes there the
    header row of the column names followed by one row for each result row,
    in the order of the result.  [DatabaseClient.export_table] differs: with
    a result that has no columns it returns without writing and without an
    error, and it opens the destination without creating directories, so a
    destination whose parent is no directory is an error of the operating
    system. *)
Theorem export_contract :
  (forall (cfg : pgtool_config.DatabaseConfig) (c c1 : conn) (w : world) (d1 : DB)
          (query : string) (params : option (list pyval)) (cur : cursor),
     closed c = false ->
     drv_execute (Sql query) params c (durable w) = (Ret cur, c1, d1) ->
     pgtool_db.run_query query params true (pgtool_db.mk_db cfg (Some c), w)
     = (Ret (if has_columns cur then (column_names cur, rows cur) else ([], [])),
        (pgtool_db.mk_db cfg (Some c1), set_durable d1 w))
     /\ (has_columns cur = true -> column_names cur <> []))
  /\ (forall (query : string) (dest : path) (params : option (list pyval))
             (s s1 : pgtool_db.state) (cols : list string) (rws : list (list pyval)),
        pgtool_db.run_query query params true s = (Ret (cols, rws), s1) ->
        (cols = [] ->
         pgtool_db.export_to_csv query dest params s
         = (Raise (ValueError "Query did not return any data to export"), s1))
        /\ (cols <> [] -> dest <> [] ->
            existsb (is_file (files (snd s1))) (prefixes (parent dest)) = false ->
            is_dir (files (snd s1)) dest = false ->
            exists fs',
              pgtool_db.export_to_csv query dest params s
              = (Ret dest, (fst s1, set_files fs' (snd s1)))
              /\ fs' !! dest
                 = Some (File (fold_left String.append
                                 (map csv_row (map PStr cols :: rws)) EmptyString))
              /\ (forall q, In q (prefixes (parent dest)) -> fs' !! q = Some Dir)
              /\ (forall q, q <> dest -> ~ In q (prefixes (parent dest)) ->
                     fs' !! q = files (snd s1) !! q)))
  /\ (forall (table : string) (dest : path) (s s1 : pg_tool_cli.state) (cur : cursor),
        pg_tool_cli.execute
          (SelectAllFrom (fst (pg_tool_cli._parse_table_name table))
                         (snd (pg_tool_cli._parse_table_name table))) [] s
        = (Ret cur, s1) ->
        (description cur = Some [] -> pg_tool_cli.export_table table dest s = (Ret tt, s1))
        /\ (has_columns cur = true -> dest <> [] ->
            is_dir (files (snd s1)) (parent dest) = false ->
            exists msg, pg_tool_cli.export_table table dest s = (Raise (OSError msg), s1))).
Proof.
  split; [| split].
  - intros cfg c c1 w d1 query params cur Hcl Hx. split.
    + rewrite run_query_connected by exact Hcl. rewrite Hx.
      destruct (has_columns cur); reflexivity.
    + unfold has_columns, column_names. destruct (description cur) as [[| x l] |];
        simpl; congruence.
  - intros query dest params s s1 cols rws Hrun. split.
    + intros ->. rewrite (export_to_csv_after_query _ dest _ _ _ _ _ Hrun). reflexivity.
    + intros Hcols Hdest Hfiles Hdir.
      rewrite (export_to_csv_after_query _ dest _ _ _ _ _ Hrun).
      destruct (write_under_new_parents (files (snd s1)) dest
                  (pgtool_db.csv_text cols rws) Hdest Hfiles Hdir)
        as (fs1 & fs2 & Hmk & Hwr & Hfile & Hdirs & Hrest).
      exists fs2. split; [| auto].
      destruct cols as [| col more]; [contradiction |].
      unfold bind, fs_update. rewrite Hmk. simpl. rewrite Hwr. simpl.
      destruct s1 as [o [d fs so se]]. reflexivity.
  - intros table dest s s1 cur Hx. split.
    + intros Hdesc. unfold pg_tool_cli.export_table.
      rewrite (bind_ret_step _ _ _ _ _ Hx).
      unfold bind, pg_tool_cli.fetchall_dicts, bind, fetchall, column_names.
      rewrite Hdesc. reflexivity.
    + intros Hcols Hdest Hparent. unfold pg_tool_cli.export_table.
      rewrite (bind_ret_step _ _ _ _ _ Hx).
      unfold has_columns in Hcols.
      unfold bind, pg_tool_cli.fetchall_dicts, bind, fetchall, column_names.
      destruct (description cur) as [[| col more] |]; try discriminate. simpl.
      unfold fs_update, write_file.
      destruct dest as [| x rest]; [contradiction |].
      destruct (is_dir (files (snd s1)) (x :: rest)); [eauto |].
      rewrite Hparent. eauto.
Qed.

End ExportProperties.

Lemma export_contract_witness :
  exists fs',
    @pgtool_db.export_to_csv demo.platform "SELECT 1" ["out"; "one.csv"] None
      (pgtool_db.mk_db pgtool_config.empty_config (Some fresh_conn), demo.bare_world)
    = (Ret ["out"; "one.csv"],
       (pgtool_db.mk_db pgtool_config.empty_config
          (Some (@set_tx demo.platform (@InTrans demo.platform demo.one_table) fresh_conn)),
        set_files fs' demo.bare_world))
    /\ fs' !! ["out"; "one.csv"]
       = Some (File (fold_left String.append
                       (map (@csv_row demo.platform) (map PStr ["?column?"] :: [[PInt 1]]))
                       EmptyString))
    /\ (forall q, In q (prefixes (parent ["out"; "one.csv"])) -> fs' !! q = Some Dir)
    /\ (forall q, q <> ["out"; "one.csv"] ->
          ~ In q (prefixes (parent ["out"; "one.csv"])) ->
          fs' !! q = files demo.bare_world !! q).
Proof.
  apply (proj2 (proj1 (proj2 (@export_contract demo.platform))
                  "SELECT 1" ["out"; "one.csv"] None
                  (pgtool_db.mk_db pgtool_config.empty_config (Some fresh_conn),
                   demo.bare_world)
                  (pgtool_db.mk_db pgtool_config.empty_config
                     (Some (@set_tx demo.platform (@InTrans demo.platform demo.one_table)
                              fresh_conn)),
                   demo.bare_world)
                  ["?column?"] [[PInt 1]] eq_refl)).
  - discriminate.
  - discriminate.
  - vm_compute. reflexivity.
  - vm_compute. reflexivity.
Defined.

Example export_to_csv_writes_rows_in_order :
  files (snd (snd (@pgtool_db.export_to_csv demo.platform "SELECT 1" ["out"; "one.csv"] None
                     (pgtool_db.mk_db pgtool_config.empty_config (Some fresh_conn),
                      demo.bare_world))))
    !! ["out"; "one.csv"]
  = Some (File ("?column?" +:+ String (ascii_of_nat 13) nl
                +:+ "1" +:+ String (ascii_of_nat 13) nl))
  /\ files (snd (snd (@pgtool_db.export_to_csv demo.platform "SELECT 1" ["out"; "one.csv"]
                        None
                        (pgtool_db.mk_db pgtool_config.empty_config (Some fresh_conn),
                         demo.bare_world))))
       !! ["out"]
     = Some Dir.
Proof. split; vm_compute; reflexivity. Qed.

(** C7 as stated fails on [DatabaseClient.export_table].  With a
    destination under a directory that does not exist, the export of a table
    that has columns raises the error of the operating system and creates no
    directory; and the export of a table without columns returns without an
    error and without a file. *)
Lemma export_table_counterexample :
  fst (@pg_tool_cli.export_table demo.platform "t" ["out"; "t.csv"]
         (fresh_conn, demo.a_world))
  = Raise (OSError "No such file or directory")
  /\ files (snd (snd (@pg_tool_cli.export_table demo.platform "t" ["out"; "t.csv"]
                        (fresh_conn, demo.a_world))))
       !! ["out"] = None
  /\ fst (@pg_tool_cli.export_table demo.platform "e" ["e.csv"]
            (fresh_conn, demo.columnless_world))
     = Ret tt
  /\ files (snd (snd (@pg_tool_cli.export_table demo.platform "e" ["e.csv"]
                        (fresh_conn, demo.columnless_world))))
       !! ["e.csv"] = None.
Proof. repeat split; vm_compute; reflexivity. Qed.

(** * Properties of the interactive shell *)

Section ShellProperties.
Context `{P : Platform}.
Import pg_tool_cli.

Lemma serve_line (text : string) (rest : list input_event) (s : state) :
  serve (Line text :: rest) s
  = (if str_empty (strip text) then serve rest
     else if str_in (strip text) ["quit"; "exit"] then ret tt
     else if String.eqb (strip text) "help" then bind print_help (fun _ => serve rest)
     else bind (handle_command (strip text)) (fun _ => serve rest))
      (snd (write_prompt prompt s)).
Proof. reflexivity. Qed.

(** C8, as amended.  [cmdloop] prints its greeting and serves the input
    lines one by one.  For one line at the prompt: a blank line runs no
    handler, the loop goes on with the next input from a state where only
    the prompt was written; [quit] and [exit] end the loop; when the command
    that the line names raises an error of the database driver, the error
    is caught, one line that starts with [Error: ] is printed, and the loop
    goes on with the next input: it serves the next prompt.  When the
    command raises an exception that is not an error of the database driver,
    nothing catches it: the loop ends with this exception and the inputs
    that follow are not read. *)
Theorem shell_serves_line (text : string) (rest : list input_event) (s : state) :
  (forall inputs s0,
     cmdloop inputs s0
     = serve inputs
         (snd (print "Type 'help' for a list of commands. Type 'quit' to exit." s0)))
  /\ (strip text = EmptyString ->
      serve (Line text :: rest) s = serve rest (snd (write_prompt prompt s)))
  /\ (strip text = "quit" \/ strip text = "exit" ->
      serve (Line text :: rest) s = (Ret tt, snd (write_prompt prompt s)))
  /\ (forall cmd args msg s1,
        str_in (strip text) ["quit"; "exit"] = false ->
        String.eqb (strip text) "help" = false ->
        split_ws (strip text) = cmd :: args ->
        run_command cmd args (snd (write_prompt prompt s)) = (Raise (DriverError msg), s1) ->
        serve (Line text :: rest) s = serve rest (snd (print ("Error: " +:+ msg) s1))
        /\ stdout (snd (snd (print (O := conn) ("Error: " +:+ msg) s1)))
           = stdout (snd s1) ++ ["Error: " +:+ msg]
        /\ stderr (snd (snd (print (O := conn) ("Error: " +:+ msg) s1))) = stderr (snd s1)
        /\ durable (snd (snd (print (O := conn) ("Error: " +:+ msg) s1))) = durable (snd s1)
        /\ files (snd (snd (print (O := conn) ("Error: " +:+ msg) s1))) = files (snd s1))
  /\ (forall cmd args e s1,
        str_in (strip text) ["quit"; "exit"] = false ->
        String.eqb (strip text) "help" = false ->
        split_ws (strip text) = cmd :: args ->
        run_command cmd args (snd (write_prompt prompt s)) = (Raise e, s1) ->
        is_psycopg_Error e = false ->
        serve (Line text :: rest) s = (Raise e, s1)).
Proof.
  split; [| split; [| split; [| split]]].
  - intros inputs s0. reflexivity.
  - intros Hblank. rewrite serve_line, Hblank. reflexivity.
  - intros [Hq | Hq]; rewrite serve_line, Hq; reflexivity.
  - intros cmd args msg s1 Hquit Hhelp Hsplit Hrun.
    split; [| repeat split].
    rewrite serve_line, Hquit, Hhelp.
    assert (Hne : str_empty (strip text) = false).
    { destruct (strip text); [discriminate Hsplit | reflexivity]. }
    rewrite Hne.
    unfold bind at 1. unfold handle_command. rewrite Hsplit.
    unfold try_except. rewrite Hrun. reflexivity.
  - intros cmd args e s1 Hquit Hhelp Hsplit Hrun He.
    rewrite serve_line, Hquit, Hhelp.
    assert (Hne : str_empty (strip text) = false).
    { destruct (strip text); [discriminate Hsplit | reflexivity]. }
    rewrite Hne.
    unfold bind at 1. unfold handle_command. rewrite Hsplit.
    unfold try_except. rewrite Hrun, He. reflexivity.
Qed.

End ShellProperties.

Lemma shell_serves_line_witness :
  @pg_tool_cli.serve demo.platform
    [pg_tool_cli.Line "query SELEC"; pg_tool_cli.Line "exit"] (fresh_conn, demo.a_world)
  = @pg_tool_cli.serve demo.platform [pg_tool_cli.Line "exit"]
      (snd (print "Error: syntax error"
              (@set_tx demo.platform InError fresh_conn,
               @mk_world demo.platform demo.one_table demo.some_files ["pg> "] []))).
Proof.
  exact (proj1 (proj1 (proj2 (proj2 (proj2 (@shell_serves_line demo.platform "query SELEC"
                                [pg_tool_cli.Line "exit"] (fresh_conn, demo.a_world)))))
                  "query" ["SELEC"] "syntax error"
                  (@set_tx demo.platform InError fresh_conn,
                   @mk_world demo.platform demo.one_table demo.some_files ["pg> "] [])
                  eq_refl eq_refl eq_refl eq_refl)).
Defined.

(** C8 as stated fails: a failed command can end the loop.  An import from
    a file without a header line raises [StopIteration], which is not an
    error of the database driver: [cmdloop] ends with it after the greeting
    and one prompt, and the [help] that follows is not served. *)
Lemma failed_command_ends_loop_counterexample :
  @pg_tool_cli.cmdloop demo.platform
    [pg_tool_cli.Line "import t empty.csv"; pg_tool_cli.Line "help"]
    (fresh_conn, demo.a_world)
  = (Raise StopIteration,
     (fresh_conn,
      @mk_world demo.platform demo.one_table demo.some_files
        ["Type 'help' for a list of commands. Type 'quit' to exit."; "pg> "] [])).
Proof. vm_compute. reflexivity. Qed.

(** A session at the shell: a blank line, a query that the server refuses, a
    query that runs into the aborted transaction, [exit]; what follows
    [exit] is not read. *)
Example shell_session :
  @pg_tool_cli.cmdloop demo.platform
    [pg_tool_cli.Line "   "; pg_tool_cli.Line "query SELEC";
     pg_tool_cli.Line "query SELECT 1"; pg_tool_cli.Line "exit"; pg_tool_cli.Line "help"]
    (fresh_conn, demo.a_world)
  = (Ret tt,
     (@set_tx demo.platform InError fresh_conn,
      @mk_world demo.platform demo.one_table demo.some_files
        ["Type 'help' for a list of commands. Type 'quit' to exit.";
         "pg> "; "pg> "; "Error: syntax error";
         "pg> "; "Error: current transaction is aborted"; "pg> "] [])).
Proof. vm_compute. reflexivity. Qed.

(** * Properties of the entry points *)

Section ExitStatus.
Context `{P : Platform}.

Ltac bind_inv H :=
  let a := fresh "a" in
  let s := fresh "s" in
  let Hm := fresh "Hm" in
  apply bind_ret_inv in H as (a & s & Hm & H).

Lemma with_client_eq {A : Type} (config : pg_tool_cli.ConnectionConfig)
  (body : M pg_tool_cli.state A) (s : unit * world) :
  pg_tool_cli.with_client config body s
  = match pg_tool_cli.init config with
    | Raise e => (Raise e, s)
    | Ret c => (fst (body (c, snd s)), (fst s, snd (snd (body (c, snd s)))))
    end.
Proof.
  unfold pg_tool_cli.with_client. destruct (pg_tool_cli.init config) as [c | e];
    [| reflexivity].
  unfold with_object, try_finally, pg_tool_cli.close.
  destruct (body (c, snd s)) as [r [c' w']]. reflexivity.
Qed.

(** The exit status that the body of [run_cli] asks for: none, 0 at the end
    of the shell, or 1 from [describe] when it found no column. *)
Lemma run_command_line_status (cmd : option pg_tool_cli.command)
  (inputs : list pg_tool_cli.input_event) (s s' : pg_tool_cli.state) (status : option Z) :
  pg_tool_cli.run_command_line cmd inputs s = (Ret status, s') ->
  status = None \/ status = Some 0%Z
  \/ (status = Some 1%Z
      /\ exists table s1, cmd = Some (pg_tool_cli.CmdDescribe table)
                          /\ pg_tool_cli.describe_table table s = (Ret [], s1)).
Proof.
  unfold pg_tool_cli.run_command_line. intros H.
  destruct cmd as [[| schema | table | sql | table dest | table src truncate] |].
  - bind_inv H. injection H as <- _. auto.
  - repeat bind_inv H. injection H as <- _. auto.
  - bind_inv H. destruct a as [| col cols].
    + bind_inv H. injection H as <- _. right. right. eauto.
    + repeat bind_inv H. injection H as <- _. auto.
  - repeat bind_inv H. injection H as <- _. auto.
  - repeat bind_inv H. injection H as <- _. auto.
  - repeat bind_inv H. injection H as <- _. auto.
  - bind_inv H. injection H as <- _. auto.
Qed.

(** What [describe] does when it finds no column: it prints one line and
    asks for the exit status 1. *)
Lemma run_command_line_describe_nothing (table : string)
  (inputs : list pg_tool_cli.input_event) (s s1 : pg_tool_cli.state) :
  pg_tool_cli.describe_table table s = (Ret [], s1) ->
  pg_tool_cli.run_command_line (Some (pg_tool_cli.CmdDescribe table)) inputs s
  = (Ret (Some 1%Z), snd (print "Table not found or has no columns." s1)).
Proof.
  intros Hdesc. unfold pg_tool_cli.run_command_line.
  rewrite (bind_ret_step _ _ _ _ _ Hdesc). reflexivity.
Qed.

(** C9, as amended.  [pgtool.cli.main] returns 0 when its body runs to the
    end and 1 when the body raises an exception that [except Exception]
    catches, with one line on the error stream, and returns nothing else.
    [pg_tool.cli.run_cli] returns the status its body asks for, which is 1
    when [describe] finds no column, and then only, and 0 otherwise: when
    [describe] finds no column, [run_cli] prints one line and returns 1.  It
    returns 2, not 1, when an error of the database driver is caught, with
    one line on the error stream; it returns nothing but 0, 1 and 2. *)
Theorem exit_status :
  (forall (pp : pgtool_cli.Parser) (argv : list string) (s : unit * world),
     (forall s', pgtool_cli.main_body argv s = (Ret tt, s') ->
        pgtool_cli.main argv s = (Ret 0%Z, s'))
     /\ (forall e s', pgtool_cli.main_body argv s = (Raise e, s') ->
           is_Exception e = true ->
           pgtool_cli.main argv s
           = (Ret 1%Z, snd (eprint ("Ошибка: " +:+ exn_str e) s')))
     /\ (forall code s', pgtool_cli.main argv s = (Ret code, s') ->
           code = 0%Z \/ code = 1%Z))
  /\ (forall (pp : pg_tool_cli.Parser) (argv : list string)
             (inputs : list pg_tool_cli.input_event) (s : unit * world),
        (forall args status s',
           pg_tool_cli.parse_args argv = Ret args ->
           pg_tool_cli.with_client (pg_tool_cli.from_args args)
             (pg_tool_cli.run_command_line (pg_tool_cli.arg_command args) inputs) s
           = (Ret status, s') ->
           pg_tool_cli.run_cli argv inputs s = (Ret (default 0%Z status), s')
           /\ (status = None \/ status = Some 0%Z
               \/ (status = Some 1%Z
                   /\ exists table c s1,
                        pg_tool_cli.arg_command args = Some (pg_tool_cli.CmdDescribe table)
                        /\ pg_tool_cli.init (pg_tool_cli.from_args args) = Ret c
                        /\ pg_tool_cli.describe_table table (c, snd s) = (Ret [], s1))))
        /\ (forall args table c s1,
              pg_tool_cli.parse_args argv = Ret args ->
              pg_tool_cli.arg_command args = Some (pg_tool_cli.CmdDescribe table) ->
              pg_tool_cli.init (pg_tool_cli.from_args args) = Ret c ->
              pg_tool_cli.describe_table table (c, snd s) = (Ret [], s1) ->
              pg_tool_cli.run_cli argv inputs s
              = (Ret 1%Z,
                 (fst s, snd (snd (print (O := conn) "Table not found or has no columns."
                                     s1)))))
        /\ (forall args msg s',
              pg_tool_cli.parse_args argv = Ret args ->
              pg_tool_cli.with_client (pg_tool_cli.from_args args)
                (pg_tool_cli.run_command_line (pg_tool_cli.arg_command args) inputs) s
              = (Raise (DriverError msg), s') ->
              pg_tool_cli.run_cli argv inputs s
              = (Ret 2%Z, snd (eprint ("Database error: " +:+ msg) s')))
        /\ (forall code s', pg_tool_cli.run_cli argv inputs s = (Ret code, s') ->
              code = 0%Z \/ code = 1%Z \/ code = 2%Z)).
Proof.
  split.
  - intros pp argv s. split; [| split].
    + intros s' Hbody. unfold pgtool_cli.main, try_except, bind. rewrite Hbody. reflexivity.
    + intros e s' Hbody He. unfold pgtool_cli.main, try_except.
      unfold bind at 1. rewrite Hbody, He. reflexivity.
    + intros code s'. unfold pgtool_cli.main, try_except. unfold bind at 1.
      destruct (pgtool_cli.main_body argv s) as [[[] | e] s1].
      * intros [= <- _]. auto.
      * destruct (is_Exception e); [| discriminate].
        unfold bind, eprint, ret. intros [= <- _]. auto.
  - intros pp argv inputs s.
    assert (Hstatus : forall args status s',
              pg_tool_cli.with_client (pg_tool_cli.from_args args)
                (pg_tool_cli.run_command_line (pg_tool_cli.arg_command args) inputs) s
              = (Ret status, s') ->
              status = None \/ status = Some 0%Z
              \/ (status = Some 1%Z
                  /\ exists table c s1,
                       pg_tool_cli.arg_command args = Some (pg_tool_cli.CmdDescribe table)
                       /\ pg_tool_cli.init (pg_tool_cli.from_args args) = Ret c
                       /\ pg_tool_cli.describe_table table (c, snd s) = (Ret [], s1))).
    { intros args status s'. rewrite with_client_eq.
      destruct (pg_tool_cli.init (pg_tool_cli.from_args args)) as [c | e]; [| discriminate].
      destruct (pg_tool_cli.run_command_line (pg_tool_cli.arg_command args) inputs
                  (c, snd s)) as [r s1] eqn:Hrun.
      simpl. intros [= -> _].
      destruct (run_command_line_status _ _ _ _ _ Hrun)
        as [-> | [-> | [-> (table & s2 & Hcmd & Hdesc)]]]; auto.
      right. right. split; [reflexivity |]. exists table, c, s2. auto. }
    split; [| split; [| split]].
    + intros args status s' Hargs Hwith. split; [| exact (Hstatus _ _ _ Hwith)].
      unfold pg_tool_cli.run_cli. unfold bind at 1. unfold lift. rewrite Hargs.
      unfold try_except. unfold bind at 1. rewrite Hwith. reflexivity.
    + intros args table c s1 Hargs Hcmd Hinit Hdesc.
      unfold pg_tool_cli.run_cli. unfold bind at 1. unfold lift. rewrite Hargs.
      unfold try_except. unfold bind at 1.
      rewrite with_client_eq, Hinit, Hcmd.
      rewrite (run_command_line_describe_nothing table inputs _ _ Hdesc). reflexivity.
    + intros args msg s' Hargs Hwith.
      unfold pg_tool_cli.run_cli. unfold bind at 1. unfold lift. rewrite Hargs.
      unfold try_except. unfold bind at 1. rewrite Hwith. reflexivity.
    + intros code s'. unfold pg_tool_cli.run_cli. unfold bind at 1. unfold lift.
      destruct (pg_tool_cli.parse_args argv) as [args | e]; [| discriminate].
      unfold try_except. unfold bind at 1.
      destruct (pg_tool_cli.with_client (pg_tool_cli.from_args args)
                  (pg_tool_cli.run_command_line (pg_tool_cli.arg_command args) inputs) s)
        as [[status | e] s1] eqn:Hwith.
      * unfold ret. intros [= <- _].
        destruct (Hstatus _ _ _ Hwith) as [-> | [-> | [-> _]]]; simpl; auto.
      * destruct (is_psycopg_Error e); [| discriminate].
        unfold bind, eprint, ret. intros [= <- _]. auto.
Qed.

End ExitStatus.

(** C9 as stated fails on [run_cli]: a query that the server refuses is a
    caught database error, and the exit status is 2, with the message on the
    error stream. *)
Lemma run_cli_database_error_counterexample :
  @pg_tool_cli.run_cli demo.platform demo.pg_tool_parser ["query"; "SELEC"] []
    (tt, demo.a_world)
  = (Ret 2%Z,
     (tt, @mk_world demo.platform demo.one_table demo.some_files []
            ["Database error: syntax error"])).
Proof. vm_compute. reflexivity. Qed.

Example main_returns_one_on_a_refused_query :
  @pgtool_cli.main demo.platform demo.pgtool_parser ["query"; "SELEC"] (tt, demo.bare_world)
  = (Ret 1%Z,
     (tt, @mk_world demo.platform demo.one_table ∅ [] ["Ошибка: syntax error"])).
Proof. vm_compute. reflexivity. Qed.

Example main_leaves_argparse_errors_alone :
  fst (@pgtool_cli.main demo.platform demo.pgtool_parser ["--bogus"] (tt, demo.bare_world))
  = Raise (SystemExit 2).
Proof. vm_compute. reflexivity. Qed.

(** A query that the server refuses gives [pgtool] the exit status 1;
    [pg_tool describe] on a table that does not exist prints one line and
    gives the exit status 1. *)
Lemma exit_status_witness :
  @pgtool_cli.main demo.platform demo.pgtool_parser ["query"; "SELEC"] (tt, demo.bare_world)
  = (Ret 1%Z,
     snd (eprint ("Ошибка: " +:+ exn_str (DriverError "syntax error"))
            (tt, demo.bare_world)))
  /\ @pg_tool_cli.run_cli demo.platform demo.pg_tool_parser ["describe"; "missing"] []
       (tt, demo.bare_world)
     = (Ret 1%Z,
        (tt, @mk_world demo.platform demo.one_table ∅
               ["Table not found or has no columns."] [])).
Proof.
  split.
  - exact (proj1 (proj2 (proj1 (@exit_status demo.platform) demo.pgtool_parser
                           ["query"; "SELEC"] (tt, demo.bare_world)))
             (DriverError "syntax error") (tt, demo.bare_world) eq_refl eq_refl).
  - exact (proj1 (proj2 (proj2 (@exit_status demo.platform) demo.pg_tool_parser
                           ["describe"; "missing"] [] (tt, demo.bare_world)))
             (demo.plain_args (Some (pg_tool_cli.CmdDescribe "missing"))) "missing"
             fresh_conn
             (@set_tx demo.platform (@InTrans demo.platform demo.one_table) fresh_conn,
              demo.bare_world)
             eq_refl eq_refl eq_refl eq_refl).
Defined.

(** * More properties of pgtool/config.py *)

Section MergeProperties.
Import pgtool_config.

Lemma merged_with_field (field : DatabaseConfig -> pyval) (self other : DatabaseConfig) :
  In field scalar_fields ->
  field (merged_with self other) = py_or (field other) (field self).
Proof.
  unfold scalar_fields. simpl.
  intros [<- | [<- | [<- | [<- | [<- | [<- | []]]]]]]; reflexivity.
Qed.

Lemma merge_fold_field (field : DatabaseConfig -> pyval) (configs : list DatabaseConfig)
  (acc : DatabaseConfig) :
  In field scalar_fields ->
  field (fold_left merged_with configs acc)
  = fold_left (fun a v => if truthy v then v else a) (map field configs) (field acc).
Proof.
  intros Hin. revert acc. induction configs as [| cfg rest IH]; intros acc; simpl.
  - reflexivity.
  - rewrite IH, (merged_with_field field acc cfg Hin). reflexivity.
Qed.

Lemma merge_fold_options (configs : list DatabaseConfig) (acc : DatabaseConfig) (k : string) :
  options (fold_left merged_with configs acc) !! k
  = match first_bound k (rev (map options configs)) with
    | Some v => Some v
    | None => options acc !! k
    end.
Proof.
  revert acc. induction configs as [| cfg rest IH]; intros acc; simpl.
  - reflexivity.
  - rewrite IH. unfold first_bound. rewrite fold_right_app. simpl.
    rewrite lookup_union.
    generalize (rev (map options rest)) as maps. intros maps.
    induction maps as [| m more IHm]; simpl.
    + destruct (options cfg !! k), (options acc !! k); reflexivity.
    + destruct (m !! k); [reflexivity | exact IHm].
Qed.

Lemma last_true_from_settled (vals : list pyval) (acc : pyval) :
  settled acc = true ->
  settled (fold_left (fun a v => if truthy v then v else a) vals acc) = true.
Proof.
  revert acc. induction vals as [| v rest IH]; intros acc Hacc; simpl.
  - exact Hacc.
  - apply IH. destruct (truthy v) eqn:Hv; [| exact Hacc].
    unfold settled. rewrite Hv. apply orb_true_r.
Qed.

Lemma last_true_settled (vals : list pyval) : settled (last_true vals) = true.
Proof. apply last_true_from_settled. reflexivity. Qed.

Lemma last_true_keeps_true (vals : list pyval) (acc : pyval) :
  truthy acc = true ->
  truthy (fold_left (fun a v => if truthy v then v else a) vals acc) = true.
Proof.
  revert acc. induction vals as [| v rest IH]; intros acc Hacc; simpl.
  - exact Hacc.
  - apply IH. destruct (truthy v) eqn:Hv; [exact Hv | exact Hacc].
Qed.

Lemma last_true_from (vals : list pyval) (acc : pyval) :
  fold_left (fun a v => if truthy v then v else a) vals acc
  = py_or (last_true vals) acc.
Proof.
  unfold last_true, py_or. revert acc. induction vals as [| v rest IH]; intros acc; simpl.
  - reflexivity.
  - destruct (truthy v) eqn:Hv.
    + rewrite (last_true_keeps_true rest v Hv). reflexivity.
    + apply IH.
Qed.

Lemma last_true_app (xs ys : list pyval) :
  last_true (xs ++ ys) = py_or (last_true ys) (last_true xs).
Proof.
  unfold last_true at 1. rewrite fold_left_app. apply last_true_from.
Qed.

(** X1.  [merge_configs] over any number of configurations: every scalar
    field of the result is the value, in the last configuration that has
    one, that Python takes for true, and [None] when no configuration has
    one; a key of the options map has the value of the last configuration
    that binds it. *)
Theorem merge_configs_any_number (configs : list DatabaseConfig) :
  (forall field, In field scalar_fields ->
     field (merge_configs configs) = last_true (map field configs))
  /\ (forall k, options (merge_configs configs) !! k
                = first_bound k (rev (map options configs))).
Proof.
  split.
  - intros field Hin. unfold merge_configs, last_true.
    rewrite (merge_fold_field field configs empty_config Hin).
    simpl in Hin.
    destruct Hin as [<- | [<- | [<- | [<- | [<- | [<- | []]]]]]]; reflexivity.
  - intros k. unfold merge_configs. rewrite merge_fold_options. simpl.
    rewrite lookup_empty. destruct (first_bound k (rev (map options configs))); reflexivity.
Qed.

Lemma config_eq (a b : DatabaseConfig) :
  host a = host b -> port a = port b -> user a = user b -> password a = password b ->
  database a = database b -> dsn a = dsn b -> options a = options b -> a = b.
Proof.
  destruct a, b. simpl. intros -> -> -> -> -> -> ->. reflexivity.
Qed.

Lemma first_bound_app (k : string) (xs ys : list (gmap string string)) :
  first_bound k (xs ++ ys)
  = match first_bound k xs with Some v => Some v | None => first_bound k ys end.
Proof.
  unfold first_bound. induction xs as [| m rest IH]; simpl.
  - reflexivity.
  - destruct (m !! k); [reflexivity | exact IH].
Qed.

(** X2.  Merging can be done in stages: the merge of a list of
    configurations followed by another list is the merge of the first list
    overridden, with [merged_with], by the merge of the second.  So the
    file and the environment may be merged first and the command line
    afterwards. *)
Theorem merge_configs_in_stages (first second : list DatabaseConfig) :
  merge_configs (first ++ second)
  = merged_with (merge_configs first) (merge_configs second).
Proof.
  assert (Hf : forall field, In field scalar_fields ->
            field (merge_configs (first ++ second))
            = field (merged_with (merge_configs first) (merge_configs second))).
  { intros field Hin. rewrite (merged_with_field field _ _ Hin).
    unfold merge_configs. rewrite !(merge_fold_field field _ empty_config Hin).
    assert (Hnone : field empty_config = PNone).
    { simpl in Hin. destruct Hin as [<- | [<- | [<- | [<- | [<- | [<- | []]]]]]]; reflexivity. }
    rewrite Hnone, map_app. exact (last_true_app (map field first) (map field second)). }
  apply config_eq; try (apply Hf; simpl; tauto).
  apply map_eq. intros k. simpl. rewrite lookup_union.
  unfold merge_configs. rewrite !merge_fold_options, map_app, rev_app_distr, first_bound_app.
  simpl. rewrite lookup_empty.
  destruct (first_bound k (rev (map options second))),
           (first_bound k (rev (map options first))); reflexivity.
Qed.

(** X3.  A merged configuration never holds a scalar field that is set to
    a value that Python takes for false: whatever the sources hold, every
    scalar field of the result of [merge_configs] is [None], a non-empty
    string or a non-zero number.  A port 0 or an empty host never comes out
    of a merge. *)
Theorem merge_configs_is_plain (configs : list DatabaseConfig) :
  plain (merge_configs configs) = true.
Proof.
  unfold plain. apply forallb_forall. intros field Hin.
  unfold merge_configs. rewrite (merge_fold_field field configs empty_config Hin).
  apply last_true_from_settled.
  simpl in Hin. destruct Hin as [<- | [<- | [<- | [<- | [<- | [<- | []]]]]]]; reflexivity.
Qed.

End MergeProperties.

(** * Properties of the connection parameters *)

Section KwargsProperties.

Lemma last_true_of_some_true (vals : list pyval) (acc : pyval) :
  Exists (fun v => truthy v = true) vals ->
  truthy (fold_left (fun a v => if truthy v then v else a) vals acc) = true.
Proof.
  intros Hex. revert acc. induction Hex as [v rest Hv | v rest _ IH]; intros acc; simpl.
  - rewrite Hv. apply last_true_keeps_true. exact Hv.
  - apply IH.
Qed.

Lemma some_field_is_true {A : Type} (field : A -> pyval) (items : list A) :
  Exists (fun x => truthy (field x) = true) items ->
  Exists (fun v => truthy v = true) (map field items).
Proof.
  intros Hex. induction Hex as [x rest Hx | x rest _ IH]; simpl.
  - apply Exists_cons_hd. exact Hx.
  - apply Exists_cons_tl. exact IH.
Qed.

(** X4.  When at least one of the merged configurations has a DSN, the
    keyword arguments for [psycopg2.connect] made from the merge hold the
    DSN of the last such configuration and nothing else: no host, port,
    user, password, database or option goes with it. *)
Theorem connect_kwargs_of_merge_with_dsn (configs : list pgtool_config.DatabaseConfig) :
  Exists (fun cfg => truthy (pgtool_config.dsn cfg) = true) configs ->
  pgtool_config.to_connect_kwargs (pgtool_config.merge_configs configs)
  = {[ "dsn" := last_true (map pgtool_config.dsn configs) ]}.
Proof.
  intros Hex.
  assert (Hdsn : pgtool_config.dsn (pgtool_config.merge_configs configs)
                 = last_true (map pgtool_config.dsn configs)).
  { unfold pgtool_config.merge_configs, last_true.
    apply (merge_fold_field pgtool_config.dsn configs pgtool_config.empty_config).
    simpl. tauto. }
  unfold pgtool_config.to_connect_kwargs. rewrite Hdsn.
  assert (Ht : truthy (last_true (map pgtool_config.dsn configs)) = true).
  { apply last_true_of_some_true. apply some_field_is_true. exact Hex. }
  rewrite Ht. reflexivity.
Qed.

(** X5.  The keyword arguments that [to_connect_kwargs] makes never hold
    [None]: a field that is not set is left out, not sent as a null.  When
    the configuration has no DSN, every option is among them, as a string,
    also under the name of a field (an option [host] replaces the field
    [host]), and the database goes under the name [dbname]. *)
Theorem connect_kwargs_without_none (cfg : pgtool_config.DatabaseConfig) :
  (forall k v, pgtool_config.to_connect_kwargs cfg !! k = Some v -> v <> PNone)
  /\ (truthy (pgtool_config.dsn cfg) = false ->
      (forall k o, pgtool_config.options cfg !! k = Some o ->
         pgtool_config.to_connect_kwargs cfg !! k = Some (PStr o))
      /\ (pgtool_config.options cfg !! "dbname" = None ->
          pgtool_config.database cfg <> PNone ->
          pgtool_config.to_connect_kwargs cfg !! "dbname"
          = Some (pgtool_config.database cfg))
      /\ (pgtool_config.options cfg !! "database" = None ->
          pgtool_config.to_connect_kwargs cfg !! "database" = None)).
Proof.
  split.
  - intros k v. unfold pgtool_config.to_connect_kwargs.
    destruct (truthy (pgtool_config.dsn cfg)) eqn:Hdsn.
    + intros Hk. apply lookup_singleton_Some in Hk as [_ <-].
      intros Hnone. rewrite Hnone in Hdsn. discriminate.
    + intros Hk. apply lookup_union_Some_raw in Hk as [Hk | [_ Hk]].
      * rewrite lookup_fmap in Hk. destruct (pgtool_config.options cfg !! k); [| discriminate].
        injection Hk as <-. discriminate.
      * apply elem_of_list_to_map_2 in Hk.
        apply list_elem_of_filter in Hk as [Hnn _]. simpl in Hnn.
        intros ->. discriminate.
  - intros Hdsn. unfold pgtool_config.to_connect_kwargs. rewrite Hdsn.
    split; [| split].
    + intros k o Hk. apply lookup_union_Some_l. rewrite lookup_fmap, Hk. reflexivity.
    + intros Hopt Hdb. rewrite lookup_union_r by (rewrite lookup_fmap, Hopt; reflexivity).
      assert (Hdb' : is_none (pgtool_config.database cfg) = false).
      { destruct (pgtool_config.database cfg); try reflexivity. contradiction. }
      rewrite !filter_cons, filter_nil. simpl.
      repeat case_decide; try congruence; vm_compute; reflexivity.
    + intros Hopt. rewrite lookup_union_r by (rewrite lookup_fmap, Hopt; reflexivity).
      rewrite !filter_cons, filter_nil. simpl.
      repeat case_decide; vm_compute; reflexivity.
Qed.

Lemma lookup_put_if_given (key k : string) (o : option string) (m : gmap string pyval) :
  pg_tool_cli.put_if_given key o m !! k
  = if (given o && bool_decide (key = k))%bool then Some (opt_str o) else m !! k.
Proof.
  unfold pg_tool_cli.put_if_given. destruct (given o); simpl; [| reflexivity].
  destruct (bool_decide (key = k)) eqn:Hk.
  - apply bool_decide_eq_true in Hk as ->. apply lookup_insert_eq.
  - apply bool_decide_eq_false in Hk. apply lookup_insert_ne. exact Hk.
Qed.

Lemma given_is_true (o : option string) : given o = true -> truthy (opt_str o) = true.
Proof. destruct o as [s |]; simpl; [| discriminate]. intros H. exact H. Qed.

(** X6.  The keyword arguments that [ConnectionConfig.to_connection_kwargs]
    makes hold only values that Python takes for true: an empty host, user,
    password or database name and a port 0 are left out.  With a DSN they
    are the DSN alone, under [conninfo]; without one there is no [conninfo]
    among them. *)
Theorem connection_kwargs_hold_true_values (config : pg_tool_cli.ConnectionConfig) :
  (forall k v, pg_tool_cli.to_connection_kwargs config !! k = Some v -> truthy v = true)
  /\ (given (pg_tool_cli.dsn config) = true ->
      pg_tool_cli.to_connection_kwargs config
      = {[ "conninfo" := opt_str (pg_tool_cli.dsn config) ]})
  /\ (given (pg_tool_cli.dsn config) = false ->
      pg_tool_cli.to_connection_kwargs config !! "conninfo" = None).
Proof.
  unfold pg_tool_cli.to_connection_kwargs.
  destruct (given (pg_tool_cli.dsn config)) eqn:Hdsn.
  - split; [| split; [reflexivity | discriminate]].
    intros k v Hk. apply lookup_singleton_Some in Hk as [_ <-].
    apply given_is_true. exact Hdsn.
  - split; [| split; [discriminate |]].
    + intros k v. cbv zeta. rewrite !lookup_put_if_given.
      destruct (given (pg_tool_cli.password config) && bool_decide ("password" = k))%bool eqn:H1.
      { intros [= <-]. apply given_is_true. apply andb_prop in H1 as [H1 _]. exact H1. }
      destruct (given (pg_tool_cli.user config) && bool_decide ("user" = k))%bool eqn:H2.
      { intros [= <-]. apply given_is_true. apply andb_prop in H2 as [H2 _]. exact H2. }
      destruct (given (pg_tool_cli.dbname config) && bool_decide ("dbname" = k))%bool eqn:H3.
      { intros [= <-]. apply given_is_true. apply andb_prop in H3 as [H3 _]. exact H3. }
      destruct (pg_tool_cli.port config =? 0)%Z eqn:Hport.
      * rewrite lookup_put_if_given.
        destruct (given (pg_tool_cli.host config) && bool_decide ("host" = k))%bool eqn:H4.
        { intros [= <-]. apply given_is_true. apply andb_prop in H4 as [H4 _]. exact H4. }
        rewrite lookup_empty. discriminate.
      * destruct (decide ("port" = k)) as [<- | Hne].
        { rewrite lookup_insert_eq. intros [= <-]. simpl. rewrite Hport. reflexivity. }
        rewrite lookup_insert_ne by exact Hne. rewrite lookup_put_if_given.
        destruct (given (pg_tool_cli.host config) && bool_decide ("host" = k))%bool eqn:H4.
        { intros [= <-]. apply given_is_true. apply andb_prop in H4 as [H4 _]. exact H4. }
        rewrite lookup_empty. discriminate.
    + intros _. cbv zeta. rewrite !lookup_put_if_given. simpl.
      rewrite !andb_false_r.
      destruct (pg_tool_cli.port config =? 0)%Z.
      * rewrite lookup_put_if_given. simpl. rewrite andb_false_r. apply lookup_empty.
      * rewrite lookup_insert_ne by discriminate.
        rewrite lookup_put_if_given. simpl. rewrite andb_false_r. apply lookup_empty.
Qed.

End KwargsProperties.

(** * Properties of the parsers of names and options *)

Section ParserProperties.

Lemma split_once_found (c : ascii) (s : string) :
  contains_char c s = true ->
  fst (split_once c s) +:+ String c (snd (split_once c s)) = s
  /\ contains_char c (fst (split_once c s)) = false.
Proof.
  induction s as [| c' rest IH]; simpl; [discriminate |].
  destruct (Ascii.eqb c c') eqn:Hc; simpl.
  - intros _. apply Ascii.eqb_eq in Hc as ->. split; reflexivity.
  - intros Hrest. destruct (IH Hrest) as [Hjoin Hfree]. split.
    + change (String c' (fst (split_once c rest) +:+ String c (snd (split_once c rest)))
              = String c' rest).
      rewrite Hjoin. reflexivity.
    + change (contains_char c (String c' (fst (split_once c rest))) = false).
      simpl. rewrite Hc, Hfree. reflexivity.
Qed.

Lemma split_once_joined (c : ascii) (k v : string) :
  contains_char c k = false ->
  split_once c (k +:+ String c v) = (k, v).
Proof.
  induction k as [| c' rest IH]; simpl.
  - intros _. rewrite Ascii.eqb_refl. reflexivity.
  - destruct (Ascii.eqb c c'); simpl; [discriminate |].
    intros Hrest. rewrite (IH Hrest). reflexivity.
Qed.

Lemma contains_char_joined (c : ascii) (k v : string) :
  contains_char c (k +:+ String c v) = true.
Proof.
  induction k as [| c' rest IH]; simpl.
  - rewrite Ascii.eqb_refl. reflexivity.
  - rewrite IH. apply orb_true_r.
Qed.

(** X7.  [_parse_table_name]: a name without a dot is a table of the schema
    [public]; a name with a dot is cut at its first dot, so that the schema
    has no dot, the table name keeps the later dots, and schema, dot and
    table name put together give the name back.  And a schema without a dot
    joined to a table name by a dot is parsed back into the two. *)
Theorem parse_table_name_round_trip (table : string) :
  (contains_char dot table = false ->
   pg_tool_cli._parse_table_name table = ("public", table))
  /\ (contains_char dot table = true ->
      fst (pg_tool_cli._parse_table_name table)
        +:+ String dot (snd (pg_tool_cli._parse_table_name table)) = table
      /\ contains_char dot (fst (pg_tool_cli._parse_table_name table)) = false)
  /\ (forall schema name, contains_char dot schema = false ->
        pg_tool_cli._parse_table_name (schema +:+ String dot name) = (schema, name)).
Proof.
  unfold pg_tool_cli._parse_table_name. split; [| split].
  - intros ->. reflexivity.
  - intros Hdot. rewrite Hdot. apply split_once_found. exact Hdot.
  - intros schema name Hfree. rewrite contains_char_joined.
    apply split_once_joined. exact Hfree.
Qed.

Lemma dict_get_set_same {A : Type} (k : string) (v : A) (d : list (string * A)) :
  dict_get k (dict_set k v d) = Some v.
Proof.
  induction d as [| [k' v'] rest IH]; simpl.
  - rewrite String.eqb_refl. reflexivity.
  - destruct (String.eqb k k') eqn:Hk; simpl.
    + rewrite String.eqb_refl. reflexivity.
    + rewrite Hk. exact IH.
Qed.

Lemma dict_get_set_other {A : Type} (k j : string) (v : A) (d : list (string * A)) :
  String.eqb j k = false ->
  dict_get j (dict_set k v d) = dict_get j d.
Proof.
  intros Hjk. induction d as [| [k' v'] rest IH]; simpl.
  - rewrite Hjk. reflexivity.
  - destruct (String.eqb k k') eqn:Hk; simpl.
    + apply String.eqb_eq in Hk as <-. rewrite Hjk. reflexivity.
    + destruct (String.eqb j k'); [reflexivity | exact IH].
Qed.

Lemma parse_options_from_app (parsed : list (string * string)) (pre rest : list string) :
  forallb (contains_char pgtool_cli.equals_sign) pre = true ->
  exists parsed',
    pgtool_cli.parse_options_from parsed (pre ++ rest)
    = pgtool_cli.parse_options_from parsed' rest.
Proof.
  revert parsed. induction pre as [| option more IH]; intros parsed Hall; simpl.
  - exists parsed. reflexivity.
  - simpl in Hall. apply andb_prop in Hall as [Hopt Hmore]. rewrite Hopt. simpl.
    apply IH. exact Hmore.
Qed.

(** X8.  [parse_options] fails exactly on an option without an equals
    sign: when every option has one, it returns a dict; otherwise it raises
    the [ValueError] whose message ends with the first option that has
    none, whatever comes after it. *)
Theorem parse_options_errors (opts : list string) :
  (forallb (contains_char pgtool_cli.equals_sign) opts = true ->
   exists parsed, pgtool_cli.parse_options opts = Ret parsed)
  /\ (forall pre bad rest,
        opts = pre ++ bad :: rest ->
        forallb (contains_char pgtool_cli.equals_sign) pre = true ->
        contains_char pgtool_cli.equals_sign bad = false ->
        pgtool_cli.parse_options opts
        = Raise (ValueError
                   ("Параметр опции должен быть в формате KEY=VALUE, получено: "
                    +:+ bad))).
Proof.
  unfold pgtool_cli.parse_options. split.
  - intros Hall.
    destruct (parse_options_from_app [] opts [] Hall) as [parsed Hp].
    rewrite app_nil_r in Hp. exists parsed. rewrite Hp. reflexivity.
  - intros pre bad rest -> Hall Hbad.
    destruct (parse_options_from_app [] pre (bad :: rest) Hall) as [parsed Hp].
    rewrite Hp. simpl. rewrite Hbad. reflexivity.
Qed.

(** X9.  [parse_options] cuts an option at its first equals sign, so that
    the value may hold equals signs, strips the key and the value of white
    space, and lets the last option for a key win: after any options that
    have an equals sign, an option made of a key without equals sign, an
    equals sign and a value binds the stripped key to the stripped value in
    the result. *)
Theorem parse_options_last_wins (pre : list string) (key value : string) :
  forallb (contains_char pgtool_cli.equals_sign) pre = true ->
  contains_char pgtool_cli.equals_sign key = false ->
  exists parsed,
    pgtool_cli.parse_options (pre ++ [key +:+ String pgtool_cli.equals_sign value])
    = Ret parsed
    /\ dict_get (strip key) parsed = Some (strip value).
Proof.
  intros Hall Hkey. unfold pgtool_cli.parse_options.
  destruct (parse_options_from_app [] pre
              [key +:+ String pgtool_cli.equals_sign value] Hall) as [parsed Hp].
  rewrite Hp. simpl. rewrite contains_char_joined. simpl.
  rewrite (split_once_joined _ key value Hkey). simpl.
  eexists. split; [reflexivity |]. apply dict_get_set_same.
Qed.

End ParserProperties.

(** * Properties of the sources of a configuration *)

Section SourceProperties.
Context `{P : Platform}.
Import pgtool_config.

Lemma py_or_none_settled (v : pyval) : settled (py_or v PNone) = true.
Proof.
  unfold py_or, settled. destruct (truthy v) eqn:Hv; [rewrite Hv; apply orb_true_r |].
  reflexivity.
Qed.

(** X10.  A configuration that [from_mapping] builds is normalised: its
    host, user, password, database and DSN are [None] or a value that
    Python takes for true (an empty string in the mapping becomes [None]),
    and its port is [None] or an integer.  Unless the port is 0, it is a
    configuration whose set fields are all true. *)
Theorem from_mapping_normalises (mapping : list (string * pyval)) (cfg : DatabaseConfig) :
  from_mapping mapping = Ret cfg ->
  settled (host cfg) = true /\ settled (user cfg) = true
  /\ settled (password cfg) = true /\ settled (database cfg) = true
  /\ settled (dsn cfg) = true
  /\ (port cfg = PNone \/ exists z, port cfg = PInt z)
  /\ (port cfg <> PInt 0 -> plain cfg = true).
Proof.
  unfold from_mapping.
  set (port1 := match mapping_get "port" mapping with PNone => _ | _ => _ end).
  destruct port1 as [p | e] eqn:Hport; [| discriminate].
  intros [= <-]. simpl.
  assert (Hp : p = PNone \/ exists z, p = PInt z).
  { subst port1. destruct (mapping_get "port" mapping) as [| b | z | f | s | iso | l | d];
      first [ injection Hport as <-; left; reflexivity
            | match type of Hport with
              | match py_int ?v with _ => _ end = _ =>
                  destruct (py_int v); [injection Hport as <-; eauto | discriminate]
              end ]. }
  repeat split; try apply py_or_none_settled; [exact Hp |].
  intros Hne. unfold plain. simpl. rewrite !py_or_none_settled. simpl.
  destruct Hp as [-> | [z ->]]; [reflexivity |].
  unfold settled. simpl. destruct (z =? 0)%Z eqn:Hz; [| reflexivity].
  apply Z.eqb_eq in Hz. subst z. contradiction.
Qed.


Lemma env_fold_unprefixed (prefix : string) (env : list (string * string))
  (acc : list (string * pyval) * list (string * string)) :
  (forall kv, In kv env -> startswith (fst kv) prefix = false) ->
  fold_left (env_step prefix) env acc = acc.
Proof.
  revert acc. induction env as [| kv rest IH]; intros acc Hall; simpl.
  - reflexivity.
  - unfold env_step at 2. rewrite (Hall kv (or_introl eq_refl)). simpl.
    apply IH. intros kv' Hin. apply Hall. right. exact Hin.
Qed.

(** X12.  [from_environment] reads nothing but the variables under its
    prefix: in an environment where no variable name starts with the
    prefix, whatever else is set, it returns the empty configuration. *)
Theorem from_environment_ignores_other_variables (prefix : string) :
  (forall kv, In kv environ -> startswith (fst kv) prefix = false) ->
  from_environment prefix = Ret empty_config.
Proof.
  intros Hall. unfold from_environment.
  rewrite (env_fold_unprefixed prefix environ ([], []) Hall). reflexivity.
Qed.

(** X13.  [load_config] stops at the first candidate that is a file: the
    candidates before it that do not exist are skipped, the candidates
    after it are never looked at, and the outcome is that of this one file,
    also when it is an error.  A file whose document has no [database]
    table is such an error, a [ValueError], and not a reason to go on to the
    next location. *)
Theorem load_config_first_file_decides {O : Type} (before after : list path)
  (candidate : path) (s : O * world) :
  forallb (fun q => negb (is_file (files (snd s)) q)) before = true ->
  is_file (files (snd s)) candidate = true ->
  load_first (before ++ candidate :: after) s = load_candidate candidate s
  /\ (forall text d,
        read_file (files (snd s)) candidate = Ret text ->
        tomllib_load text = Ret (PDict d) ->
        (forall section, mapping_get "database" d <> PDict section) ->
        load_first (before ++ candidate :: after) s
        = (Raise (ValueError ("Configuration file " +:+ path_str candidate
                              +:+ " missing [database] section")), s)).
Proof.
  intros Hbefore Hfile.
  assert (Hfirst : load_first (before ++ candidate :: after) s = load_candidate candidate s).
  { induction before as [| q rest IH]; simpl.
    - rewrite Hfile. reflexivity.
    - simpl in Hbefore. apply andb_prop in Hbefore as [Hq Hrest].
      apply negb_true_iff in Hq. rewrite Hq. exact (IH Hrest). }
  split; [exact Hfirst |].
  intros text d Hread Hload Hsection. rewrite Hfirst.
  unfold load_candidate, bind, read_text, lift. rewrite Hread, Hload.
  destruct (mapping_get "database" d) eqn:Hdb; try reflexivity.
  exfalso. exact (Hsection _ eq_refl).
Qed.

End SourceProperties.

(** * Properties of the table layout *)

Section TableProperties.
Context `{P : Platform}.
Import pgtool_render.

Lemma widen_fits (row : list string) :
  forall (widths : list nat) (idx : nat),
    idx + length row <= length widths ->
    exists widths',
      widen widths idx row = Ret widths'
      /\ length widths' = length widths
      /\ (forall i w, widths !! i = Some w -> exists w', widths' !! i = Some w' /\ w <= w')
      /\ (forall j cell, row !! j = Some cell ->
            exists w', widths' !! (idx + j) = Some w' /\ py_len cell <= w').
Proof.
  induction row as [| cell rest IH]; intros widths idx Hlen; simpl.
  - exists widths. repeat split; eauto. intros j cell Hj. rewrite lookup_nil in Hj.
    discriminate.
  - simpl in Hlen.
    destruct (widths !! idx) as [w |] eqn:Hw.
    2:{ apply lookup_ge_None in Hw. lia. }
    set (widths1 := <[idx := Nat.max w (py_len cell)]> widths).
    assert (Hlen1 : length widths1 = length widths) by apply length_insert.
    destruct (IH widths1 (S idx)) as (widths' & Hrun & Hl & Hmono & Hcells);
      [rewrite Hlen1; lia |].
    exists widths'. split; [exact Hrun |]. split; [congruence |]. split.
    + intros i w0 Hi. destruct (decide (i = idx)) as [-> | Hne].
      * rewrite Hw in Hi. injection Hi as <-.
        destruct (Hmono idx (Nat.max w (py_len cell))) as (w' & Hw' & Hle).
        { unfold widths1. apply list_lookup_insert_eq. apply lookup_lt_Some in Hw. exact Hw. }
        exists w'. split; [exact Hw' | lia].
      * apply Hmono. unfold widths1. rewrite list_lookup_insert_ne by congruence. exact Hi.
    + intros j c Hj. destruct j as [| j]; simpl in Hj.
      * injection Hj as <-. rewrite Nat.add_0_r.
        destruct (Hmono idx (Nat.max w (py_len cell))) as (w' & Hw' & Hle).
        { unfold widths1. apply list_lookup_insert_eq. apply lookup_lt_Some in Hw. exact Hw. }
        exists w'. split; [exact Hw' | lia].
      * replace (idx + S j) with (S idx + j) by lia. apply Hcells. exact Hj.
Qed.

Lemma widen_raises_index_error (row : list string) :
  forall (widths : list nat) (idx : nat) (e : exn),
    widen widths idx row = Raise e -> e = IndexError "list index out of range".
Proof.
  induction row as [| cell rest IH]; intros widths idx e; simpl; [discriminate |].
  destruct (widths !! idx); [apply IH | intros [= <-]; reflexivity].
Qed.

Lemma widen_too_long (row : list string) :
  forall (widths : list nat) (idx : nat),
    row <> [] -> length widths < idx + length row ->
    widen widths idx row = Raise (IndexError "list index out of range").
Proof.
  induction row as [| cell rest IH]; intros widths idx Hne Hlen; [contradiction |].
  simpl. simpl in Hlen. destruct (widths !! idx) as [w |] eqn:Hw; [| reflexivity].
  apply lookup_lt_Some in Hw. apply IH.
  - destruct rest; [simpl in Hlen; lia | discriminate].
  - rewrite length_insert. lia.
Qed.

Lemma widen_all_fits (rws : list (list string)) :
  forall (widths : list nat),
    Forall (fun row => length row <= length widths) rws ->
    exists widths',
      widen_all widths rws = Ret widths'
      /\ length widths' = length widths
      /\ (forall i w, widths !! i = Some w -> exists w', widths' !! i = Some w' /\ w <= w')
      /\ (forall row j cell, In row rws -> row !! j = Some cell ->
            exists w', widths' !! j = Some w' /\ py_len cell <= w').
Proof.
  induction rws as [| row rest IH]; intros widths Hall; simpl.
  - exists widths. repeat split; eauto. intros row j cell [].
  - apply Forall_cons in Hall as [Hrow Hrest].
    destruct (widen_fits row widths 0) as (widths1 & Hrun & Hl1 & Hmono1 & Hcells1);
      [simpl; exact Hrow |].
    rewrite Hrun.
    destruct (IH widths1) as (widths' & Hall' & Hl & Hmono & Hcells).
    { rewrite Hl1. exact Hrest. }
    exists widths'. split; [exact Hall' |]. split; [congruence |]. split.
    + intros i w Hi. destruct (Hmono1 i w Hi) as (w1 & Hw1 & Hle1).
      destruct (Hmono i w1 Hw1) as (w' & Hw' & Hle). exists w'. split; [exact Hw' | lia].
    + intros r j cell [<- | Hin] Hj.
      * destruct (Hcells1 j cell Hj) as (w1 & Hw1 & Hle1). simpl in Hw1.
        destruct (Hmono j w1 Hw1) as (w' & Hw' & Hle). exists w'. split; [exact Hw' | lia].
      * exact (Hcells r j cell Hin Hj).
Qed.

Lemma widen_all_too_long (rws : list (list string)) :
  forall (widths : list nat),
    Exists (fun row => length widths < length row) rws ->
    widen_all widths rws = Raise (IndexError "list index out of range").
Proof.
  induction rws as [| row rest IH]; intros widths Hex; [inversion Hex |].
  simpl. destruct (widen widths 0 row) as [widths1 | e] eqn:Hrun.
  - apply IH. apply Exists_cons in Hex as [Hrow | Hrest].
    + exfalso. rewrite widen_too_long in Hrun; [discriminate | | simpl; exact Hrow].
      destruct row; [simpl in Hrow; lia | discriminate].
    + assert (Hl : length widths1 = length widths).
      { destruct (Nat.le_gt_cases (length row) (length widths)) as [Hle | Hgt].
        - destruct (widen_fits row widths 0 Hle) as (w' & Hr & Hl & _). congruence.
        - rewrite widen_too_long in Hrun; [discriminate | | simpl; exact Hgt].
          destruct row; [simpl in Hgt; lia | discriminate]. }
      rewrite Hl. exact Hrest.
  - rewrite (widen_raises_index_error _ _ _ _ Hrun). reflexivity.
Qed.

(** X14.  Both [format_table] functions lay out a table whenever no row
    has more cells than there are headers, rows that are shorter included,
    and raise [IndexError] as soon as one row has more cells than there are
    headers; without headers they do not look at the rows and return their
    fixed text. *)
Theorem format_table_row_lengths (headers : list string) (rws : list (list pyval)) :
  (headers <> [] ->
   Forall (fun row => length row <= length headers) rws ->
   (exists out, pgtool_render.format_table headers rws = Ret out)
   /\ (exists out, pg_tool_cli.format_table headers rws = Ret out))
  /\ (headers <> [] ->
      Exists (fun row => length headers < length row) rws ->
      pgtool_render.format_table headers rws = Raise (IndexError "list index out of range")
      /\ pg_tool_cli.format_table headers rws
         = Raise (IndexError "list index out of range"))
  /\ pgtool_render.format_table [] rws = Ret "(No rows)"
  /\ pg_tool_cli.format_table [] rws = Ret "(empty result)".
Proof.
  split; [| split; [| split; reflexivity]].
  - intros Hne Hall.
    assert (H1 : Forall (fun row => length row <= length (map py_len headers))
                   (map (map pgtool_render.stringify) rws)).
    { apply Forall_map. eapply Forall_impl; [exact Hall |].
      intros row Hrow. simpl. rewrite !length_map. exact Hrow. }
    assert (H2 : Forall (fun row => length row <= length (map py_len headers))
                   (map (map pg_tool_cli.stringify) rws)).
    { apply Forall_map. eapply Forall_impl; [exact Hall |].
      intros row Hrow. simpl. rewrite !length_map. exact Hrow. }
    destruct (widen_all_fits _ _ H1) as (w1 & Hw1 & _).
    destruct (widen_all_fits _ _ H2) as (w2 & Hw2 & _).
    unfold pgtool_render.format_table, pg_tool_cli.format_table.
    destruct headers as [| h more]; [contradiction |].
    rewrite Hw1, Hw2. split; [| eauto].
    destruct (map (pgtool_render.format_row w1) (map (map pgtool_render.stringify) rws));
      eauto.
  - intros Hne Hex.
    assert (H1 : Exists (fun row => length (map py_len headers) < length row)
                   (map (map pgtool_render.stringify) rws)).
    { apply Exists_map. eapply Exists_impl; [exact Hex |].
      intros row Hrow. simpl. rewrite !length_map. exact Hrow. }
    assert (H2 : Exists (fun row => length (map py_len headers) < length row)
                   (map (map pg_tool_cli.stringify) rws)).
    { apply Exists_map. eapply Exists_impl; [exact Hex |].
      intros row Hrow. simpl. rewrite !length_map. exact Hrow. }
    unfold pgtool_render.format_table, pg_tool_cli.format_table.
    destruct headers as [| h more]; [contradiction |].
    rewrite (widen_all_too_long _ _ H1), (widen_all_too_long _ _ H2). split; reflexivity.
Qed.

Lemma py_len_app (a b : string) :
  py_len (a +:+ b) = py_len a + py_len b.
Proof.
  induction a as [| c rest IH]; simpl; [reflexivity |].
  destruct (is_continuation c); rewrite IH; reflexivity.
Qed.

Lemma repeat_char_length (c : ascii) (n : nat) :
  is_continuation c = false -> py_len (repeat_char c n) = n.
Proof.
  intros Hc. induction n as [| n IH]; simpl; [reflexivity |].
  rewrite Hc, IH. reflexivity.
Qed.

Lemma ljust_fits (cell : string) (width : nat) :
  py_len cell <= width -> py_len (ljust cell width) = width.
Proof.
  intros Hle. unfold ljust.
  rewrite py_len_app, (repeat_char_length (ascii_of_nat 32) _ eq_refl). lia.
Qed.

Lemma join_length (sep : string) (parts : list string) :
  py_len (join sep parts)
  = list_sum (map py_len parts) + py_len sep * (length parts - 1).
Proof.
  unfold join. induction parts as [| x rest IH]; [simpl; lia |].
  destruct rest as [| y more].
  - simpl. lia.
  - change (String.concat sep (x :: y :: more))
      with (x +:+ sep +:+ String.concat sep (y :: more)).
    rewrite !py_len_app, IH.
    replace (length (x :: y :: more) - 1) with (S (length (y :: more) - 1))
      by (simpl; lia).
    rewrite Nat.mul_succ_r.
    change (map py_len (x :: y :: more))
      with (py_len x :: map py_len (y :: more)).
    change (list_sum (py_len x :: map py_len (y :: more)))
      with (py_len x + list_sum (map py_len (y :: more))).
    lia.
Qed.

Lemma format_cells_lengths (widths : list nat) (row : list string) :
  forall idx,
    (forall j cell, row !! j = Some cell ->
       exists w, widths !! (idx + j) = Some w /\ py_len cell <= w) ->
    map py_len (format_cells widths idx row)
    = firstn (length row) (skipn idx widths).
Proof.
  induction row as [| cell rest IH]; intros idx Hfit; simpl; [reflexivity |].
  destruct (Hfit 0 cell eq_refl) as (w & Hw & Hle). rewrite Nat.add_0_r in Hw.
  rewrite (nth_lookup_Some _ _ 0 _ Hw), (ljust_fits cell w Hle).
  change (skipn idx widths) with (drop idx widths).
  rewrite (drop_S _ _ _ Hw). simpl. f_equal.
  apply IH. intros j c Hj. replace (S idx + j) with (idx + S j) by lia.
  apply Hfit. exact Hj.
Qed.

Lemma format_row_length (widths : list nat) (row : list string) :
  length row = length widths ->
  (forall j cell, row !! j = Some cell ->
     exists w, widths !! j = Some w /\ py_len cell <= w) ->
  py_len (format_row widths row) = list_sum widths + 3 * (length widths - 1).
Proof.
  intros Hlen Hfit. unfold format_row. rewrite join_length.
  rewrite (format_cells_lengths widths row 0 Hfit). simpl.
  rewrite Hlen, firstn_all.
  assert (Hl : length (format_cells widths 0 row) = length widths).
  { rewrite <- (length_map py_len), (format_cells_lengths widths row 0 Hfit).
    simpl. rewrite Hlen, firstn_all. reflexivity. }
  rewrite Hl. reflexivity.
Qed.

(** X15.  The lines of a table of [render.format_table] are aligned: when
    there is at least one row and every row has as many cells as there are
    headers, the text is the header line, the separator and one line for
    each row, joined by newlines, and all these lines have the same
    length. *)
Theorem format_table_lines_align (headers : list string) (rws : list (list pyval)) :
  headers <> [] -> rws <> [] ->
  Forall (fun row => length row = length headers) rws ->
  exists lines width,
    pgtool_render.format_table headers rws = Ret (join nl lines)
    /\ length lines = 2 + length rws
    /\ Forall (fun line => py_len line = width) lines.
Proof.
  intros Hh Hr Hall.
  set (srows := map (map pgtool_render.stringify) rws).
  assert (Hs : Forall (fun row => length row <= length (map py_len headers)) srows).
  { unfold srows. apply Forall_map. eapply Forall_impl; [exact Hall |].
    intros row Hrow. simpl in *. rewrite !length_map, Hrow. apply Nat.le_refl. }
  destruct (widen_all_fits srows _ Hs) as (widths & Hrun & Hlen & Hmono & Hcells).
  rewrite length_map in Hlen.
  exists (format_row widths headers
          :: join "-+-" (map (repeat_char (ascii_of_nat 45)) widths)
          :: map (format_row widths) srows),
         (list_sum widths + 3 * (length widths - 1)).
  split; [| split].
  - unfold pgtool_render.format_table. fold srows. rewrite Hrun.
    destruct headers as [| h more]; [contradiction |].
    destruct rws as [| row rest]; [contradiction |]. reflexivity.
  - simpl. unfold srows. rewrite !length_map. reflexivity.
  - repeat apply Forall_cons_2.
    + apply format_row_length; [congruence |].
      intros j h Hj.
      destruct (Hmono j (py_len h)) as (w & Hw & Hle).
      { rewrite list_lookup_fmap, Hj. reflexivity. }
      eauto.
    + rewrite join_length, length_map, map_map.
      rewrite (map_ext _ (fun w => w)
                 (fun w => repeat_char_length (ascii_of_nat 45) w eq_refl)), map_id. reflexivity.
    + apply Forall_forall. intros line Hline.
      apply list_elem_of_In, in_map_iff in Hline as (srow & <- & Hin).
      apply format_row_length.
      * unfold srows in Hin. apply in_map_iff in Hin as (row & <- & Hin).
        rewrite length_map, Hlen.
        rewrite Forall_forall in Hall. apply Hall. apply list_elem_of_In. exact Hin.
      * intros j cell Hj. exact (Hcells srow j cell Hin Hj).
Qed.

End TableProperties.

(** * More properties of pgtool/db.py *)

Section ReadingProperties.
Context `{P : Platform}.
Import pgtool_config pgtool_db.

Lemma connect_raises (s s1 : state) (e : exn) :
  connect s = (Raise e, s1) -> s1 = s.
Proof.
  unfold connect. destruct (_connection (fst s)); [discriminate |].
  destruct (connect_error _); [| discriminate]. intros [= _ <-]. reflexivity.
Qed.

Lemma run_query_fetch_keeps_world (query : string) (params : option (list pyval))
  (s s' : state) (r : outcome (list string * list (list pyval))) :
  (forall c, _connection (fst s) = Some c -> autocommit c = false) ->
  run_query query params true s = (r, s') -> snd s' = snd s.
Proof.
  intros Hauto Hrun.
  destruct (connect s) as [[[] | e] s1] eqn:Hconn.
  2:{ rewrite (run_query_connect_fails _ _ _ _ _ _ Hconn) in Hrun.
      injection Hrun as _ <-. rewrite (connect_raises _ _ _ Hconn). reflexivity. }
  rewrite (run_query_after_connect _ _ _ _ _ Hconn) in Hrun.
  destruct (connect_returns s s1 Hconn) as (Hw & _ & c & Hc & Hfresh & Hsame).
  assert (Ha : autocommit c = false).
  { destruct (_connection (fst s)) as [c0 |] eqn:H0.
    - rewrite (Hsame c0 eq_refl). apply Hauto. reflexivity.
    - rewrite (Hfresh eq_refl). reflexivity. }
  destruct s1 as [[cfg1 c1] w1]. simpl in Hc, Hw. subst c1 w1.
  destruct (closed c) eqn:Hcl.
  { rewrite run_query_closed in Hrun by exact Hcl. injection Hrun as _ <-. reflexivity. }
  rewrite run_query_connected in Hrun by exact Hcl.
  destruct (drv_execute (Sql query) params c (durable (snd s))) as [[[cur | e] c2] d2] eqn:Hx;
    destruct (drv_execute_keeps_durable _ _ _ _ _ _ _ Ha Hx) as (-> & _ & _).
  - simpl in Hrun. destruct (has_columns cur); injection Hrun as _ <-;
      simpl; apply set_durable_same.
  - injection Hrun as _ <-. simpl. apply set_durable_same.
Qed.

(** X16.  A query that is run to fetch never commits and never writes: on
    a session whose connection is not in autocommit mode, whatever the
    statement does and whether it succeeds or fails, [run_query] with
    [fetch=True], [list_tables] and [describe_table] leave the committed
    contents of the database, the files and the output as they were.  (As
    everywhere in the model of the driver, the statement is one that does
    not end the transaction by itself: no [COMMIT] is part of its text.) *)
Theorem reading_keeps_the_world (s : state) :
  (forall c, _connection (fst s) = Some c -> autocommit c = false) ->
  (forall query params r s', run_query query params true s = (r, s') -> snd s' = snd s)
  /\ (forall include_system r s', list_tables include_system s = (r, s') -> snd s' = snd s)
  /\ (forall table r s', describe_table table s = (r, s') -> snd s' = snd s).
Proof.
  intros Hauto. split; [| split].
  - intros query params r s'. apply run_query_fetch_keeps_world. exact Hauto.
  - intros include_system r s'. unfold list_tables, bind.
    destruct (run_query (list_tables_query include_system) None true s) as [[res | e] s1] eqn:Hrun;
      pose proof (run_query_fetch_keeps_world _ _ _ _ _ Hauto Hrun) as Hw;
      intros [= _ <-]; exact Hw.
  - intros table r s'. unfold describe_table, bind.
    match goal with |- context [run_query ?q ?p true s] =>
      destruct (run_query q p true s) as [[res | e] s1] eqn:Hrun end;
      pose proof (run_query_fetch_keeps_world _ _ _ _ _ Hauto Hrun) as Hw;
      intros [= _ <-]; exact Hw.
Qed.

(** X17.  [execute_script] commits the script or nothing, for a script
    that holds no [COMMIT] or [ROLLBACK] of its own: on a usable connection
    outside autocommit mode, such a script that the server accepts is
    committed, with what the connection had pending, and the transaction is
    over; such a script that the server refuses makes [execute_script] raise
    the error of the driver, commits nothing and leaves the transaction of
    the connection aborted. *)
Theorem execute_script_commits_or_fails (cfg : DatabaseConfig) (c : conn) (w : world)
  (sql : string) :
  in_transaction_mode c ->
  match server_exec (Sql sql) None (conn_view c (durable w)) with
  | inr (d', _, _) =>
      execute_script sql (mk_db cfg (Some c), w)
      = (Ret tt, (mk_db cfg (Some (set_tx Idle c)), set_durable d' w))
  | inl msg =>
      execute_script sql (mk_db cfg (Some c), w)
      = (Raise (DriverError msg), (mk_db cfg (Some (set_tx InError c)), w))
  end.
Proof.
  intros (Hcl & Ha & Ht).
  assert (Hcur : with_cursor (bind (on_connection (drv_execute (Sql sql) None))
                                   (fun _ => ret tt)) (mk_db cfg (Some c), w)
                 = match server_exec (Sql sql) None (conn_view c (durable w)) with
                   | inr (d', _, _) =>
                       (Ret tt, (mk_db cfg (Some (set_tx (InTrans d') c)), w))
                   | inl msg =>
                       (Raise (DriverError msg), (mk_db cfg (Some (set_tx InError c)), w))
                   end).
  { unfold with_cursor.
    rewrite (bind_ret_step _ _ _ _ _ (connect_again cfg c w)).
    unfold on_connection at 1. unfold bind at 1. simpl. unfold drv_cursor. rewrite Hcl.
    rewrite set_durable_same. rewrite try_finally_nothing.
    unfold bind, on_connection, drv_execute. simpl. rewrite Hcl, Ha.
    destruct w as [d fs so se]. simpl.
    destruct (server_exec (Sql sql) None (conn_view c d)) as [msg | [[d' desc] rws]];
      destruct (tx c); try contradiction; reflexivity. }
  unfold execute_script.
  destruct (server_exec (Sql sql) None (conn_view c (durable w)))
    as [msg | [[d' desc] rws]].
  - rewrite (bind_raise_step _ _ _ _ _ Hcur). reflexivity.
  - rewrite (bind_ret_step _ _ _ _ _ Hcur).
    unfold bind, connect, on_connection, drv_commit. simpl. rewrite Hcl. reflexivity.
Qed.

(** X18.  What a fetching query leaves pending is committed by the next
    query that is run without fetching: on a usable connection outside
    autocommit mode, when the server accepts a first statement run with
    [fetch=True] and then a second one run with [fetch=False], the second
    works on the result of the first, and after it the committed contents
    are the result of both. *)
Theorem pending_work_is_committed_later (cfg : DatabaseConfig) (c : conn) (w : world)
  (q1 q2 : string) (p1 p2 : option (list pyval)) (d1 d2 : DB)
  (desc1 desc2 : option (list string)) (rws1 rws2 : list (list pyval)) :
  in_transaction_mode c ->
  server_exec (Sql q1) p1 (conn_view c (durable w)) = inr (d1, desc1, rws1) ->
  server_exec (Sql q2) p2 d1 = inr (d2, desc2, rws2) ->
  bind (run_query q1 p1 true) (fun _ => run_query q2 p2 false) (mk_db cfg (Some c), w)
  = (Ret ([], []), (mk_db cfg (Some (set_tx Idle c)), set_durable d2 w)).
Proof.
  intros (Hcl & Ha & Ht) Hs1 Hs2.
  assert (Hfirst : exists res,
            run_query q1 p1 true (mk_db cfg (Some c), w)
            = (Ret res, (mk_db cfg (Some (set_tx (InTrans d1) c)), w))).
  { rewrite run_query_connected by exact Hcl.
    rewrite (drv_execute_accepts (Sql q1) p1 c _ _ _ _ Hcl Ha Ht eq_refl Hs1).
    rewrite set_durable_same. simpl.
    destruct (has_columns (mk_cursor desc1 rws1)); eauto. }
  destruct Hfirst as [res Hfirst]. rewrite (bind_ret_step _ _ _ _ _ Hfirst).
  rewrite run_query_connected by exact Hcl.
  assert (Hx : drv_execute (Sql q2) p2 (set_tx (InTrans d1) c) (durable w)
               = (Ret (mk_cursor desc2 rws2), set_tx (InTrans d2) c, durable w)).
  { unfold drv_execute. simpl. rewrite Hcl, Ha.
    change (conn_view (set_tx (InTrans d1) c) (durable w)) with d1. rewrite Hs2.
    reflexivity. }
  rewrite Hx. simpl. unfold drv_commit. simpl. rewrite Hcl. reflexivity.
Qed.

Lemma yield_batches_all (chunk_size : Z) (fuel : nat) :
  chunk_size <> 0%Z ->
  forall remaining, length remaining < fuel ->
    yield_batches fuel chunk_size remaining = remaining.
Proof.
  intros Hsize. induction fuel as [| fuel IH]; intros remaining Hlen; [lia |].
  simpl. unfold fetchmany. destruct (chunk_size <? 0)%Z eqn:Hneg; simpl.
  - destruct remaining as [| row rest]; [reflexivity |].
    destruct fuel; simpl; rewrite ?app_nil_r; try reflexivity.
    unfold fetchmany. rewrite Hneg. simpl. rewrite app_nil_r. reflexivity.
  - apply Z.ltb_ge in Hneg.
    destruct (Z.to_nat chunk_size) as [| n] eqn:Hn; [lia |].
    destruct remaining as [| row rest]; [reflexivity |]. simpl.
    rewrite IH.
    + rewrite firstn_skipn. reflexivity.
    + simpl in Hlen. rewrite length_skipn. lia.
Qed.

(** X19.  [iter_query] yields every row of the result once, in the order of
    the result, whatever the size of the batches: on a usable connection
    outside autocommit mode, for a statement that the server accepts with a
    result and for any batch size other than 0, the rows yielded are the
    rows of the result, and nothing is committed.  With batch size 0 the
    first batch is empty and no row is yielded. *)
Theorem iter_query_yields_every_row (cfg : DatabaseConfig) (c : conn) (w : world)
  (query : string) (params : option (list pyval)) (chunk_size : Z)
  (d' : DB) (columns : list string) (rws : list (list pyval)) :
  in_transaction_mode c ->
  server_exec (Sql query) params (conn_view c (durable w)) = inr (d', Some columns, rws) ->
  iter_query query params chunk_size (mk_db cfg (Some c), w)
  = (Ret (if (chunk_size =? 0)%Z then [] else rws),
     (mk_db cfg (Some (set_tx (InTrans d') c)), w)).
Proof.
  intros (Hcl & Ha & Ht) Hs. unfold iter_query, with_cursor.
  rewrite (bind_ret_step _ _ _ _ _ (connect_again cfg c w)).
  unfold on_connection at 1. unfold bind at 1. simpl. unfold drv_cursor. rewrite Hcl.
  rewrite set_durable_same, try_finally_nothing.
  assert (Hx : on_connection (drv_execute (Sql query) params) (mk_db cfg (Some c), w)
               = (Ret (mk_cursor (Some columns) rws),
                  (mk_db cfg (Some (set_tx (InTrans d') c)), w))).
  { unfold on_connection. simpl.
    rewrite (drv_execute_accepts (Sql query) params c _ _ _ _ Hcl Ha Ht eq_refl Hs).
    rewrite set_durable_same. reflexivity. }
  rewrite (bind_ret_step _ _ _ _ _ Hx). cbn [description rows]. unfold ret.
  destruct (chunk_size =? 0)%Z eqn:Hz.
  - apply Z.eqb_eq in Hz. subst chunk_size.
    destruct rws; reflexivity.
  - apply Z.eqb_neq in Hz.
    f_equal. f_equal.
    exact (yield_batches_all chunk_size (S (length rws)) Hz rws (Nat.lt_succ_diag_r _)).
Qed.

End ReadingProperties.

(** * Which commands can change the database *)

Section Invariants.
Context `{P : Platform}.

Lemma stays_in_ret {S A : Type} (inv : S -> Prop) (a : A) : stays_in inv (@ret S A a).
Proof. intros s r s' Hs [= _ <-]. exact Hs. Qed.

Lemma stays_in_raise {S A : Type} (inv : S -> Prop) (e : exn) :
  stays_in inv (@raise S A e).
Proof. intros s r s' Hs [= _ <-]. exact Hs. Qed.

Lemma stays_in_lift {S A : Type} (inv : S -> Prop) (o : outcome A) :
  stays_in inv (@lift S A o).
Proof. intros s r s' Hs [= _ <-]. exact Hs. Qed.

Lemma stays_in_bind {S A B : Type} (inv : S -> Prop) (m : M S A) (k : A -> M S B) :
  stays_in inv m -> (forall a, stays_in inv (k a)) -> stays_in inv (bind m k).
Proof.
  intros Hm Hk s r s' Hs. unfold bind. destruct (m s) as [[a | e] s1] eqn:Em.
  - apply (Hk a). exact (Hm _ _ _ Hs Em).
  - intros [= _ <-]. exact (Hm _ _ _ Hs Em).
Qed.

Lemma stays_in_try_finally {S A : Type} (inv : S -> Prop) (body : M S A)
  (cleanup : M S unit) :
  stays_in inv body -> stays_in inv cleanup -> stays_in inv (try_finally body cleanup).
Proof.
  intros Hb Hc s r s' Hs. unfold try_finally.
  destruct (body s) as [r0 s1] eqn:Eb. pose proof (Hb _ _ _ Hs Eb) as Hs1.
  destruct (cleanup s1) as [[u | e] s2] eqn:Ec; intros [= _ <-];
    exact (Hc _ _ _ Hs1 Ec).
Qed.

Lemma stays_in_try_except {S A : Type} (inv : S -> Prop) (sel : exn -> bool)
  (body : M S A) (handler : exn -> M S A) :
  stays_in inv body -> (forall e, stays_in inv (handler e)) ->
  stays_in inv (try_except sel body handler).
Proof.
  intros Hb Hh s r s' Hs. unfold try_except.
  destruct (body s) as [[a | e] s1] eqn:Eb; pose proof (Hb _ _ _ Hs Eb) as Hs1.
  - intros [= _ <-]. exact Hs1.
  - destruct (sel e); [apply (Hh e); exact Hs1 | intros [= _ <-]; exact Hs1].
Qed.

Lemma bind_lift_ret {S A B : Type} (a : A) (k : A -> M S B) :
  bind (lift (Ret a)) k = k a.
Proof. reflexivity. Qed.

Lemma stays_in_fetchall {S : Type} (inv : S -> Prop) (cur : cursor) :
  stays_in inv (@fetchall S cur).
Proof.
  unfold fetchall. destruct (description cur); [apply stays_in_ret | apply stays_in_raise].
Qed.

Lemma leaves_database_ret {O A : Type} (a : A) : leaves_database (O := O) (ret a).
Proof. intros s r s' [= _ <-]. auto. Qed.

Lemma leaves_database_raise {O A : Type} (e : exn) :
  leaves_database (O := O) (A := A) (raise e).
Proof. intros s r s' [= _ <-]. auto. Qed.

Lemma leaves_database_lift {O A : Type} (o : outcome A) :
  leaves_database (O := O) (lift o).
Proof. intros s r s' [= _ <-]. auto. Qed.

Lemma leaves_database_print {O : Type} (line : string) :
  leaves_database (O := O) (print line).
Proof. intros s r s' [= _ <-]. auto. Qed.

Lemma leaves_database_eprint {O : Type} (line : string) :
  leaves_database (O := O) (eprint line).
Proof. intros s r s' [= _ <-]. auto. Qed.

Lemma leaves_database_read_text {O : Type} (p : path) :
  leaves_database (O := O) (read_text p).
Proof. intros s r s' [= _ <-]. auto. Qed.

Lemma leaves_database_fs_update {O : Type}
  (op : gmap path node -> outcome (gmap path node)) :
  leaves_database (O := O) (fs_update op).
Proof.
  intros s r s'. unfold fs_update.
  destruct (op (files (snd s))); intros [= _ <-]; auto.
Qed.

Lemma leaves_database_bind {O A B : Type} (m : M (O * world) A)
  (k : A -> M (O * world) B) :
  leaves_database m -> (forall a, leaves_database (k a)) -> leaves_database (bind m k).
Proof.
  intros Hm Hk s r s'. unfold bind. destruct (m s) as [[a | e] s1] eqn:Em.
  - intros Hka. destruct (Hm _ _ _ Em) as [H1 H2].
    destruct (Hk a _ _ _ Hka) as [H3 H4]. split; congruence.
  - intros [= _ <-]. exact (Hm _ _ _ Em).
Qed.

(** What leaves the object and the database alone keeps every set of
    states that is described by the two. *)
Lemma leaves_database_stays {O A : Type} (inv : O * world -> Prop)
  (m : M (O * world) A) :
  (forall s s', inv s -> fst s' = fst s -> durable (snd s') = durable (snd s) -> inv s') ->
  leaves_database m -> stays_in inv m.
Proof.
  intros Hinv Hm s r s' Hs Hrun. destruct (Hm _ _ _ Hrun) as [H1 H2]. eauto.
Qed.

Lemma with_object_stays {O O' A : Type} (d : DB) (inv : O' * world -> Prop) (o : O')
  (m : M (O' * world) A) :
  (forall w, durable w = d -> inv (o, w)) ->
  (forall s, inv s -> durable (snd s) = d) ->
  stays_in inv m ->
  stays_in (fun s : O * world => durable (snd s) = d) (with_object o m).
Proof.
  intros Hin Hout Hm s r s' Hs. unfold with_object.
  destruct (m (o, snd s)) as [r0 s1] eqn:Em. intros [= _ <-]. simpl.
  apply Hout. apply (Hm _ _ _ (Hin _ Hs) Em).
Qed.

Lemma durable_stays {O A : Type} (d : DB) (m : M (O * world) A) :
  leaves_database m -> stays_in (fun s : O * world => durable (snd s) = d) m.
Proof.
  intros Hm. apply leaves_database_stays; [| exact Hm]. intros s s' Hs _ Hd. congruence.
Qed.

End Invariants.

Ltac frame :=
  repeat first
    [ apply leaves_database_ret | apply leaves_database_raise
    | apply leaves_database_lift | apply leaves_database_print
    | apply leaves_database_eprint | apply leaves_database_read_text
    | apply leaves_database_fs_update
    | apply leaves_database_bind; [| intros ?] ].

Section FetchingCommands.
Context `{P : Platform}.
Import pgtool_config pgtool_db pgtool_cli.

Lemma load_first_leaves_database {O : Type} (candidates : list path) :
  leaves_database (O := O) (load_first candidates).
Proof.
  induction candidates as [| candidate rest IH]; simpl; [frame |].
  intros s r s'. destruct (is_file (files (snd s)) candidate); [| apply IH].
  revert s r s'. unfold load_candidate. frame.
  destruct a0; frame. destruct (mapping_get "database" d); frame.
Qed.

Lemma build_config_leaves_database {O : Type} (args : Namespace) :
  leaves_database (O := O) (build_config args).
Proof.
  unfold build_config, load_config. apply leaves_database_bind;
    [apply load_first_leaves_database | intros file_config]. frame.
Qed.

Lemma read_sql_leaves_database {O : Type} (sql file_path : option string) :
  leaves_database (O := O) (read_sql sql file_path).
Proof.
  unfold read_sql. destruct (given sql && given file_path)%bool; [frame |].
  destruct (given sql); [frame |]. destruct (given file_path); frame.
Qed.

Lemma reading_session_framed {A : Type} (d : DB) (m : M state A) :
  leaves_database m -> stays_in (reading_session d) m.
Proof.
  intros Hm. apply leaves_database_stays; [| exact Hm].
  intros s s' [Hd Ha] Hf Hw. split; [congruence | rewrite Hf; exact Ha].
Qed.

Lemma connect_reading (d : DB) : stays_in (reading_session d) connect.
Proof.
  intros s r s' [Hd Ha]. unfold connect.
  destruct (_connection (fst s)) as [c |] eqn:Ec.
  - intros [= _ <-]. (split; [exact Hd | rewrite Ec; exact Ha]).
  - destruct (connect_error _); intros [= _ <-]; [(split; [exact Hd | rewrite Ec; exact Ha]) |].
    split; simpl; [exact Hd | intros c [= <-]; reflexivity].
Qed.

Lemma close_reading (d : DB) : stays_in (reading_session d) close.
Proof.
  intros s r s' [Hd Ha]. unfold close.
  destruct (_connection (fst s)) as [c |] eqn:Ec; intros [= _ <-].
  - split; simpl; [exact Hd | intros c0 [=]].
  - (split; [exact Hd | rewrite Ec; exact Ha]).
Qed.

Lemma on_connection_reading {A : Type} (d : DB)
  (op : conn -> DB -> outcome A * conn * DB) :
  (forall c d0 r c' d',
     autocommit c = false -> op c d0 = (r, c', d') -> d' = d0 /\ autocommit c' = false) ->
  stays_in (reading_session d) (on_connection op).
Proof.
  intros Hop s r s' [Hd Ha]. unfold on_connection.
  destruct (_connection (fst s)) as [c |] eqn:Ec.
  - destruct (op c (durable (snd s))) as [[r0 c'] d'] eqn:Eop. intros [= _ <-].
    destruct (Hop _ _ _ _ _ (Ha c eq_refl) Eop) as [-> Ha'].
    split; simpl; [exact Hd | intros c0 [= <-]; exact Ha'].
  - intros [= _ <-]. split; [exact Hd | rewrite Ec; exact Ha].
Qed.

Lemma cursor_reading (d : DB) :
  stays_in (reading_session d) (on_connection (fun c d0 => (drv_cursor c, c, d0))).
Proof.
  apply on_connection_reading. intros c d0 r c' d' Ha [= _ <- <-]. auto.
Qed.

Lemma execute_reading (d : DB) (stmt : statement) (params : option (list pyval)) :
  stays_in (reading_session d) (on_connection (drv_execute stmt params)).
Proof.
  apply on_connection_reading. intros c d0 r c' d' Ha Hx.
  destruct (drv_execute_keeps_durable _ _ _ _ _ _ _ Ha Hx) as (Hd & Ha' & _). auto.
Qed.

Lemma run_query_fetch_reading (d : DB) (query : string) (params : option (list pyval)) :
  stays_in (reading_session d) (run_query query params true).
Proof.
  unfold run_query, with_cursor.
  apply stays_in_bind; [apply connect_reading | intros _].
  apply stays_in_bind; [apply cursor_reading | intros _].
  apply stays_in_try_finally; [| apply stays_in_ret].
  apply stays_in_bind; [apply execute_reading | intros cur].
  apply stays_in_bind; [| intros res].
  - destruct (true && has_columns cur)%bool; [| apply stays_in_ret].
    apply stays_in_bind; [apply stays_in_fetchall | intros rws; apply stays_in_ret].
  - simpl. apply stays_in_bind; [apply stays_in_ret | intros _; apply stays_in_ret].
Qed.

Lemma dispatch_reading (d : DB) (cmd : command) :
  fetches_only cmd = true -> stays_in (reading_session d) (dispatch cmd).
Proof.
  destruct cmd as [sql file no_fetch params | include_system | table
                  | output sql file params | script_path]; simpl; intros Hcmd.
  - apply negb_true_iff in Hcmd. subst no_fetch. unfold handle_query.
    apply stays_in_bind;
      [apply reading_session_framed, read_sql_leaves_database | intros text].
    apply stays_in_bind; [apply run_query_fetch_reading | intros res]. simpl.
    apply reading_session_framed. destruct (snd res); frame.
  - unfold handle_tables, list_tables.
    apply stays_in_bind; [| intros rws; apply reading_session_framed; destruct rws; frame].
    apply stays_in_bind; [apply run_query_fetch_reading | intros res; apply stays_in_ret].
  - unfold handle_describe, describe_table.
    apply stays_in_bind; [| intros rws; apply reading_session_framed; destruct rws; frame].
    apply stays_in_bind; [apply run_query_fetch_reading | intros res; apply stays_in_ret].
  - unfold handle_export, export_to_csv.
    apply stays_in_bind;
      [apply reading_session_framed, read_sql_leaves_database | intros text].
    apply stays_in_bind; [| intros dest; apply reading_session_framed; frame].
    apply stays_in_bind; [apply run_query_fetch_reading | intros res].
    apply reading_session_framed. destruct (fst res); frame.
  - discriminate.
Qed.

(** X20.  Of the sub-commands of pgtool only [query --no-fetch] and
    [script] commit: a run of [main] with any other sub-command, [query]
    without [--no-fetch] included, on a statement that holds no [COMMIT] or
    [ROLLBACK] of its own, leaves the committed contents of the database as
    they were, however the run ends.  What such a statement changed is lost
    when the connection is closed. *)
Theorem fetching_commands_keep_the_database `{Pa : Parser} (argv : list string)
  (args : Namespace) (s s' : unit * world) (r : outcome Z) :
  parse_args argv = Ret args ->
  fetches_only (arg_command args) = true ->
  main argv s = (r, s') ->
  durable (snd s') = durable (snd s).
Proof.
  intros Hparse Hcmd Hrun.
  enough (Hmain : stays_in (fun s0 : unit * world => durable (snd s0) = durable (snd s))
                    (main argv))
    by exact (Hmain _ _ _ eq_refl Hrun).
  unfold main. apply stays_in_try_except;
    [| intros e; apply durable_stays; frame ].
  apply stays_in_bind; [| intros _; apply stays_in_ret].
  unfold main_body. rewrite Hparse, bind_lift_ret.
  apply stays_in_bind;
    [apply durable_stays, build_config_leaves_database | intros config].
  apply (with_object_stays (durable (snd s)) (reading_session (durable (snd s)))).
  - intros w Hw. split; [exact Hw | intros c [=]].
  - intros s0 [Hd _]. exact Hd.
  - unfold with_connection.
    apply stays_in_bind; [apply connect_reading | intros _].
    apply stays_in_try_finally; [| apply close_reading].
    apply dispatch_reading. exact Hcmd.
Qed.

End FetchingCommands.

Section CatalogueCommands.
Context `{P : Platform}.
Import pg_tool_cli.

Lemma reading_client_framed {A : Type} (d : DB) (m : M state A) :
  leaves_database m -> stays_in (reading_client d) m.
Proof.
  intros Hm. apply leaves_database_stays; [| exact Hm].
  intros s s' [Hd Ha] Hf Hw. split; [congruence | rewrite Hf; exact Ha].
Qed.

Lemma client_on_connection_reading {A : Type} (d : DB)
  (op : conn -> DB -> outcome A * conn * DB) :
  (forall c d0 r c' d',
     autocommit c = false -> op c d0 = (r, c', d') -> d' = d0 /\ autocommit c' = false) ->
  stays_in (reading_client d) (on_connection op).
Proof.
  intros Hop s r s' [Hd Ha]. unfold on_connection.
  destruct (op (fst s) (durable (snd s))) as [[r0 c'] d'] eqn:Eop. intros [= _ <-].
  destruct (Hop _ _ _ _ _ Ha Eop) as [-> Ha'].
  split; simpl; [exact Hd | exact Ha'].
Qed.

Lemma client_execute_reading (d : DB) (stmt : statement) (params : list pyval) :
  stays_in (reading_client d) (execute stmt params).
Proof.
  unfold execute, new_cursor. apply stays_in_bind; [| intros _].
  - apply client_on_connection_reading. intros c d0 r c' d' Ha [= _ <- <-]. auto.
  - apply client_on_connection_reading. intros c d0 r c' d' Ha Hx.
    destruct (drv_execute_keeps_durable _ _ _ _ _ _ _ Ha Hx) as (Hd & Ha' & _). auto.
Qed.

Lemma fetchall_dicts_stays (inv : state -> Prop) (cur : cursor) :
  stays_in inv (fetchall_dicts cur).
Proof.
  unfold fetchall_dicts.
  apply stays_in_bind; [apply stays_in_fetchall | intros rws; apply stays_in_ret].
Qed.

Lemma client_close_reading (d : DB) : stays_in (reading_client d) close.
Proof. intros s r s' [Hd Ha] [= _ <-]. split; simpl; assumption. Qed.

Lemma print_tables_leaves_database {O : Type} (tables : list pyval) :
  leaves_database (O := O) (print_tables tables).
Proof. unfold print_tables. destruct tables; frame. Qed.

Lemma list_tables_reading (d : DB) (schema : option string) :
  stays_in (reading_client d) (list_tables schema).
Proof.
  unfold list_tables.
  apply stays_in_bind; [apply client_execute_reading | intros cur].
  apply stays_in_bind; [apply fetchall_dicts_stays | intros rws; apply stays_in_lift].
Qed.

Lemma describe_table_reading (d : DB) (table : string) :
  stays_in (reading_client d) (describe_table table).
Proof.
  unfold describe_table.
  apply stays_in_bind; [apply client_execute_reading | intros cur].
  apply fetchall_dicts_stays.
Qed.

Lemma export_table_reading (d : DB) (table : string) (dest : path) :
  stays_in (reading_client d) (export_table table dest).
Proof.
  unfold export_table.
  apply stays_in_bind; [apply client_execute_reading | intros cur].
  apply stays_in_bind; [apply fetchall_dicts_stays | intros rws].
  apply reading_client_framed. destruct (column_names cur); frame.
Qed.

Lemma catalogue_command_reading (d : DB) (cmd : command) (inputs : list input_event) :
  reads_catalogue cmd = true ->
  stays_in (reading_client d) (run_command_line (Some cmd) inputs).
Proof.
  destruct cmd as [| schema | table | sql | table dest | table src truncate];
    simpl; intros Hcmd; try discriminate.
  - apply stays_in_bind; [apply list_tables_reading | intros tables].
    apply reading_client_framed.
    apply leaves_database_bind; [apply print_tables_leaves_database | intros _; frame].
  - apply stays_in_bind; [apply describe_table_reading | intros columns].
    apply reading_client_framed. destruct columns; frame.
  - apply stays_in_bind; [apply export_table_reading | intros _].
    apply reading_client_framed. frame.
Qed.

(** X21.  The sub-commands [tables], [describe] and [export] of pg_tool
    never commit: run without [--autocommit], whatever the server does with
    their statements and however the run ends, [run_cli] leaves the
    committed contents of the database as they were. *)
Theorem catalogue_commands_keep_the_database `{Pa : Parser} (argv : list string)
  (args : Namespace) (cmd : command) (inputs : list input_event)
  (s s' : unit * world) (r : outcome Z) :
  parse_args argv = Ret args ->
  arg_autocommit args = false ->
  arg_command args = Some cmd ->
  reads_catalogue cmd = true ->
  run_cli argv inputs s = (r, s') ->
  durable (snd s') = durable (snd s).
Proof.
  intros Hparse Hauto Hcmd Hreads Hrun.
  enough (Hcli : stays_in (fun s0 : unit * world => durable (snd s0) = durable (snd s))
                   (run_cli argv inputs))
    by exact (Hcli _ _ _ eq_refl Hrun).
  unfold run_cli. rewrite Hparse, bind_lift_ret, Hcmd.
  apply stays_in_try_except; [| intros e; apply durable_stays; frame].
  apply stays_in_bind; [| intros status; apply stays_in_ret].
  unfold with_client. destruct (init (from_args args)) as [c | e] eqn:Einit;
    [| apply stays_in_raise].
  assert (Hc : autocommit c = false).
  { unfold init in Einit. destruct (connect_error _); [discriminate |].
    injection Einit as <-. simpl. exact Hauto. }
  apply (with_object_stays (durable (snd s)) (reading_client (durable (snd s)))).
  - intros w Hw. split; [exact Hw | exact Hc].
  - intros s0 [Hd _]. exact Hd.
  - apply stays_in_try_finally; [| apply client_close_reading].
    apply catalogue_command_reading. exact Hreads.
Qed.

End CatalogueCommands.

(** * The results of [DatabaseClient.run_query] *)

Section ClientQuery.
Context `{P : Platform}.
Import pg_tool_cli.

Lemma map_outcome_length {A B : Type} (f : A -> outcome B) (xs : list A) :
  forall ys, map_outcome f xs = Ret ys -> length ys = length xs.
Proof.
  induction xs as [| x rest IH]; simpl; intros ys.
  - intros [= <-]. reflexivity.
  - destruct (f x) as [y | e]; [| discriminate].
    destruct (map_outcome f rest) as [ys' | e]; [| discriminate].
    intros [= <-]. simpl. f_equal. apply IH. reflexivity.
Qed.

Lemma map_outcome_Forall {A B : Type} (f : A -> outcome B) (Q : B -> Prop)
  (xs : list A) :
  (forall x y, f x = Ret y -> Q y) ->
  forall ys, map_outcome f xs = Ret ys -> Forall Q ys.
Proof.
  intros Hf. induction xs as [| x rest IH]; simpl; intros ys.
  - intros [= <-]. constructor.
  - destruct (f x) as [y | e] eqn:Hx; [| discriminate].
    destruct (map_outcome f rest) as [ys' | e]; [| discriminate].
    intros [= <-]. constructor; [exact (Hf x y Hx) | apply IH; reflexivity].
Qed.

Lemma map_outcome_Forall2 {A B : Type} (f : A -> outcome B) (xs : list A) (ys : list B) :
  Forall2 (fun x y => f x = Ret y) xs ys -> map_outcome f xs = Ret ys.
Proof.
  induction 1 as [| x y xs ys Hxy _ IH]; simpl; [reflexivity |].
  rewrite Hxy, IH. reflexivity.
Qed.

Lemma dict_get_fold_other {A : Type} (k : string) (items : list (string * A)) :
  ~ In k (map fst items) ->
  forall acc,
    dict_get k (fold_left (fun d kv => dict_set (fst kv) (snd kv) d) items acc)
    = dict_get k acc.
Proof.
  induction items as [| [k' v'] rest IH]; simpl; intros Hk acc; [reflexivity |].
  rewrite IH by tauto. apply dict_get_set_other.
  apply String.eqb_neq. intros ->. tauto.
Qed.

Lemma keys_of_combine {A : Type} (names : list string) (values : list A) (k : string) :
  In k (map fst (combine names values)) -> In k names.
Proof.
  intros Hk. apply in_map_iff in Hk as ([k' v] & <- & Hin).
  exact (in_combine_l _ _ _ _ Hin).
Qed.

(** A dict made from distinct keys gives every value back under its key. *)
Lemma dict_of_distinct_keys (names : list string) :
  NoDup names ->
  forall (values : list pyval) (acc : list (string * pyval)),
    length values = length names ->
    Forall2 (fun name v =>
               getitem name
                 (fold_left (fun d kv => dict_set (fst kv) (snd kv) d)
                            (combine names values) acc) = Ret v)
            names values.
Proof.
  induction 1 as [| name names Hfresh Hnodup IH]; intros values acc Hlen.
  - destruct values; [constructor | discriminate].
  - destruct values as [| v values]; [discriminate |]. simpl in Hlen.
    simpl. constructor.
    + unfold getitem. rewrite dict_get_fold_other.
      * rewrite dict_get_set_same. reflexivity.
      * intros Hin. apply Hfresh. apply list_elem_of_In.
        exact (keys_of_combine _ _ _ Hin).
    + apply IH. lia.
Qed.

Lemma format_table_of_rows (headers : list string) (vals : list (list pyval)) :
  Forall (fun row => length row = length headers) vals ->
  exists text, format_table headers vals = Ret text.
Proof.
  intros Hall. unfold format_table. destruct headers as [| h more]; [eauto |].
  set (headers := h :: more) in *.
  assert (Hs : Forall (fun row => length row <= length (map py_len headers))
                 (map (map stringify) vals)).
  { apply Forall_map. eapply Forall_impl; [exact Hall |].
    intros row Hrow. simpl in *. rewrite !length_map, Hrow. apply Nat.le_refl. }
  destruct (widen_all_fits _ _ Hs) as (widths & -> & _). eauto.
Qed.

(** X22.  What [DatabaseClient.run_query] returns is a table: every row
    has exactly one cell for each header, so that [format_table] lays the
    result out and never fails on it with an [IndexError]. *)
Theorem client_query_result_is_a_table (query : string) (s s' : state)
  (headers : list string) (vals : list (list pyval)) :
  run_query query s = (Ret (headers, vals), s') ->
  Forall (fun row => length row = length headers) vals
  /\ exists text, format_table headers vals = Ret text.
Proof.
  intros Hrun.
  assert (Hall : Forall (fun row => length row = length headers) vals).
  { unfold run_query in Hrun.
    apply bind_ret_inv in Hrun as (cur & s1 & _ & Hrun).
    destruct (description cur) as [hs |].
    - apply bind_ret_inv in Hrun as (rws & s2 & _ & Hrun).
      apply bind_ret_inv in Hrun as (vs & s3 & Hvs & Hrun).
      injection Hrun as <- <- _. injection Hvs as Hvs _.
      apply (map_outcome_Forall _ _ _ (fun row => map_outcome_length _ hs) _ Hvs).
    - apply bind_ret_inv in Hrun as (u & s2 & _ & Hrun).
      injection Hrun as <- <- _. constructor. }
  split; [exact Hall | exact (format_table_of_rows _ _ Hall)].
Qed.

(** X23.  [DatabaseClient.run_query] gives the rows of the server back
    unchanged when the column names of the result are distinct: each row
    is made into a dict under the column names and read back by them.  On
    a usable connection outside autocommit mode, for a statement that the
    server accepts with distinct column names and rows of as many values as
    columns, the result is the column names and the rows, and nothing is
    committed. *)
Theorem client_query_returns_the_rows (c : conn) (w : world) (query : string)
  (d' : DB) (columns : list string) (rws : list (list pyval)) :
  in_transaction_mode c ->
  server_exec (Sql query) None (conn_view c (durable w)) = inr (d', Some columns, rws) ->
  NoDup columns ->
  Forall (fun row => length row = length columns) rws ->
  run_query query (c, w) = (Ret (columns, rws), (set_tx (InTrans d') c, w)).
Proof.
  intros (Hcl & Ha & Ht) Hs Hnodup Hall. unfold run_query, execute.
  assert (Hx : bind new_cursor (fun _ => on_connection (drv_execute (Sql query) None)) (c, w)
               = (Ret (mk_cursor (Some columns) rws), (set_tx (InTrans d') c, w))).
  { rewrite (bind_ret_step _ _ _ _ _ (new_cursor_open c w Hcl)).
    unfold on_connection. simpl.
    rewrite (drv_execute_accepts (Sql query) None c _ _ _ _ Hcl Ha Ht eq_refl Hs).
    rewrite set_durable_same. reflexivity. }
  rewrite (bind_ret_step _ _ _ _ _ Hx). cbn [description].
  unfold fetchall_dicts, fetchall, column_names. cbn [description rows].
  unfold bind, ret, lift.
  assert (Hvals : map_outcome
                    (fun row => map_outcome (fun col => getitem col row) columns)
                    (map (dict_row columns) rws) = Ret rws).
  { apply map_outcome_Forall2. apply Forall2_fmap_l.
    apply Forall_Forall2_diag. eapply Forall_impl; [exact Hall |].
    intros row Hrow. simpl in Hrow. apply map_outcome_Forall2.
    exact (dict_of_distinct_keys columns Hnodup row [] Hrow). }
  change (default [] (Some columns)) with columns. rewrite Hvals. reflexivity.
Qed.

End ClientQuery.

(** * The shell *)

Section ShellLoop.
Context `{P : Platform}.
Import pg_tool_cli.

Lemma try_except_print {S : Type} (sel : exn -> bool) (line : string)
  (handler : exn -> M (S * world) unit) (s : S * world) :
  try_except sel (print line) handler s = print line s.
Proof. reflexivity. Qed.

(** X24.  A command line of the shell that lacks its arguments, or whose
    first word is no command, is answered with one line on the output and
    nothing else: [handle_command] returns, sends nothing to the server and
    leaves the connection and the files as they were.  These are [describe]
    and [query] without argument, [export] with other than two arguments,
    [import] with fewer than two, and every unknown word. *)
Theorem malformed_command_is_answered (command cmd : string) (args : list string)
  (s : state) :
  split_ws command = cmd :: args ->
  answered_without_database cmd args = true ->
  exists line, handle_command command s = print line s.
Proof.
  intros Hsplit Hans. unfold handle_command. rewrite Hsplit.
  unfold run_command. unfold answered_without_database in Hans.
  destruct (String.eqb cmd "tables"); [discriminate |].
  destruct (String.eqb cmd "describe").
  { destruct args; [| discriminate]. eexists. apply try_except_print. }
  destruct (String.eqb cmd "query").
  { destruct args; [| discriminate]. eexists. apply try_except_print. }
  destruct (String.eqb cmd "export").
  { destruct args as [| a1 [| a2 [| a3 more]]]; try discriminate;
      eexists; apply try_except_print. }
  destruct (String.eqb cmd "import").
  { destruct args as [| a1 [| a2 more]]; try discriminate;
      eexists; apply try_except_print. }
  eexists. apply try_except_print.
Qed.

Lemma handle_command_raises (command : string) (s s' : state) (e : exn) :
  handle_command command s = (Raise e, s') -> is_psycopg_Error e = false.
Proof.
  unfold handle_command. destruct (split_ws command) as [| cmd args]; [discriminate |].
  unfold try_except. destruct (run_command cmd args s) as [[u | e0] s1]; [discriminate |].
  destruct (is_psycopg_Error e0) eqn:He; [discriminate |].
  intros [= <- _]. exact He.
Qed.

(** X25.  The shell is not ended by an error of the database: whatever is
    entered, when the loop of the shell is left by an exception, the
    exception is not a [psycopg.Error].  (It can be another one: a CSV file
    that cannot be read, a CSV file without header.) *)
Theorem shell_survives_database_errors (inputs : list input_event) (s s' : state)
  (e : exn) :
  serve inputs s = (Raise e, s') -> is_psycopg_Error e = false.
Proof.
  revert s. induction inputs as [| [text |] rest IH]; intros s.
  - discriminate.
  - rewrite serve_line. set (s0 := snd (write_prompt prompt s)). clearbody s0.
    destruct (str_empty (strip text)); [apply IH |].
    destruct (str_in (strip text) ["quit"; "exit"]); [discriminate |].
    destruct (String.eqb (strip text) "help").
    + unfold bind. simpl. apply IH.
    + unfold bind.
      destruct (handle_command (strip text) s0) as [[u | e0] s1] eqn:Hcmd.
      * apply IH.
      * intros [= <- _]. exact (handle_command_raises _ _ _ _ Hcmd).
  - discriminate.
Qed.

(** X26.  The shell reads nothing after [quit] or [exit]: what is entered
    after such a line has no effect at all, on the database, the files or
    the output. *)
Theorem shell_stops_at_quit (before after : list input_event) (text : string)
  (s : state) :
  str_in (strip text) ["quit"; "exit"] = true ->
  serve (before ++ Line text :: after) s = serve (before ++ [Line text]) s.
Proof.
  intros Hquit. revert s. induction before as [| [line |] rest IH]; intros s.
  - simpl app. rewrite !serve_line, Hquit.
    destruct (str_empty (strip text)) eqn:Hempty; [| reflexivity].
    unfold str_empty in Hempty. destruct (strip text); discriminate.
  - simpl app. rewrite !serve_line.
    set (s0 := snd (write_prompt prompt s)). clearbody s0.
    destruct (str_empty (strip line)); [apply IH |].
    destruct (str_in (strip line) ["quit"; "exit"]); [reflexivity |].
    destruct (String.eqb (strip line) "help").
    + unfold bind. destruct (print_help s0) as [[u | e] s1]; [apply IH | reflexivity].
    + unfold bind.
      destruct (handle_command (strip line) s0) as [[u | e] s1]; [apply IH | reflexivity].
  - reflexivity.
Qed.

End ShellLoop.

(** * The properties on the concrete platform *)

(** A DSN in the file and fields on the command line: the DSN alone goes to
    the driver. *)
Lemma connect_kwargs_of_merge_with_dsn_witness :
  pgtool_config.to_connect_kwargs
    (pgtool_config.merge_configs [demo.dsn_cfg; demo.file_cfg; demo.cli_cfg])
  = {[ "dsn" := PStr "postgresql://db.example/sales" ]}.
Proof.
  apply (connect_kwargs_of_merge_with_dsn [demo.dsn_cfg; demo.file_cfg; demo.cli_cfg]).
  apply Exists_cons_hd. reflexivity.
Defined.

(** The option [a] is given twice, the second time with a blank after the
    key, a no-break space (U+00A0) before the value and an equals sign in
    the value. *)
Lemma parse_options_last_wins_witness :
  exists parsed,
    pgtool_cli.parse_options ["a=1"; "a =" +:+ utf8 160 +:+ "x=y"] = Ret parsed
    /\ dict_get "a" parsed = Some "x=y".
Proof.
  apply (parse_options_last_wins ["a=1"] "a " (utf8 160 +:+ "x=y")); reflexivity.
Defined.

(** A mapping with an empty host and a port given as a string. *)
Lemma from_mapping_normalises_witness :
  plain (pgtool_config.mk_config PNone (PInt 5432) (PStr "ops") PNone PNone PNone ∅) = true.
Proof.
  apply (@from_mapping_normalises demo.platform
           [("host", PStr ""); ("port", PStr "5432"); ("user", PStr "ops")]).
  - vm_compute. reflexivity.
  - simpl. discriminate.
Defined.


(** An environment with variables of other programs, one of them with the
    prefix in lower case. *)
Lemma from_environment_ignores_other_variables_witness :
  @pgtool_config.from_environment (demo.platform_in demo.other_variables) "PGTOOL_"
  = Ret pgtool_config.empty_config.
Proof.
  apply (@from_environment_ignores_other_variables (demo.platform_in demo.other_variables)).
  intros kv [<- | [<- | [<- | []]]]; reflexivity.
Defined.

(** No file in the working directory and an empty file in the home
    directory: [load_config] raises for the second location and does not go
    on to the third. *)
Lemma load_config_first_file_decides_witness :
  @pgtool_config.load_config demo.platform unit None (tt, demo.configured_world)
  = (Raise (ValueError
              "Configuration file /home/operator/.pgtool.toml missing [database] section"),
     (tt, demo.configured_world)).
Proof.
  apply (proj2 (@load_config_first_file_decides demo.platform unit
                  [["work"; "pgtool.toml"]]
                  [["home"; "operator"; ".config"; "pgtool"; "config.toml"]]
                  ["home"; "operator"; ".pgtool.toml"] (tt, demo.configured_world)
                  eq_refl eq_refl)
           EmptyString []).
  - vm_compute. reflexivity.
  - vm_compute. reflexivity.
  - intros section. vm_compute. discriminate.
Defined.

(** A table of two columns and one row whose second cell has letters
    outside ASCII: three lines of one length, in characters. *)
Lemma format_table_lines_align_witness :
  exists lines width,
    @pgtool_render.format_table demo.platform ["a"; "b"]
      [[PInt 1; PStr (utf8 233 +:+ "t" +:+ utf8 233)]]
    = Ret (join nl lines)
    /\ length lines = 3
    /\ Forall (fun line => py_len line = width) lines.
Proof.
  apply (@format_table_lines_align demo.platform ["a"; "b"]
           [[PInt 1; PStr (utf8 233 +:+ "t" +:+ utf8 233)]]).
  - discriminate.
  - discriminate.
  - repeat constructor.
Defined.

(** The same table, laid out: the second column is three characters wide,
    and five bytes. *)
Example format_table_counts_characters :
  @pgtool_render.format_table demo.platform ["a"; "b"]
    [[PInt 1; PStr (utf8 233 +:+ "t" +:+ utf8 233)]]
  = Ret ("a | b  " +:+ nl +:+ "--+----" +:+ nl +:+ "1 | " +:+ utf8 233 +:+ "t" +:+ utf8 233).
Proof. vm_compute. reflexivity. Qed.

(** The characters of a string are the string cut into pieces: put
    together again they give the string back. *)
Lemma append_empty (s : string) : s +:+ EmptyString = s.
Proof.
  induction s as [| c rest IH]; [reflexivity |].
  change (String c (rest +:+ EmptyString) = String c rest). rewrite IH. reflexivity.
Qed.

Lemma of_chars_cons (char : string) (cs : list string) :
  of_chars (char :: cs) = char +:+ of_chars cs.
Proof.
  unfold of_chars. destruct cs as [| next more]; [| reflexivity].
  simpl. symmetry. apply append_empty.
Qed.

Lemma of_chars_chars (s : string) : of_chars (chars s) = s.
Proof.
  induction s as [| c rest IH]; [reflexivity |]. simpl.
  destruct (chars rest) as [| [| c' more] others].
  - rewrite <- IH. reflexivity.
  - rewrite of_chars_cons, <- IH. reflexivity.
  - destruct (is_continuation c'); rewrite of_chars_cons, <- IH;
      rewrite ?of_chars_cons; reflexivity.
Qed.

(** White space outside ASCII: [strip] takes a no-break space and a line
    separator away, [split] cuts at a no-break space. *)
Example strip_and_split_know_unicode_space :
  strip (utf8 160 +:+ " v" +:+ utf8 8232) = "v"
  /\ split_ws ("describe" +:+ utf8 160 +:+ "t") = ["describe"; "t"]
  /\ py_len (utf8 233 +:+ "t" +:+ utf8 233) = 3.
Proof. repeat split; vm_compute; reflexivity. Qed.

(** A [DELETE] that is run to fetch leaves the world as it was. *)
Lemma reading_keeps_the_world_witness :
  snd (snd (@pgtool_db.run_query demo.platform "DELETE FROM t" None true
              (pgtool_db.mk_db pgtool_config.empty_config (Some fresh_conn), demo.a_world)))
  = demo.a_world.
Proof.
  apply (proj1 (@reading_keeps_the_world demo.platform
                  (pgtool_db.mk_db pgtool_config.empty_config (Some fresh_conn),
                   demo.a_world)
                  (fun c H => f_equal (fun o => match o with
                                                | Some c0 => autocommit c0
                                                | None => false
                                                end) (eq_sym H)))
           "DELETE FROM t" None _ _ (surjective_pairing _)).
Defined.

(** A script that empties the table is committed. *)
Lemma execute_script_commits_or_fails_witness :
  @pgtool_db.execute_script demo.platform "DELETE FROM t"
    (pgtool_db.mk_db pgtool_config.empty_config (Some fresh_conn), demo.a_world)
  = (Ret tt,
     (pgtool_db.mk_db pgtool_config.empty_config (Some (set_tx Idle fresh_conn)),
      @set_durable demo.platform demo.emptied_table demo.a_world)).
Proof.
  refine (@execute_script_commits_or_fails demo.platform pgtool_config.empty_config
            fresh_conn demo.a_world "DELETE FROM t" _).
  repeat split. discriminate.
Defined.

(** A [DELETE] run to fetch, then a [SELECT] run without fetching: the
    second commits the first. *)
Lemma pending_work_is_committed_later_witness :
  bind (@pgtool_db.run_query demo.platform "DELETE FROM t" None true)
       (fun _ => pgtool_db.run_query "SELECT 1" None false)
       (pgtool_db.mk_db pgtool_config.empty_config (Some fresh_conn), demo.a_world)
  = (Ret ([], []),
     (pgtool_db.mk_db pgtool_config.empty_config (Some (set_tx Idle fresh_conn)),
      @set_durable demo.platform demo.emptied_table demo.a_world)).
Proof.
  apply (@pending_work_is_committed_later demo.platform pgtool_config.empty_config
           fresh_conn demo.a_world "DELETE FROM t" "SELECT 1" None None
           demo.emptied_table demo.emptied_table None (Some ["?column?"]) [] [[PInt 1]]).
  - repeat split. discriminate.
  - reflexivity.
  - reflexivity.
Defined.

(** The one row of [SELECT 1], in batches of 1000. *)
Lemma iter_query_yields_every_row_witness :
  @pgtool_db.iter_query demo.platform "SELECT 1" None 1000
    (pgtool_db.mk_db pgtool_config.empty_config (Some fresh_conn), demo.a_world)
  = (Ret [[PInt 1]],
     (pgtool_db.mk_db pgtool_config.empty_config
        (Some (@set_tx demo.platform (@InTrans demo.platform demo.one_table) fresh_conn)),
      demo.a_world)).
Proof.
  apply (@iter_query_yields_every_row demo.platform pgtool_config.empty_config
           fresh_conn demo.a_world "SELECT 1" None 1000 demo.one_table ["?column?"]
           [[PInt 1]]).
  - repeat split. discriminate.
  - reflexivity.
Defined.

(** [pgtool query "DELETE FROM t"] without [--no-fetch]: the exit status
    is 0 and the table keeps its row. *)
Lemma fetching_commands_keep_the_database_witness :
  fst (@pgtool_cli.main demo.platform demo.pgtool_parser ["query"; "DELETE FROM t"]
         (tt, demo.a_world)) = Ret 0%Z
  /\ durable (snd (snd (@pgtool_cli.main demo.platform demo.pgtool_parser
                          ["query"; "DELETE FROM t"] (tt, demo.a_world))))
     = demo.one_table.
Proof.
  split.
  - vm_compute. reflexivity.
  - apply (@fetching_commands_keep_the_database demo.platform demo.pgtool_parser
             ["query"; "DELETE FROM t"]
             (demo.no_args (pgtool_cli.CmdQuery (Some "DELETE FROM t") None false []))
             (tt, demo.a_world) _ _ eq_refl eq_refl (surjective_pairing _)).
Defined.

(** [pg_tool export t out.csv]: the exit status is 0, the file is written
    and the table is as it was. *)
Lemma catalogue_commands_keep_the_database_witness :
  fst (@pg_tool_cli.run_cli demo.platform demo.pg_tool_parser ["export"; "t"; "out.csv"] []
         (tt, demo.a_world)) = Ret 0%Z
  /\ durable (snd (snd (@pg_tool_cli.run_cli demo.platform demo.pg_tool_parser
                          ["export"; "t"; "out.csv"] [] (tt, demo.a_world))))
     = demo.one_table.
Proof.
  split.
  - vm_compute. reflexivity.
  - apply (@catalogue_commands_keep_the_database demo.platform demo.pg_tool_parser
             ["export"; "t"; "out.csv"]
             (demo.plain_args (Some (pg_tool_cli.CmdExport "t" "out.csv")))
             (pg_tool_cli.CmdExport "t" "out.csv") []
             (tt, demo.a_world) _ _ eq_refl eq_refl eq_refl eq_refl (surjective_pairing _)).
Defined.

(** The result of [SELECT 1] is laid out. *)
Lemma client_query_result_is_a_table_witness :
  exists text, @pg_tool_cli.format_table demo.platform ["?column?"] [[PInt 1]] = Ret text.
Proof.
  apply (proj2 (@client_query_result_is_a_table demo.platform "SELECT 1"
                  (fresh_conn, demo.a_world)
                  (@set_tx demo.platform (@InTrans demo.platform demo.one_table) fresh_conn,
                   demo.a_world)
                  ["?column?"] [[PInt 1]] eq_refl)).
Defined.

Lemma client_query_returns_the_rows_witness :
  @pg_tool_cli.run_query demo.platform "SELECT 1" (fresh_conn, demo.a_world)
  = (Ret (["?column?"], [[PInt 1]]),
     (@set_tx demo.platform (@InTrans demo.platform demo.one_table) fresh_conn,
      demo.a_world)).
Proof.
  apply (@client_query_returns_the_rows demo.platform fresh_conn demo.a_world "SELECT 1"
           demo.one_table ["?column?"] [[PInt 1]]).
  - repeat split. discriminate.
  - reflexivity.
  - apply NoDup_singleton.
  - repeat constructor.
Defined.

(** [describe] without a table name. *)
Lemma malformed_command_is_answered_witness :
  exists line,
    @pg_tool_cli.handle_command demo.platform "describe" (fresh_conn, demo.a_world)
    = print line (fresh_conn, demo.a_world).
Proof.
  apply (@malformed_command_is_answered demo.platform "describe" "describe" []);
    reflexivity.
Defined.

(** An import from a file without a header line ends the shell with
    [StopIteration], which is no error of the database. *)
Lemma shell_survives_database_errors_witness :
  fst (@pg_tool_cli.serve demo.platform [pg_tool_cli.Line "import t empty.csv"]
         (fresh_conn, demo.a_world)) = Raise StopIteration
  /\ is_psycopg_Error StopIteration = false.
Proof.
  split.
  - vm_compute. reflexivity.
  - apply (@shell_survives_database_errors demo.platform
             [pg_tool_cli.Line "import t empty.csv"] (fresh_conn, demo.a_world)
             (snd (@pg_tool_cli.serve demo.platform [pg_tool_cli.Line "import t empty.csv"]
                     (fresh_conn, demo.a_world)))).
    vm_compute. reflexivity.
Defined.

(** What follows [quit] is not run. *)
Lemma shell_stops_at_quit_witness :
  @pg_tool_cli.serve demo.platform
    [pg_tool_cli.Line "help"; pg_tool_cli.Line " quit "; pg_tool_cli.Line "query DELETE FROM t"]
    (fresh_conn, demo.a_world)
  = @pg_tool_cli.serve demo.platform [pg_tool_cli.Line "help"; pg_tool_cli.Line " quit "]
      (fresh_conn, demo.a_world).
Proof.
  apply (@shell_stops_at_quit demo.platform [pg_tool_cli.Line "help"]
           [pg_tool_cli.Line "query DELETE FROM t"] " quit "). reflexivity.
Defined.
